(** * Dashboard core: data cleaning, encoding, tests and prediction (app.py)

    A shallow embedding of the algorithmic callbacks of [app.py]:
    [handle_data_cleaning] (outlier detection, imputation), [apply_encoding],
    [perform_test], [train_model], [make_predictions] and the type
    detection helpers.

    Modelling conventions
    - The [data] property of the table is a list of JSON records; every
      callback starts with [pd.DataFrame(data)].  The frame is kept
      column-wise: an ordered list of named columns of cells.
    - A cell is null, a number or a string.  JSON booleans are not
      modelled, and integer and float columns are not told apart.  The
      dtype of a column is inferred from its cells as pandas does when
      it builds the frame.
    - Numbers are exact: binary64 rounding is abstracted, the special
      values are kept ([NInf], [PInf], and NaN as [None]); the sign of
      zero is not tracked.  The mean and the standard deviation that
      outlier detection asks pandas for are arguments; [Binary64] gives
      them as binary64 arithmetic computes them.
    - A Python call either returns or raises: [py A]. *)

From Stdlib Require Import QArith Qround Qabs Qminmax Lqa ZArith Lia Ascii.
From Corelib Require PrimFloat FloatOps SpecFloat.
From stdpp Require Import gmap strings list fin_maps pretty.

(** ** Python results *)

Module Py.

Inductive py (A : Type) : Type :=
| Ret (a : A)
| Raise (exc : string).

Arguments Ret {A} a.
Arguments Raise {A} exc.

Definition bind {A B : Type} (m : py A) (k : A -> py B) : py B :=
  match m with
  | Ret a => k a
  | Raise e => Raise e
  end.

(** [try: body  except Exception as e: return handler(str(e))] *)
Definition try_except {A : Type} (body : py A) (handler : string -> A) : A :=
  match body with
  | Ret a => a
  | Raise e => handler e
  end.

(** [str(KeyError(key))] for a string key. *)
Definition key_error (key : string) : string := "'" +:+ key +:+ "'".

End Py.

Import Py.

#[global] Instance py_ret : MRet py := @Ret.

#[global] Instance py_bind : MBind py := fun A B k m => Py.bind m k.

(** ** Floating-point values with exact finite part *)

Module Float.

Inductive real : Type :=
| NInf
| PInf
| Fin (q : Q).

(** [None] is NaN. *)
Definition float : Type := option real.

Definition nan : float := None.

Definition fin (q : Q) : float := Some (Fin q).

Definition Qltb (a b : Q) : bool := negb (Qle_bool b a).

Definition neg_real (x : real) : real :=
  match x with
  | NInf => PInf
  | PInf => NInf
  | Fin q => Fin (- q)
  end.

Definition add_real (x y : real) : float :=
  match x, y with
  | Fin a, Fin b => Some (Fin (a + b))
  | PInf, NInf | NInf, PInf => None
  | PInf, _ | _, PInf => Some PInf
  | NInf, _ | _, NInf => Some NInf
  end.

(** An infinity of sign [pos] times the finite [a]; also [a / 0]. *)
Definition scale_inf (pos : bool) (a : Q) : float :=
  match (a ?= 0)%Q with
  | Eq => None
  | Gt => Some (if pos then PInf else NInf)
  | Lt => Some (if pos then NInf else PInf)
  end.

Definition mul_real (x y : real) : float :=
  match x, y with
  | Fin a, Fin b => Some (Fin (a * b))
  | Fin a, PInf | PInf, Fin a => scale_inf true a
  | Fin a, NInf | NInf, Fin a => scale_inf false a
  | PInf, PInf | NInf, NInf => Some PInf
  | PInf, NInf | NInf, PInf => Some NInf
  end.

Definition div_real (x y : real) : float :=
  match x, y with
  | Fin a, Fin b => if Qeq_bool b 0 then scale_inf true a else Some (Fin (a / b))
  | Fin _, _ => Some (Fin 0)
  | PInf, Fin b => Some (if Qle_bool 0 b then PInf else NInf)
  | NInf, Fin b => Some (if Qle_bool 0 b then NInf else PInf)
  | _, _ => None
  end.

Definition lift2 (f : real -> real -> float) (x y : float) : float :=
  match x, y with
  | Some a, Some b => f a b
  | _, _ => None
  end.

Definition neg (x : float) : float := option_map neg_real x.

Definition add : float -> float -> float := lift2 add_real.

Definition sub (x y : float) : float := add x (neg y).

Definition mul : float -> float -> float := lift2 mul_real.

Definition div : float -> float -> float := lift2 div_real.

Definition abs (x : float) : float :=
  match x with
  | Some (Fin q) => Some (Fin (Qabs q))
  | Some _ => Some PInf
  | None => None
  end.

Definition lt_real (x y : real) : bool :=
  match x, y with
  | Fin a, Fin b => Qltb a b
  | NInf, PInf | NInf, Fin _ | Fin _, PInf => true
  | _, _ => false
  end.

Definition le_real (x y : real) : bool := negb (lt_real y x).

Definition eq_real (x y : real) : bool :=
  match x, y with
  | Fin a, Fin b => Qeq_bool a b
  | NInf, NInf | PInf, PInf => true
  | _, _ => false
  end.

(** Comparisons with NaN are false. *)
Definition lt (x y : float) : bool :=
  match x, y with
  | Some a, Some b => lt_real a b
  | _, _ => false
  end.

Definition gt (x y : float) : bool := lt y x.

Definition eqb (x y : float) : bool :=
  match x, y with
  | Some a, Some b => eq_real a b
  | _, _ => false
  end.

Definition is_finite (x : real) : bool :=
  match x with
  | Fin _ => true
  | _ => false
  end.

(** Round half to even, as [round] and [numpy.round] do. *)
Definition Qround_half_even (y : Q) : Z :=
  let f := Qfloor y in
  match (y - inject_Z f ?= 1 # 2)%Q with
  | Lt => f
  | Gt => (f + 1)%Z
  | Eq => if Z.even f then f else (f + 1)%Z
  end.

Definition Qround_digits (q : Q) (ndigits : nat) : Q :=
  let scale := inject_Z (10 ^ Z.of_nat ndigits) in
  (inject_Z (Qround_half_even (q * scale)) / scale)%Q.

Definition round_real (x : real) (ndigits : nat) : real :=
  match x with
  | Fin q => Fin (Qround_digits q ndigits)
  | inf => inf
  end.

Definition round (x : float) (ndigits : nat) : float :=
  option_map (fun r => round_real r ndigits) x.

(** Square root, given a square root on the non-negative rationals. *)
Definition sqrt (Qsqrt : Q -> Q) (x : float) : float :=
  match x with
  | Some (Fin q) => if Qltb q 0 then None else Some (Fin (Qsqrt q))
  | Some PInf => Some PInf
  | _ => None
  end.

Definition of_nat (n : nat) : float := fin (inject_Z (Z.of_nat n)).

(** The order of the extended reals, as a proposition. *)
Definition real_lt (x y : real) : Prop :=
  match x, y with
  | Fin a, Fin b => (a < b)%Q
  | NInf, PInf | NInf, Fin _ | Fin _, PInf => True
  | _, _ => False
  end.


(** A square root on the rationals to run the definitions: the integer
    square root at six decimals. *)
Definition Qsqrt_approx (q : Q) : Q :=
  (inject_Z (Z.sqrt (Qfloor (q * inject_Z (10 ^ 12)))) / inject_Z (10 ^ 6))%Q.

End Float.

Import Float.

(** ** Cells, columns and frames *)

Module Frame.

Inductive cell : Type :=
| CNull
| CNum (x : real)
| CStr (s : string).

Definition DataFrame : Type := list (string * list cell).

(** Number of records in [data]; [not data] holds when there is none. *)
Definition nrows (df : DataFrame) : nat :=
  match df with
  | [] => 0
  | (_, vals) :: _ => length vals
  end.

(** All columns have as many cells as the frame has rows. *)
Definition well_formed (df : DataFrame) : Prop :=
  Forall (fun nc => length (snd nc) = nrows df) df.

(** [pd.isna] *)
Definition isna (c : cell) : bool :=
  match c with
  | CNull => true
  | _ => false
  end.

Definition notna (c : cell) : bool := negb (isna c).

(** Python's [==] on cell values; a null is equal to nothing. *)
Definition cell_eqb (a b : cell) : bool :=
  match a, b with
  | CNum x, CNum y => eq_real x y
  | CStr s, CStr t => String.eqb s t
  | _, _ => false
  end.

(** The dtype pandas infers for a column of JSON values is numeric when
    every non-null cell is a number and there is at least one. *)
Definition is_numeric_dtype (col : list cell) : bool :=
  forallb (fun c => match c with CStr _ => false | _ => true end) col
  && existsb (fun c => match c with CNum _ => true | _ => false end) col.

(** The cell holding the integer [z]. *)
Definition num (z : Z) : cell := CNum (Fin (inject_Z z)).

(** The float a numeric column stores for a cell: null is NaN. *)
Definition to_float (c : cell) : float :=
  match c with
  | CNum x => Some x
  | _ => None
  end.

Definition of_float (x : float) : cell :=
  match x with
  | Some r => CNum r
  | None => CNull
  end.

(** [series.dropna()] *)
Definition dropna (col : list cell) : list cell := List.filter notna col.

(** The values of [series.dropna()] of a numeric column. *)
Definition numbers (col : list cell) : list real := omap to_float col.

(** [df[col]]: a missing column is a [KeyError]. *)
Fixpoint getitem (df : DataFrame) (col : string) : py (list cell) :=
  match df with
  | [] => Raise (key_error col)
  | (name, vals) :: rest => if String.eqb name col then Ret vals else getitem rest col
  end.

(** [df[col] = vals]: replace the column in place, or append it. *)
Fixpoint setitem (df : DataFrame) (col : string) (vals : list cell) : DataFrame :=
  match df with
  | [] => [(col, vals)]
  | (name, old) :: rest =>
      if String.eqb name col then (name, vals) :: rest
      else (name, old) :: setitem rest col vals
  end.

(** Row labels at which [p] holds (the frame has a range index). *)
Definition rows_where {A : Type} (p : A -> bool) (col : list A) : list nat :=
  map fst (List.filter (fun ic => p (snd ic)) (combine (seq 0 (length col)) col)).

(** [series.fillna(value)]; filling with NaN changes nothing. *)
Definition fillna (col : list cell) (value : cell) : list cell :=
  map (fun c => if isna c then value else c) col.

End Frame.

Import Frame.

(** ** Column statistics (pandas / numpy reductions) *)

Module Stats.

Fixpoint insert_sorted {A : Type} (leb : A -> A -> bool) (x : A) (l : list A) : list A :=
  match l with
  | [] => [x]
  | y :: t => if leb x y then x :: l else y :: insert_sorted leb x t
  end.

Definition sort_by {A : Type} (leb : A -> A -> bool) (l : list A) : list A :=
  foldr (insert_sorted leb) [] l.

Definition sort : list real -> list real := sort_by le_real.

Definition fsum (xs : list float) : float := foldl add (fin 0) xs.

Definition sum (xs : list real) : float := fsum (map Some xs).

(** [series.mean()] over the non-null values; NaN when there are none. *)
Definition mean (xs : list real) : float := div (sum xs) (of_nat (length xs)).

(** numpy's [_lerp]. *)
Definition lerp (a b : float) (t : Q) : float :=
  let diff_b_a := sub b a in
  if Qltb t (1 # 2) then add a (mul diff_b_a (fin t))
  else sub b (mul diff_b_a (fin (1 - t))).

(** [series.quantile(q)], linear interpolation between the two order
    statistics around the virtual index [(n - 1) * q]. *)
Definition quantile (xs : list real) (q : Q) : float :=
  let s := sort xs in
  let n := length s in
  match n with
  | O => nan
  | S _ =>
      let virtual := (inject_Z (Z.of_nat (n - 1)) * q)%Q in
      let previous := Z.to_nat (Qfloor virtual) in
      let next := Nat.min (previous + 1) (n - 1) in
      let gamma := (virtual - inject_Z (Qfloor virtual))%Q in
      lerp (s !! previous) (s !! next) gamma
  end.

(** [series.median()] *)
Definition median (xs : list real) : float :=
  let s := sort xs in
  let n := length s in
  match n with
  | O => nan
  | S _ =>
      if Nat.odd n then s !! (n / 2)%nat
      else div (add (s !! (n / 2 - 1)%nat) (s !! (n / 2)%nat)) (fin 2)
  end.

(** [series.var()] with [ddof = 1]. *)
Definition var (xs : list real) : float :=
  let avg := mean xs in
  let sqr := map (fun x => let d := sub avg (Some x) in mul d d) xs in
  div (fsum sqr) (of_nat (length xs - 1)).

(** [series.std()] *)
Definition std (Qsqrt : Q -> Q) (xs : list real) : float :=
  Float.sqrt Qsqrt (var xs).

(** Equality of cells in which two nulls are the same value, as in
    [unique] and [value_counts]. *)
Definition same_cell (a b : cell) : bool :=
  cell_eqb a b || (isna a && isna b).

(** [series.unique()]: distinct values in order of first appearance. *)
Fixpoint unique (col : list cell) : list cell :=
  match col with
  | [] => []
  | c :: t => c :: List.filter (fun d => negb (same_cell c d)) (unique t)
  end.

Definition count (v : cell) (col : list cell) : nat :=
  length (List.filter (cell_eqb v) col).

(** Order of cells of one kind: numbers by value, strings by code
    points.  Cells of different kinds are not ordered. *)
Definition cell_leb (a b : cell) : option bool :=
  match a, b with
  | CNum x, CNum y => Some (le_real x y)
  | CStr s, CStr t => Some (String.leb s t)
  | _, _ => None
  end.

Definition same_kind (a b : cell) : bool :=
  match cell_leb a b with
  | Some _ => true
  | None => false
  end.

Definition homogeneous (l : list cell) : bool :=
  match l with
  | [] => true
  | c :: t => forallb (same_kind c) l
  end.

Definition sort_cells (l : list cell) : list cell :=
  sort_by (fun a b => default false (cell_leb a b)) l.

(** [series.mode()]: the most frequent non-null values, sorted when
    they can be compared, else left in order of appearance. *)
Definition mode (col : list cell) : list cell :=
  let vals := dropna col in
  let u := unique vals in
  let best := foldr Nat.max 0%nat (map (fun v => count v vals) u) in
  let modes := List.filter (fun v => Nat.eqb (count v vals) best) u in
  if homogeneous modes then sort_cells modes else modes.

End Stats.

Import Stats.

(** ** Python dictionaries with string keys, in insertion order *)

Module Dict.

Fixpoint get {V : Type} (d : list (string * V)) (k : string) : option V :=
  match d with
  | [] => None
  | (k', v) :: rest => if String.eqb k' k then Some v else get rest k
  end.

(** [d[k] = v] *)
Fixpoint set {V : Type} (d : list (string * V)) (k : string) (v : V) : list (string * V) :=
  match d with
  | [] => [(k, v)]
  | (k', v') :: rest =>
      if String.eqb k' k then (k', v) :: rest else (k', v') :: set rest k v
  end.

End Dict.

(** ** Outlier detection: the [detect-outliers-button] branch of
    [handle_data_cleaning] *)

Module Outliers.

Inductive outlier_method : Type :=
| iqr
| zscore.

(** [outlier_threshold if outlier_threshold else default]: an empty
    input ([None]) and the number [0] are both falsy. *)
Definition threshold_or (outlier_threshold : option Q) (default : Q) : Q :=
  match outlier_threshold with
  | Some k => if Qeq_bool k 0 then default else k
  | None => default
  end.

(** What one pass of the loop body computes for a column: the flagged
    row labels, and how many divisions by [std] were evaluated. *)
Record column_result : Type := {
  outlier_rows : list nat;
  divisions_by_std : nat
}.

Record report : Type := {
  outliers_dict : list (string * list nat);
  outlier_indices : gset nat;
  std_divisions : nat
}.

Section WithReductions.

(** [df[col].mean()] and [df[col].std()] over the non-null values of a
    column, as pandas computes them. *)
Variable series_mean : list real -> float.

Variable series_std : list real -> float.

Definition iqr_bounds (col_data : list real) (outlier_threshold : option Q) : float * float :=
  let q1 := quantile col_data (1 # 4) in
  let q3 := quantile col_data (3 # 4) in
  let iqr := sub q3 q1 in
  let threshold := threshold_or outlier_threshold (3 # 2) in
  let lower_bound := sub q1 (mul (fin threshold) iqr) in
  let upper_bound := add q3 (mul (fin threshold) iqr) in
  (lower_bound, upper_bound).

Definition iqr_rows (col : list cell) (col_data : list real)
    (outlier_threshold : option Q) : column_result :=
  let '(lower_bound, upper_bound) := iqr_bounds col_data outlier_threshold in
  {| outlier_rows :=
       rows_where (fun c => lt (to_float c) lower_bound || gt (to_float c) upper_bound) col;
     divisions_by_std := 0 |}.

Definition zscore_rows (col : list cell) (col_data : list real)
    (outlier_threshold : option Q) : column_result :=
  let threshold := threshold_or outlier_threshold 3 in
  let mean := series_mean col_data in
  let std := series_std col_data in
  if eqb std (fin 0) then {| outlier_rows := []; divisions_by_std := 0 |}
  else
    let z_scores := map (fun c => abs (div (sub (to_float c) mean) std)) col in
    {| outlier_rows := rows_where (fun z => gt z (fin threshold)) z_scores;
       divisions_by_std := length col |}.

(** The loop body up to [if outlier_rows:]; [None] is [continue]. *)
Definition analyse_column (df : DataFrame) (col : string) (outlier_method : outlier_method)
    (outlier_threshold : option Q) : py (option column_result) :=
  series ← getitem df col;
  if negb (is_numeric_dtype series) then mret None
  else
    let col_data := numbers series in
    if (length col_data <=? 1)%nat then mret None
    else
      mret (Some (match outlier_method with
                  | iqr => iqr_rows series col_data outlier_threshold
                  | zscore => zscore_rows series col_data outlier_threshold
                  end)).

(** The rows the loop body finds for a column; none when it skips it. *)
Definition rows_of (df : DataFrame) (outlier_method : outlier_method)
    (outlier_threshold : option Q) (col : string) : list nat :=
  match analyse_column df col outlier_method outlier_threshold with
  | Ret (Some r) => outlier_rows r
  | _ => []
  end.

(** [if outlier_rows: outliers_dict[col] = ...; outlier_indices.update(...)] *)
Definition record_column (acc : report) (col : string) (res : option column_result) : report :=
  match res with
  | None => acc
  | Some r =>
      match outlier_rows r with
      | [] =>
          {| outliers_dict := outliers_dict acc;
             outlier_indices := outlier_indices acc;
             std_divisions := std_divisions acc + divisions_by_std r |}
      | _ :: _ =>
          {| outliers_dict := Dict.set (outliers_dict acc) col (outlier_rows r);
             outlier_indices := outlier_indices acc ∪ list_to_set (outlier_rows r);
             std_divisions := std_divisions acc + divisions_by_std r |}
      end
  end.

Fixpoint detect_loop (df : DataFrame) (outlier_cols : list string)
    (outlier_method : outlier_method) (outlier_threshold : option Q)
    (acc : report) : py report :=
  match outlier_cols with
  | [] => mret acc
  | col :: rest =>
      res ← analyse_column df col outlier_method outlier_threshold;
      detect_loop df rest outlier_method outlier_threshold (record_column acc col res)
  end.

Definition detect_outliers (df : DataFrame) (outlier_cols : list string)
    (outlier_method : outlier_method) (outlier_threshold : option Q) : py report :=
  detect_loop df outlier_cols outlier_method outlier_threshold
    {| outliers_dict := []; outlier_indices := ∅; std_divisions := 0 |}.

End WithReductions.

(** The rows a report flags for a column: its [indices] entry, none
    when the column has no entry. *)
Definition flagged (rep : report) (col : string) : list nat :=
  default [] (Dict.get (outliers_dict rep) col).

(** A value lies outside the interval [[lower, upper]]; nothing lies
    outside an interval with a NaN bound on that side. *)
Definition outside (x : real) (lower upper : float) : Prop :=
  (exists l, lower = Some l /\ real_lt x l) \/ (exists u, upper = Some u /\ real_lt u x).


(** Every selected column is a column of the frame. *)
Definition columns_exist (df : DataFrame) (cols : list string) : Prop :=
  Forall (fun c => exists series, getitem df c = Ret series) cols.

(** All the values are one and the same number. *)
Definition all_equal (xs : list real) : Prop :=
  exists v, Forall (fun x => eq_real x v = true) xs.

End Outliers.

(** ** The reductions of a column in binary64 arithmetic *)

Module Binary64.

(** The binary64 number of a positive integer, exact when the integer
    has at most 53 significant bits. *)
Fixpoint of_pos (p : positive) : PrimFloat.float :=
  match p with
  | xH => PrimFloat.one
  | xO p' => PrimFloat.mul PrimFloat.two (of_pos p')
  | xI p' => PrimFloat.add (PrimFloat.mul PrimFloat.two (of_pos p')) PrimFloat.one
  end.

Definition of_Z (z : Z) : PrimFloat.float :=
  match z with
  | Z0 => PrimFloat.zero
  | Zpos p => of_pos p
  | Zneg p => PrimFloat.opp (of_pos p)
  end.

(** The binary64 number nearest to a fraction whose numerator and
    denominator are exact in binary64: the number a JSON literal is
    read as. *)
Definition of_Q (q : Q) : PrimFloat.float :=
  PrimFloat.div (of_Z (Qnum q)) (of_pos (Qden q)).

Definition of_real (x : real) : PrimFloat.float :=
  match x with
  | Fin q => of_Q q
  | PInf => PrimFloat.infinity
  | NInf => PrimFloat.neg_infinity
  end.

(** The value of a binary64 number. *)
Definition to_float (f : PrimFloat.float) : float :=
  match FloatOps.Prim2SF f with
  | SpecFloat.S754_zero _ => fin 0
  | SpecFloat.S754_infinity s => Some (if s then NInf else PInf)
  | SpecFloat.S754_nan => nan
  | SpecFloat.S754_finite s m e =>
      fin (Qred (inject_Z (if s then Zneg m else Zpos m) * Qpower 2 e))
  end.

(** The cell of a JSON number. *)
Definition json_number (q : Q) : cell := of_float (to_float (of_Q q)).

(** A sum from the left, the order in which numpy adds up fewer than
    eight values; longer columns are added in blocks, which this does
    not follow. *)
Definition sum (xs : list PrimFloat.float) : PrimFloat.float :=
  foldl PrimFloat.add PrimFloat.zero xs.

(** [series.mean()] *)
Definition mean (xs : list real) : float :=
  to_float (PrimFloat.div (sum (map of_real xs)) (of_Z (Z.of_nat (length xs)))).

(** [series.std()]: the mean, the squared deviations from it, their
    sum over [count - 1], and the square root. *)
Definition std (xs : list real) : float :=
  let values := map of_real xs in
  let avg := PrimFloat.div (sum values) (of_Z (Z.of_nat (length xs))) in
  let sqr := map (fun x => let d := PrimFloat.sub avg x in PrimFloat.mul d d) values in
  to_float (PrimFloat.sqrt (PrimFloat.div (sum sqr) (of_Z (Z.of_nat (length xs - 1))))).

End Binary64.

(** ** Imputation: the [apply-imputation-button] branch of
    [handle_data_cleaning] *)

Module Imputation.

Inductive method : Type :=
| mean_method
| median_method
| mode_method
| knn_method.

(** [pd.isna(df[col]).any()] *)
Definition has_missing (col : list cell) : bool := existsb isna col.

(** [KNNImputer(n_neighbors=5).fit_transform(df[[col]])] on one column.
    The imputer rejects infinite input.  With a single feature a row
    that misses it has no defined distance to any donor, so the imputer
    falls back to the mean of the column for every missing entry. *)
Definition knn_fit_transform (col : list cell) : py (list float) :=
  if forallb is_finite (numbers col) then
    mret (map (fun c => match to_float c with
                        | Some x => Some x
                        | None => mean (numbers col)
                        end) col)
  else Raise "Input X contains infinity or a value too large for dtype('float64').".

(** The new content of one selected column, [None] when no assignment
    to [df_imputed[col]] is executed for it. *)
Definition impute_column (col : list cell) (method : method) : py (option (list cell)) :=
  if has_missing col then
    if is_numeric_dtype col then
      match method with
      | mean_method =>
          let imputed_value := mean (numbers col) in
          mret (Some (fillna col (of_float (round imputed_value 3))))
      | median_method =>
          let imputed_value := median (numbers col) in
          mret (Some (fillna col (of_float (round imputed_value 3))))
      | knn_method =>
          knn_imputed_values ← knn_fit_transform col;
          mret (Some (map (fun v => of_float (round v 3)) knn_imputed_values))
      | mode_method => mret None
      end
    else
      match method with
      | mode_method =>
          mret (Some (fillna col (match mode col with
                                  | v :: _ => v
                                  | [] => CNull
                                  end)))
      | _ => mret None
      end
  else mret None.

(** The loop over [selected_columns]: columns are read from [df] and
    written to [df_imputed]. *)
Fixpoint impute_loop (df df_imputed : DataFrame) (selected_columns : list string)
    (method : method) : py DataFrame :=
  match selected_columns with
  | [] => mret df_imputed
  | col :: rest =>
      series ← getitem df col;
      new ← impute_column series method;
      impute_loop df
        (match new with
         | Some vals => setitem df_imputed col vals
         | None => df_imputed
         end) rest method
  end.

Definition impute (df : DataFrame) (selected_columns : list string) (method : method)
    : py DataFrame :=
  impute_loop df df selected_columns method.

(** A column on which mean imputation has nothing left to do. *)
Definition settled (col : list cell) : Prop :=
  impute_column col mean_method = Ret None \/ impute_column col mean_method = Ret (Some col).

End Imputation.

(** ** Encoding: the [encoding_apply_button] branch of [apply_encoding]
    (one-hot and ordinal) *)

Module Encoding.

Inductive encoding_type : Type :=
| onehot
| ordinal.

(** The outcome of the callback: the frame [encoded_df] (before it is
    turned into records for the preview table) with the names of the
    columns it gained, or the message of an early return or of the
    exception handler. *)
Inductive outcome : Type :=
| Encoded (encoded_df : DataFrame) (new_columns : list string)
| Error (message : string).

Definition indicator (b : bool) : cell := CNum (Fin (if b then 1 else 0)).

(** [{val: i for i, val in enumerate(values)}]: a repeated key keeps
    its place and takes the later index. *)
Fixpoint dict_set (d : list (cell * nat)) (k : cell) (v : nat) : list (cell * nat) :=
  match d with
  | [] => [(k, v)]
  | (k', v') :: rest =>
      if cell_eqb k' k then (k', v) :: rest else (k', v') :: dict_set rest k v
  end.

Definition enumerate_map (values : list cell) : list (cell * nat) :=
  foldl (fun d iv => dict_set d (snd iv) (fst iv)) []
    (combine (seq 0 (length values)) values).

Fixpoint dict_get (d : list (cell * nat)) (k : cell) : option nat :=
  match d with
  | [] => None
  | (k', v) :: rest => if cell_eqb k' k then Some v else dict_get rest k
  end.

(** [series.map(ordinal_map)]: a value without a key becomes NaN. *)
Definition map_dict (col : list cell) (ordinal_map : list (cell * nat)) : list cell :=
  map (fun c => match dict_get ordinal_map c with
                | Some i => CNum (Fin (inject_Z (Z.of_nat i)))
                | None => CNull
                end) col.

Definition is_number (c : cell) : bool :=
  match c with
  | CNum _ => true
  | _ => false
  end.

Definition is_string (c : cell) : bool :=
  match c with
  | CStr _ => true
  | _ => false
  end.

(** [encoded_df.to_dict("records")], read back as a frame: a record
    has one value per name, so of several columns of one name the
    records keep the place of the first and the values of the last. *)
Definition to_dict_records (encoded_df : DataFrame) : DataFrame :=
  foldl (fun records nc => Dict.set records (fst nc) (snd nc)) [] encoded_df.

(** The records that the callback returns for the table and stores as
    [full_df]; none with an error. *)
Definition table_of (o : outcome) : DataFrame :=
  match o with
  | Encoded encoded_df _ => to_dict_records encoded_df
  | Error _ => []
  end.

Section WithPython.

(** [str] of a number, and the built-in [sorted] on a list of values. *)
Variable str_num : real -> string.

Variable sorted : list cell -> py (list cell).

(** [str(value)] *)
Definition str (c : cell) : string :=
  match c with
  | CStr s => s
  | CNum x => str_num x
  | CNull => "None"
  end.

(** The categories of [pd.get_dummies]: the distinct non-null values,
    sorted; when numbers and strings are mixed the numbers come first,
    by value, and the strings follow, by code points. *)
Definition levels (col : list cell) : list cell :=
  let u := unique (dropna col) in
  sort_cells (List.filter is_number u) ++ sort_cells (List.filter is_string u).

(** [pd.get_dummies(series, prefix=prefix)] *)
Definition get_dummies (col : list cell) (prefix : string) : DataFrame :=
  map (fun v => (prefix +:+ "_" +:+ str v, map (fun c => indicator (cell_eqb c v)) col))
    (levels col).

Definition encode_onehot (df : DataFrame) (column : string) : py outcome :=
  series ← getitem df column;
  let dummies := get_dummies series column in
  let encoded_df := df ++ dummies in
  mret (Encoded encoded_df (map fst dummies)).

Definition encode_ordinal (df : DataFrame) (column : string) (ordinal_values : list string)
    : py outcome :=
  series ← getitem df column;
  ordinal_map ←
    match ordinal_values with
    | _ :: _ => mret (enumerate_map (map CStr ordinal_values))
    | [] => unique_values ← sorted (unique series); mret (enumerate_map unique_values)
    end;
  let encoded_df := setitem df (column +:+ "_ordinal") (map_dict series ordinal_map) in
  mret (Encoded encoded_df [column +:+ "_ordinal"]).

Definition apply_encoding (data : DataFrame) (column : string)
    (encoding_type : option encoding_type) (ordinal_values : list string) : outcome :=
  if (nrows data =? 0)%nat then Error "No data available"
  else
    match column, encoding_type with
    | EmptyString, _ | _, None => Error "Please select a column and encoding method"
    | _, Some onehot =>
        try_except (encode_onehot data column) (fun e => Error ("Error: " +:+ e))
    | _, Some ordinal =>
        try_except (encode_ordinal data column ordinal_values)
          (fun e => Error ("Error: " +:+ e))
    end.

End WithPython.

(** A stand-in for [str] on numbers, to run the definitions: the
    integer part in decimal. *)
Definition simple_str_num (x : real) : string :=
  match x with
  | Fin q => pretty (Qfloor q)
  | PInf => "inf"
  | NInf => "-inf"
  end.

(** A stand-in for [sorted]: values of one kind are sorted, values of
    different kinds cannot be compared. *)
Definition simple_sorted (values : list cell) : py (list cell) :=
  if homogeneous values then Ret (sort_cells values)
  else Raise "'<' not supported between instances".

(** The number a cell of an indicator column stands for. *)
Definition cell_Q (c : cell) : Q :=
  match c with
  | CNum (Fin q) => q
  | _ => 0%Q
  end.

(** The sum over the given columns of their values in row [i]. *)
Definition row_sum (cols : DataFrame) (i : nat) : Q :=
  foldr Qplus 0%Q (map (fun nc => cell_Q (default CNull (snd nc !! i))) cols).

End Encoding.

(** ** Correlation tests: [perform_test] *)

Module StatTest.

Inductive output : Type :=
| Message (text : string)
| ChiSquared (chi2 p : float) (dof : nat)
| Correlation (name : string) (corr p_value : float)
    (strength direction significance : string) (line : option (float * float)).

(** Truth value of an optional string / click counter. *)
Definition truthy_str (s : option string) : bool :=
  match s with
  | Some (String _ _) => true
  | _ => false
  end.

Definition truthy_nat (n : option nat) : bool :=
  match n with
  | Some (S _) => true
  | _ => false
  end.

(** [df[[x_axis, y_axis]].replace([np.inf, -np.inf], np.nan).dropna()]
    on two numeric columns: the rows in which both values are finite. *)
Definition valid_pairs (xs ys : list cell) : list (Q * Q) :=
  omap (fun ab => match ab with
                  | (CNum (Fin a), CNum (Fin b)) => Some (a, b)
                  | _ => None
                  end) (zip xs ys).

Definition strength_of (corr : float) : string :=
  if lt (abs corr) (fin (3 # 10)) then "weak"
  else if lt (abs corr) (fin (7 # 10)) then "moderate"
  else "strong".

Definition direction_of (corr : float) : string :=
  if gt corr (fin 0) then "positive" else "negative".

Definition significance_of (p_value : float) : string :=
  if lt p_value (fin (5 # 100)) then "significant" else "not significant".

(** The handler of the [except] clause. *)
Definition on_error (e : string) : output := Message ("Error performing test: " +:+ e).

Section WithSciPy.

(** The library calls, applied to [df_valid[x_axis]] and
    [df_valid[y_axis]]; each returns its numbers or raises. *)
Variable pearsonr : string -> string -> list (Q * Q) -> py (float * float).

Variable spearmanr : string -> string -> list (Q * Q) -> py (float * float).

Variable polyfit : string -> string -> list (Q * Q) -> py (float * float).

Variable chi2_contingency : list cell -> list cell -> py (float * float * nat).

(** The statistic, the fitted line and the interpretation, computed on
    the valid rows. *)
Definition correlate (name : string)
    (stat : string -> string -> list (Q * Q) -> py (float * float))
    (with_line : bool) (x_axis y_axis : string) (df_valid : list (Q * Q)) : py output :=
  cp ← stat x_axis y_axis df_valid;
  line ← (if with_line then coef ← polyfit x_axis y_axis df_valid; mret (Some coef)
          else mret None);
  mret (Correlation name (fst cp) (snd cp)
          (strength_of (fst cp)) (direction_of (fst cp)) (significance_of (snd cp))
          line).

(** The [pearson] and [spearman] branches after the check of [y_axis]. *)
Definition correlation (name : string)
    (stat : string -> string -> list (Q * Q) -> py (float * float))
    (with_line : bool) (df : DataFrame) (x_axis y_axis : string) : py output :=
  xs ← getitem df x_axis;
  if negb (is_numeric_dtype xs) then
    mret (Message ("Both X-axis and Y-axis must be numeric for " +:+ name +:+ " Correlation."))
  else
    ys ← getitem df y_axis;
    if negb (is_numeric_dtype ys) then
      mret (Message ("Both X-axis and Y-axis must be numeric for " +:+ name +:+ " Correlation."))
    else
      let df_valid := valid_pairs xs ys in
      if (length df_valid <? 2)%nat then
        mret (Message ("Not enough valid data points for " +:+ name +:+ " correlation."))
      else correlate name stat with_line x_axis y_axis df_valid.

(** The body of the [try] block. *)
Definition run_test (df : DataFrame) (test_type x_axis : string) (y_axis : option string)
    : py output :=
  if String.eqb test_type "chi2" then
    if negb (truthy_str y_axis) then mret (Message "Please select Y-axis for Chi-squared Test.")
    else
      xs ← getitem df x_axis;
      ys ← getitem df (default "" y_axis);
      r ← chi2_contingency xs ys;
      mret (ChiSquared (fst (fst r)) (snd (fst r)) (snd r))
  else if String.eqb test_type "pearson" then
    if negb (truthy_str y_axis) then
      mret (Message "Please select Y-axis for Pearson Correlation.")
    else correlation "Pearson" pearsonr true df x_axis (default "" y_axis)
  else if String.eqb test_type "spearman" then
    if negb (truthy_str y_axis) then
      mret (Message "Please select Y-axis for Spearman Correlation.")
    else correlation "Spearman" spearmanr false df x_axis (default "" y_axis)
  else mret (Message "Invalid test type selected.").

Definition perform_test (n_clicks : option nat) (test_type x_axis y_axis : option string)
    (data : DataFrame) : py output :=
  if negb (truthy_nat n_clicks) || negb (truthy_str test_type)
     || negb (truthy_str x_axis) || (nrows data =? 0)%nat
  then mret (Message "Select test type, variables, and click 'Perform Test'.")
  else
    mret (try_except (run_test data (default "" test_type) (default "" x_axis) y_axis)
            (fun e => Message ("Error performing test: " +:+ e))).

End WithSciPy.

(** Stand-ins for the library calls, to run the definitions: the
    statistic of a library that always raises, the worst case for the
    handler. *)
Definition failing_stat (x_axis y_axis : string) (df_valid : list (Q * Q))
    : py (float * float) :=
  Raise "statistic not available".

Definition failing_chi2 (xs ys : list cell) : py (float * float * nat) :=
  Raise "statistic not available".

(** The column exists and has a numeric dtype. *)
Definition numeric_column (df : DataFrame) (name : string) : Prop :=
  exists series, getitem df name = Ret series /\ is_numeric_dtype series = true.

(** The valid paired points of two columns of the frame. *)
Definition pairs_of (df : DataFrame) (x_axis y_axis : string) : list (Q * Q) :=
  match getitem df x_axis, getitem df y_axis with
  | Ret xs, Ret ys => valid_pairs xs ys
  | _, _ => []
  end.

(** The conditions under which the test cannot be computed: no second
    variable, a variable that is not numeric, fewer than two valid
    paired points. *)
Definition error_condition (df : DataFrame) (x_axis y_axis : option string) : Prop :=
  truthy_str y_axis = false
  \/ ~ numeric_column df (default "" x_axis)
  \/ ~ numeric_column df (default "" y_axis)
  \/ (length (pairs_of df (default "" x_axis) (default "" y_axis)) < 2)%nat.

Definition is_correlation_test (test_type : option string) : Prop :=
  test_type = Some "pearson" \/ test_type = Some "spearman".

End StatTest.

(** ** Random-forest workflow: [train_model] and [make_predictions] *)

Module Forest.

Inductive feature_meta : Type :=
| NumericFeature (mean std : float)
| CategoricalFeature (categories : list cell).

(** Keys of the inverse mapping: Python integers as [train_model] writes
    them; strings are what a JSON object can hold. *)
Inductive key : Type :=
| KInt (i : nat)
| KStr (s : string).

Definition key_eqb (a b : key) : bool :=
  match a, b with
  | KInt i, KInt j => Nat.eqb i j
  | KStr s, KStr t => String.eqb s t
  | _, _ => false
  end.

Fixpoint key_get (d : list (key * cell)) (k : key) : option cell :=
  match d with
  | [] => None
  | (k', v) :: rest => if key_eqb k' k then Some v else key_get rest k
  end.

Inductive target_meta : Type :=
| NumericTarget
| CategoricalTarget (mapping : list (cell * nat)) (inverse_mapping : list (key * cell)).

Record hyper : Type := {
  n_estimators : nat;
  max_depth : option nat;
  test_size : Q;
  random_state : option nat
}.

Record model_info : Type := {
  target : string;
  features : list string;
  target_info : target_meta;
  feature_importances : list (string * Q);
  params : hyper
}.

Record metrics : Type := {
  train_score : float;
  test_score : float;
  n_samples : nat;
  n_features : nat
}.

(** What the fitted classifier is asked for. *)
Record fitted : Type := {
  fit_train_score : float;
  fit_test_score : float;
  fit_importances : list Q
}.

Inductive training : Type :=
| Idle
| TrainingError (message : string)
| Trained (model : model_info) (feature_info : list (string * feature_meta)) (m : metrics).

Inductive trigger : Type :=
| NoTrigger
| ManualButton
| FileButton
| OtherInput.

Inductive prediction : Type :=
| Notice (text : string)
| Nothing
| PredictedClass (predicted : cell) (feature_values : list (string * float))
| PredictedValue (predicted : float) (feature_values : list (string * float))
| FilePredictions (predictions : list cell).

(** Rows kept by [dropna(subset=...)]: every listed column is non-null. *)
Definition keep_mask (cols : list (list cell)) (n : nat) : list bool :=
  map (fun i => forallb (fun col => match col !! i with
                                    | Some c => notna c
                                    | None => false
                                    end) cols) (seq 0 n).

Definition select_rows {A : Type} (mask : list bool) (col : list A) : list A :=
  map snd (List.filter fst (zip mask col)).

(** [str(KeyError(labels))] for a list of labels. *)
Definition key_error_list (labels : list string) : string :=
  "[" +:+ String.concat ", " (map key_error labels) +:+ "]".

(** [df.dropna(subset=subset)]: the labels of the subset that are no
    columns of the frame are a [KeyError]. *)
Definition dropna_subset (df : DataFrame) (subset : list string) : py DataFrame :=
  match List.filter (fun label => negb (existsb (String.eqb label) (map fst df))) subset with
  | _ :: _ as missing => Raise (key_error_list missing)
  | [] =>
      cols ← mapM (getitem df) subset;
      let mask := keep_mask cols (nrows df) in
      mret (map (fun nc => (fst nc, select_rows mask (snd nc))) df)
  end.

Definition one_hot_column (p : cell -> bool) (col : list cell) : list float :=
  map (fun c => fin (if p c then 1 else 0)) col.

Section WithLibraries.

Variable Qsqrt : Q -> Q.

Variable str_num : real -> string.

(** [train_test_split] followed by the fit and scoring of the forest. *)
Variable fit_forest : list (string * list float) -> list cell -> hyper -> py fitted.

(** The refit-and-predict of the file branch of [make_predictions]. *)
Variable forest_fit_predict : DataFrame -> list string -> string -> hyper -> py (list cell).

(** Python's [float] on a string. *)
Variable float_of_string : string -> py float.

(** One pass of the feature loop of [train_model].  The dtype is that
    of the column of the frame as built, which [dropna] does not change. *)
Definition process_feature (numeric : bool) (feature : string) (vals : list cell)
    (acc : list (string * feature_meta) * list (string * list float))
    : list (string * feature_meta) * list (string * list float) :=
  let '(feature_info, X_processed) := acc in
  if numeric then
    let m := mean (numbers vals) in
    let s := Stats.std Qsqrt (numbers vals) in
    let s := if gt s (fin 0) then s else fin 1 in
    (Dict.set feature_info feature (NumericFeature m s),
     Dict.set X_processed feature (map (fun c => div (sub (to_float c) m) s) vals))
  else
    let unique_values := unique vals in
    (Dict.set feature_info feature (CategoricalFeature unique_values),
     foldl (fun X category =>
              Dict.set X (feature +:+ "_" +:+ Encoding.str str_num category)
                (one_hot_column (fun c => cell_eqb c category) vals))
       X_processed unique_values).

Fixpoint process_features (data df : DataFrame) (features : list string)
    (acc : list (string * feature_meta) * list (string * list float))
    : py (list (string * feature_meta) * list (string * list float)) :=
  match features with
  | [] => mret acc
  | feature :: rest =>
      original ← getitem data feature;
      vals ← getitem df feature;
      process_features data df rest
        (process_feature (is_numeric_dtype original) feature vals acc)
  end.

(** The target: label-encoded when it is not numeric and has at most
    ten distinct values. *)
Definition encode_target (numeric : bool) (y : list cell) : target_meta * list cell :=
  if negb numeric && (length (unique y) <=? 10)%nat then
    let target_mapping := Encoding.enumerate_map (unique y) in
    (CategoricalTarget target_mapping (map (fun vi => (KInt (snd vi), fst vi)) target_mapping),
     Encoding.map_dict y target_mapping)
  else (NumericTarget, y).

(** The body of the [try] block of [train_model]. *)
Definition train (data : DataFrame) (target : string) (features : list string)
    (params : hyper) : py training :=
  df ← dropna_subset data (target :: features);
  if (nrows df <? 10)%nat then
    mret (TrainingError "Not enough data after removing missing values. Need at least 10 rows.")
  else
    processed ← process_features data df features ([], []);
    original_y ← getitem data target;
    y ← getitem df target;
    let '(target_info, y_encoded) := encode_target (is_numeric_dtype original_y) y in
    model ← fit_forest (snd processed) y_encoded params;
    mret (Trained
            {| target := target;
               features := features;
               target_info := target_info;
               feature_importances := zip (map fst (snd processed)) (fit_importances model);
               params := params |}
            (fst processed)
            {| train_score := fit_train_score model;
               test_score := fit_test_score model;
               n_samples := nrows df;
               n_features := length (snd processed) |}).

Definition train_model (n_clicks : option nat) (data : DataFrame) (target : option string)
    (features : list string) (params : hyper) : training :=
  if negb (StatTest.truthy_nat n_clicks) || (nrows data =? 0)%nat
     || negb (StatTest.truthy_str target) || (length features =? 0)%nat
  then Idle
  else
    try_except (train data (default "" target) features params)
      (fun e => TrainingError ("Error training model: " +:+ e)).

(** What [dcc.Store] hands back to [make_predictions]: the model went
    through JSON, where the keys of an object are strings. *)
Definition stored_key (k : key) : key :=
  match k with
  | KInt i => KStr (pretty i)
  | KStr s => KStr s
  end.

Definition stored (model : model_info) : model_info :=
  {| target := target model;
     features := features model;
     target_info :=
       match target_info model with
       | NumericTarget => NumericTarget
       | CategoricalTarget mapping inverse_mapping =>
           CategoricalTarget
             (map (fun kv => (CStr (Encoding.str str_num (fst kv)), snd kv)) mapping)
             (map (fun kv => (stored_key (fst kv), snd kv)) inverse_mapping)
       end;
     feature_importances := feature_importances model;
     params := params model |}.

(** [series.astype(float)] on one value. *)
Definition astype_float (c : cell) : py float :=
  match c with
  | CNull => mret nan
  | CNum x => mret (Some x)
  | CStr s => float_of_string s
  end.

(** The feature loop of [make_predictions]; [inl] is the early return
    for a feature the input does not have. *)
Fixpoint preprocess (feature_info : list (string * feature_meta)) (prediction_df : DataFrame)
    (features : list string) (X_processed : list (string * list float))
    : py (string + list (string * list float)) :=
  match features with
  | [] => mret (inr X_processed)
  | feature :: rest =>
      match Dict.get prediction_df feature with
      | None => mret (inl ("Missing feature: " +:+ feature))
      | Some col =>
          match Dict.get feature_info feature with
          | Some (CategoricalFeature categories) =>
              preprocess feature_info prediction_df rest
                (foldl (fun X category =>
                          Dict.set X (feature +:+ "_" +:+ Encoding.str str_num category)
                            (one_hot_column
                               (fun c => String.eqb (Encoding.str str_num c)
                                           (Encoding.str str_num category)) col))
                   X_processed categories)
          | Some (NumericFeature mean std) =>
              xs ← mapM astype_float col;
              preprocess feature_info prediction_df rest
                (Dict.set X_processed feature (map (fun x => div (sub x mean) std) xs))
          | None => Raise (key_error feature)
          end
      end
  end.

(** [zip(manual_values, manual_ids)] collected into a one-row frame. *)
Definition manual_frame (manual_values : list cell) (manual_ids : list string) : DataFrame :=
  foldl (fun d vi => Dict.set d (snd vi) [fst vi]) [] (zip manual_values manual_ids).

(** [sorted(importances.items(), key=lambda x: x[1], reverse=True)[:3]] *)
Definition top_features (importances : list (string * Q)) : list (string * Q) :=
  take 3 (sort_by (fun a b => Qle_bool (snd b) (snd a)) importances).

Definition first_value (col : list float) : float := default nan (head col).

(** The manual branch once the input is preprocessed. *)
Definition simulate (model : model_info) (X_processed : list (string * list float))
    : py prediction :=
  let importances := feature_importances model in
  let feature_values :=
    omap (fun fi => col ← Dict.get X_processed (fst fi); Some (fst fi, first_value col))
      (top_features importances) in
  match target_info model with
  | CategoricalTarget _ inverse_mapping =>
      let class_idx := 0%nat in
      match key_get inverse_mapping (KInt class_idx) with
      | Some predicted => mret (PredictedClass predicted feature_values)
      | None => Raise "0"
      end
  | NumericTarget =>
      let terms :=
        omap (fun fi => col ← Dict.get X_processed (fst fi);
                        Some (mul (first_value col) (fin (snd fi)))) importances in
      match terms with
      | [] => Raise "'int' object has no attribute 'values'"
      | _ :: _ => mret (PredictedValue (fsum terms) feature_values)
      end
  end.

(** The body of the [try] block of [make_predictions]. *)
Definition predict (button_id : trigger) (manual_values : list cell)
    (manual_ids : list string) (file_data : DataFrame) (model : model_info)
    (feature_info : list (string * feature_meta)) : py prediction :=
  match button_id with
  | ManualButton =>
      if (length manual_values =? 0)%nat || (length manual_ids =? 0)%nat then
        mret (Notice "Please fill all input fields")
      else
        X ← preprocess feature_info (manual_frame manual_values manual_ids)
               (features model) [];
        match X with
        | inl notice => mret (Notice notice)
        | inr X_processed => simulate model X_processed
        end
  | FileButton =>
      if (nrows file_data =? 0)%nat then mret (Notice "Please upload a file for prediction")
      else
        X ← preprocess feature_info file_data (features model) [];
        match X with
        | inl notice => mret (Notice notice)
        | inr _ =>
            predictions ← forest_fit_predict file_data (features model) (target model)
                            (params model);
            mret (FilePredictions predictions)
        end
  | _ => mret Nothing
  end.

Definition make_predictions (button_id : trigger) (manual_values : list cell)
    (manual_ids : list string) (file_data : DataFrame) (model : option model_info)
    (feature_info : list (string * feature_meta)) : prediction :=
  match model, feature_info with
  | None, _ | _, [] => Notice "Please train a model first"
  | Some model, _ :: _ =>
      match button_id with
      | NoTrigger => Nothing
      | _ =>
          try_except (predict button_id manual_values manual_ids file_data model feature_info)
            (fun e => Notice ("Error making prediction: " +:+ e))
      end
  end.

(** The value converts under [astype(float)]. *)
Definition converts (c : cell) : bool :=
  match astype_float c with
  | Ret _ => true
  | Raise _ => false
  end.

(** The manual input supplies one value per input field, has a field
    for every feature of the model, and gives every numeric feature a
    value that converts to a float. *)
Definition manual_inputs_ok (feature_info : list (string * feature_meta))
    (features : list string) (manual_values : list cell) (manual_ids : list string) : bool :=
  (length manual_values =? length manual_ids)%nat
  && forallb (fun f => existsb (String.eqb f) manual_ids) features
  && forallb (fun vi => match Dict.get feature_info (snd vi) with
                        | Some (NumericFeature _ _) => converts (fst vi)
                        | _ => true
                        end) (zip manual_values manual_ids).

End WithLibraries.

(** Stand-ins for the libraries, to run the definitions: a fit that
    reports perfect scores and equal importances, a file predictor that
    repeats the first feature, and a [float] that accepts no string. *)
Definition uniform_fit (X : list (string * list float)) (y : list cell) (params : hyper)
    : py fitted :=
  Ret {| fit_train_score := fin 1;
         fit_test_score := fin 1;
         fit_importances := map (fun _ => (1 # Pos.of_nat (length X))%Q) X |}.

Definition echo_predict (df : DataFrame) (features : list string) (target : string)
    (params : hyper) : py (list cell) :=
  match features with
  | f :: _ => getitem df f
  | [] => Raise "no features"
  end.

Definition reject_string (s : string) : py float :=
  Raise ("could not convert string to float: " +:+ s).

Definition default_params : hyper :=
  {| n_estimators := 100; max_depth := None; test_size := 1 # 5; random_state := Some 42%nat |}.

End Forest.

(** ** Type detection: [is_possible_datetime], [is_possible_numeric],
    [is_possible_boolean], [detect_data_type] *)

Module TypeInference.


Definition sample {A : Type} (draw : list nat) (population : list A) (n : nat) : py (list A) :=
  if (length population =? 0)%nat && negb (n =? 0)%nat then
    Raise "a must be greater than 0 unless no samples are taken"
  else if (length population <? n)%nat then
    Raise "Cannot take a larger sample than population when 'replace=False'"
  else mret (omap (fun i => population !! i) draw).

(** The three samples one call of [detect_data_type] may draw. *)
Record draws : Type := {
  draw_datetime : list nat;
  draw_numeric : list nat;
  draw_boolean : list nat
}.

Definition date_formats : list string :=
  ["%Y-%m-%d"; "%m/%d/%Y"; "%d/%m/%Y"; "%Y/%m/%d";
   "%Y-%m-%d %H:%M:%S"; "%m/%d/%Y %H:%M:%S";
   "%d/%m/%Y %H:%M:%S"; "%Y/%m/%d %H:%M:%S"].

Definition true_values : list string := ["true"; "t"; "yes"; "y"; "1"].

Definition false_values : list string := ["false"; "f"; "no"; "n"; "0"].

(** [str.lower] and [str.strip] on byte strings (ASCII letters and
    ASCII white space). *)
Definition lower_ascii (a : ascii) : ascii :=
  let n := nat_of_ascii a in
  if ((65 <=? n) && (n <=? 90))%nat then ascii_of_nat (n + 32) else a.

Fixpoint lower (s : string) : string :=
  match s with
  | EmptyString => EmptyString
  | String a t => String (lower_ascii a) (lower t)
  end.

Definition is_space (a : ascii) : bool :=
  let n := nat_of_ascii a in
  ((n =? 32) || ((9 <=? n) && (n <=? 13)) || ((28 <=? n) && (n <=? 31)))%nat.

Fixpoint lstrip (s : string) : string :=
  match s with
  | EmptyString => EmptyString
  | String a t => if is_space a then lstrip t else s
  end.

Fixpoint rstrip (s : string) : string :=
  match s with
  | EmptyString => EmptyString
  | String a t =>
      match rstrip t with
      | EmptyString => if is_space a then EmptyString else String a EmptyString
      | t' => String a t'
      end
  end.

Definition strip (s : string) : string := rstrip (lstrip s).

Definition is_token (s : string) : bool :=
  existsb (String.eqb s) (true_values ++ false_values).

Definition is_str (c : cell) : bool :=
  match c with
  | CStr _ => true
  | _ => false
  end.

Section WithParsers.

(** Whether [pd.to_datetime(sample, errors='raise')] and
    [pd.to_numeric(sample, errors='raise')] succeed, whether
    [datetime.strptime(s, fmt)] does, and [is_string_dtype]. *)
Variable to_datetime : list cell -> bool.

Variable to_numeric : list cell -> bool.

Variable strptime : string -> string -> bool.

Variable is_string_dtype : list cell -> bool.

Variable str_num : real -> string.

Definition is_possible_datetime (draw : list nat) (series : list cell) : py bool :=
  let non_null := dropna series in
  if (length non_null =? 0)%nat then mret false
  else
    let sample_size := Nat.min 100 (length non_null) in
    smp ← sample draw non_null sample_size;
    if to_datetime smp then mret true
    else
      mret (existsb (fun fmt => forallb (fun x => strptime (Encoding.str str_num x) fmt) smp)
              date_formats).

Definition is_possible_numeric (draw : list nat) (series : list cell) : py bool :=
  if is_numeric_dtype series then mret true
  else
    smp ← sample draw (dropna series) (Nat.min 100 (length series));
    if (length smp =? 0)%nat then mret false
    else mret (to_numeric smp).

(** The [.str] accessor needs string values in the sample; values that
    are not strings are skipped by the membership test. *)
Definition is_possible_boolean (draw : list nat) (series : list cell) : py bool :=
  smp ← sample draw (dropna series) (Nat.min 100 (length series));
  if (length smp =? 0)%nat then mret false
  else
    mret (negb (is_numeric_dtype series) && existsb is_str smp
          && forallb (fun c => match c with
                               | CStr s => is_token (strip (lower s))
                               | _ => true
                               end) smp).

Definition dtype_name (series : list cell) : string :=
  if is_numeric_dtype series then "float64" else "object".

Definition detect_data_type (rng : draws) (series : list cell) : py string :=
  d ← is_possible_datetime (draw_datetime rng) series;
  if (d : bool) then mret "datetime"
  else
    n ← is_possible_numeric (draw_numeric rng) series;
    if (n : bool) then mret "numeric"
    else
      b ← is_possible_boolean (draw_boolean rng) series;
      if (b : bool) then mret "boolean"
      else if is_string_dtype series then
        let unique_count := length (unique (dropna series)) in
        if Qltb (inject_Z (Z.of_nat unique_count))
             (Qmin 50 (inject_Z (Z.of_nat (length series)) * (1 # 2)))
        then mret "categorical" else mret "text"
      else mret (dtype_name series).

End WithParsers.




(** A small stand-in for the parsers, to run the definitions: ISO dates
    and digit strings are accepted, nothing else. *)
Definition is_digit (a : ascii) : bool :=
  let n := nat_of_ascii a in ((48 <=? n) && (n <=? 57))%nat.

Definition digits (s : string) : bool :=
  negb (String.eqb s "") && forallb is_digit (String.list_ascii_of_string s).

Definition iso_date (s : string) : bool :=
  match String.list_ascii_of_string s with
  | [y1; y2; y3; y4; d1; m1; m2; d2; a1; a2] =>
      forallb is_digit [y1; y2; y3; y4; m1; m2; a1; a2]
      && Ascii.eqb d1 "-" && Ascii.eqb d2 "-"
  | _ => false
  end.

Definition simple_to_datetime (smp : list cell) : bool :=
  forallb (fun c => match c with CStr s => iso_date s | _ => true end) smp.

Definition simple_to_numeric (smp : list cell) : bool :=
  forallb (fun c => match c with CStr s => digits s | _ => true end) smp.

Definition simple_strptime (s fmt : string) : bool :=
  String.eqb fmt "%Y-%m-%d" && iso_date s.

Definition simple_is_string_dtype (series : list cell) : bool :=
  negb (is_numeric_dtype series).




End TypeInference.

(** ** Navigation: [update_content] *)

Module Navigation.

(** One entry of the returned list: the style of a panel, the [active]
    flag of a button, or the class of a button. *)
Inductive value : Type :=
| Style (d : list (string * string))
| Flag (b : bool)
| Class (s : string).

Definition shown_style : list (string * string) :=
  [("display", "block"); ("opacity", "1"); ("transition", "all 0.4s ease-in-out");
   ("animation", "fade-in 0.5s ease-out")].

Definition hidden_style : list (string * string) :=
  [("display", "none"); ("opacity", "0"); ("transition", "all 0.4s ease-in-out")].

Definition idx_map : list (string * nat) :=
  [("welcome-button", 0); ("import-button", 1); ("summary-button", 2);
   ("imputation-button", 3); ("statistics-button", 4); ("encoding-button", 5);
   ("tests-button", 6); ("regression-button", 7); ("report-button", 8);
   ("prediction-button", 9); ("faq-button", 10)]%nat.

(** [s.split(".")[0]] *)
Fixpoint before_dot (s : string) : string :=
  match s with
  | EmptyString => EmptyString
  | String a t => if Ascii.eqb a "." then EmptyString else String a (before_dot t)
  end.

(** [triggered] lists the [prop_id] of the entries of [ctx.triggered]. *)
Definition update_content (triggered : list string) : list value :=
  match triggered with
  | [] =>
      [Style shown_style] ++ replicate 10 (Style hidden_style)
      ++ [Flag true] ++ replicate 10 (Flag false)
      ++ [Class "nav-button active"] ++ replicate 10 (Class "nav-button")
  | prop_id :: _ =>
      let button_id := before_dot prop_id in
      let styles := replicate 11 hidden_style in
      let active_states := replicate 11 false in
      let classes := replicate 11 "nav-button" in
      match Dict.get idx_map button_id with
      | Some idx =>
          map Style (<[idx := shown_style]> styles)
          ++ map Flag (<[idx := true]> active_states)
          ++ map Class (<[idx := "nav-button active"]> classes)
      | None => map Style styles ++ map Flag active_states ++ map Class classes
      end
  end.

(** Panel [k] is the one on display: it has the visible style and its
    button is marked active, every other panel is hidden and its button
    is not active. *)
Definition shows (out : list value) (k : nat) : Prop :=
  forall j, (j < 11)%nat ->
    out !! j = Some (Style (if decide (j = k) then shown_style else hidden_style))
    /\ out !! (11 + j)%nat = Some (Flag (bool_decide (j = k)))
    /\ out !! (22 + j)%nat
       = Some (Class (if decide (j = k) then "nav-button active" else "nav-button")).

(** No panel is on display and no button is active. *)
Definition shows_nothing (out : list value) : Prop :=
  forall j, (j < 11)%nat ->
    out !! j = Some (Style hidden_style)
    /\ out !! (11 + j)%nat = Some (Flag false)
    /\ out !! (22 + j)%nat = Some (Class "nav-button").

End Navigation.

(** ** Duplicate rows: the [find-duplicates-button] and
    [remove-duplicates-button] branches of [handle_data_cleaning] *)

Module Duplicates.

(** The record of row [i]: its value in every column. *)
Definition row (df : DataFrame) (i : nat) : list cell :=
  map (fun nc => default CNull (snd nc !! i)) df.

Definition rows (df : DataFrame) : list (list cell) :=
  map (row df) (seq 0 (nrows df)).

(** Two records hold the same values; nulls count as equal, as pandas
    has it when it looks for duplicates. *)
Fixpoint same_row (r1 r2 : list cell) : bool :=
  match r1, r2 with
  | [], [] => true
  | a :: t, b :: u => same_cell a b && same_row t u
  | _, _ => false
  end.

(** [df.duplicated(keep=False)]: every row that occurs more than once. *)
Definition duplicated_all (rs : list (list cell)) : list bool :=
  map (fun r => (2 <=? length (List.filter (same_row r) rs))%nat) rs.

(** [df.duplicated()]: every row that repeats an earlier one. *)
Fixpoint duplicated (seen rs : list (list cell)) : list bool :=
  match rs with
  | [] => []
  | r :: t => existsb (same_row r) seen :: duplicated (r :: seen) t
  end.

(** [df[mask]] *)
Definition select (mask : list bool) (df : DataFrame) : DataFrame :=
  map (fun nc => (fst nc, Forest.select_rows mask (snd nc))) df.

(** [len(df[df.duplicated(keep=False)])] *)
Definition duplicate_count (df : DataFrame) : nat :=
  nrows (select (duplicated_all (rows df)) df).

(** The detection branch: the message, whether the removal button stays
    disabled, and the rows kept in [duplicates-store]. *)
Definition find_duplicates (df : DataFrame) : string * bool * option DataFrame :=
  let duplicates := select (duplicated_all (rows df)) df in
  let duplicate_count := duplicate_count df in
  if (0 <? duplicate_count)%nat then
    ("Found " +:+ pretty duplicate_count +:+ " duplicate rows", false, Some duplicates)
  else ("No duplicate rows found", true, None).

(** [df.drop_duplicates()] *)
Definition drop_duplicates (df : DataFrame) : DataFrame :=
  select (map negb (duplicated [] (rows df))) df.

(** The rows at two different positions differ. *)
Definition distinct_rows (rs : list (list cell)) : Prop :=
  forall i j r1 r2, rs !! i = Some r1 -> rs !! j = Some r2 -> i <> j -> same_row r1 r2 = false.

End Duplicates.

(** ** Outlier treatment: the [handle-outliers-button] branch of
    [handle_data_cleaning] *)

Module Treatment.

Import Outliers.

Inductive handling : Type :=
| remove_handling
| median_handling
| mean_handling
| no_handling.

(** [str] of a list of row labels. *)
Definition repr_labels (l : list nat) : string :=
  "[" +:+ String.concat ", " (map pretty l) +:+ "]".

(** [df.drop(index=labels)] on a frame with a range index; a label that
    is not a row is a [KeyError]. *)
Definition drop_index (df : DataFrame) (labels : list nat) : py DataFrame :=
  match List.filter (fun i => negb (i <? nrows df)%nat) labels with
  | [] =>
      mret (Duplicates.select
              (map (fun i => negb (existsb (Nat.eqb i) labels)) (seq 0 (nrows df))) df)
  | missing => Raise (key_error (repr_labels missing +:+ " not found in axis"))
  end.

Section WithPandas.

(** [series.median()] and [series.mean()] on a column whose dtype is
    not numeric, and the text of the [KeyError] of [df.loc] for labels
    that are not in the index: left to pandas. *)
Variable reduce_object : handling -> list cell -> py float.

Variable loc_error : list nat -> string.

(** [df.loc[indices, col] = replacement] on the cells of the column. *)
Definition loc_assign (series : list cell) (indices : list nat) (replacement : float)
    : py (list cell) :=
  match List.filter (fun i => negb (i <? length series)%nat) indices with
  | [] =>
      mret (imap (fun i c => if existsb (Nat.eqb i) indices then of_float replacement else c)
              series)
  | missing => Raise (loc_error missing)
  end.

(** The value of [replacement] after the two [if]s of the loop body. *)
Definition replacement_of (handling : handling) (df : DataFrame) (col : string) : py float :=
  match handling with
  | median_handling =>
      series ← getitem df col;
      if is_numeric_dtype series then mret (median (numbers series))
      else reduce_object median_handling series
  | mean_handling =>
      series ← getitem df col;
      if is_numeric_dtype series then mret (mean (numbers series))
      else reduce_object mean_handling series
  | _ => Raise "cannot access local variable 'replacement' where it is not associated with a value"
  end.

(** The loop over [outliers_dict.items()]. *)
Fixpoint replace_loop (df : DataFrame) (items : list (string * list nat))
    (handling : handling) : py DataFrame :=
  match items with
  | [] => mret df
  | (col, indices) :: rest =>
      replacement ← replacement_of handling df col;
      series ← getitem df col;
      new ← loc_assign series indices replacement;
      replace_loop (setitem df col new) rest handling
  end.

(** The frame shown after the treatment; [outliers_dict] and
    [outlier_indices] are read from [outliers-store]. *)
Definition handle_outliers (df : DataFrame) (outliers_dict : list (string * list nat))
    (outlier_indices : list nat) (outlier_handling : handling) : py DataFrame :=
  match outlier_handling with
  | remove_handling => drop_index df outlier_indices
  | _ => replace_loop df outliers_dict outlier_handling
  end.

End WithPandas.

(** A stand-in for the reductions pandas is left with, to run the
    definitions: they fail. *)
Definition no_reduce (h : handling) (series : list cell) : py float :=
  Raise "could not convert string to float".

Definition simple_loc_error (missing : list nat) : string :=
  key_error (repr_labels missing +:+ " not in index").

(** What holds of the report all along the detection loop: an entry of
    the dictionary holds the rows found for its column and is not
    empty, and the set of indices is the union of the entries. *)
Definition consistent (series_mean series_std : list real -> float) (df : DataFrame)
    (m : outlier_method) (thr : option Q) (acc : report) : Prop :=
  (forall c rows, Dict.get (outliers_dict acc) c = Some rows ->
                  rows <> [] /\ rows = rows_of series_mean series_std df m thr c)
  /\ (forall i, i ∈ outlier_indices acc <-> exists c, i ∈ flagged acc c).

End Treatment.

(** ** Columns whose sums binary64 arithmetic can hold *)

Module Magnitude.

(** At most a million values, each finite and of magnitude at most
    [1e300]: no sum of such values, in whatever order it is taken,
    leaves the range of binary64. *)
Definition bounded (xs : list real) : Prop :=
  (Z.of_nat (length xs) <= 10 ^ 6)%Z
  /\ Forall (fun x => exists q, x = Fin q /\ (Qabs q <= inject_Z (10 ^ 300))%Q) xs.

End Magnitude.

(** ** The order input of ordinal encoding: [show_ordinal_order_input] *)

Module OrdinalInput.

Import Encoding.

Section WithPython.

Variable str_num : real -> string.

(** The dropdown the callback returns: [None] is the hidden dropdown
    without options, [Some unique_vals] the visible one whose options
    and initial value are [unique_vals]. *)
Definition show_ordinal_order_input (encoding_type : option encoding_type) (col : string)
    (data : DataFrame) : option (list string) :=
  match encoding_type with
  | Some ordinal =>
      if String.eqb col "" || (nrows data =? 0)%nat then None
      else
        match Dict.get data col with
        | None => None
        | Some series =>
            Some (map (str str_num)
                    (sort_by (fun a b => String.leb (str str_num a) (str str_num b))
                       (unique (dropna series))))
        end
  | _ => None
  end.

End WithPython.

End OrdinalInput.

(** ** Conversion suggestions: [get_conversion_suggestion] *)

Module Suggestion.

Import TypeInference.

(** The dictionary the function returns. *)
Record suggestion : Type := {
  from : string;
  to : string;
  method : string;
  example : string
}.

Section WithParsers.

Variable to_datetime : list cell -> bool.

Variable to_numeric : list cell -> bool.

Variable strptime : string -> string -> bool.

Variable is_string_dtype : list cell -> bool.

Variable str_num : real -> string.

Definition get_conversion_suggestion (rng : draws) (series : list cell)
    (current_type : string) : py (option suggestion) :=
  detected_type ← detect_data_type to_datetime to_numeric strptime is_string_dtype str_num
                    rng series;
  if String.eqb detected_type current_type then mret None
  else if String.eqb detected_type "datetime" then
    mret (Some {| from := current_type; to := "datetime"; method := "pd.to_datetime";
                  example := "pd.to_datetime(df['column'], errors='coerce')" |})
  else if String.eqb detected_type "numeric" then
    mret (Some {| from := current_type; to := "numeric"; method := "pd.to_numeric";
                  example := "pd.to_numeric(df['column'], errors='coerce')" |})
  else if String.eqb detected_type "boolean" then
    mret (Some {| from := current_type; to := "boolean"; method := "astype(bool)";
                  example := "df['column'].map({'true': True, 'false': False}).astype(bool)" |})
  else if String.eqb detected_type "categorical" && negb (String.eqb current_type "category")
  then
    mret (Some {| from := current_type; to := "category"; method := "astype('category')";
                  example := "df['column'].astype('category')" |})
  else mret None.

End WithParsers.

End Suggestion.

(** ** Dropdown options: [update_test_dropdowns] and
    [update_regression_dropdowns] *)

Module Options.

(** [df.columns] *)
Definition columns (df : DataFrame) : list string := map fst df.

(** [pd.api.types.is_numeric_dtype(df[col])] for a column of the frame. *)
Definition numeric (df : DataFrame) (col : string) : bool :=
  match getitem df col with
  | Ret series => is_numeric_dtype series
  | Raise _ => false
  end.

Definition numeric_cols (df : DataFrame) : list string :=
  List.filter (numeric df) (columns df).

Definition categorical_cols (df : DataFrame) : list string :=
  List.filter (fun col => negb (numeric df col)) (columns df).

(** The values of the options offered for the two variables of a test. *)
Definition update_test_dropdowns (test_type : option string) (data : DataFrame)
    : list string * list string :=
  if (nrows data =? 0)%nat || negb (StatTest.truthy_str test_type) then ([], [])
  else
    let test_type := default "" test_type in
    if String.eqb test_type "chi2" then (categorical_cols data, categorical_cols data)
    else if String.eqb test_type "pearson" || String.eqb test_type "spearman" then
      (numeric_cols data, numeric_cols data)
    else (columns data, columns data).

(** [df.select_dtypes(include=['number']).columns] for both variables
    of the regression. *)
Definition update_regression_dropdowns (data : DataFrame) : list string * list string :=
  if (nrows data =? 0)%nat then ([], []) else (numeric_cols data, numeric_cols data).

End Options.

(** ** Linear regression: [perform_regression] and [make_prediction] *)

Module Regression.

(** What is read from the fitted results: [params], [rsquared] and
    [f_pvalue]. *)
Record ols_results : Type := {
  params : list float;
  rsquared : float;
  f_pvalue : float
}.

(** The outputs: nothing, the error text, or the equation with the
    four metrics. *)
Inductive regression : Type :=
| NoRegression
| RegressionError (message : string)
| Regressed (equation : string) (metrics : list string).

Inductive predicted : Type :=
| NoPrediction
| PredictionError (message : string)
| Predicted (prediction : float) (prediction_interval : float * float).

(** [df[[x_var, y_var]].dropna()]: the rows in which both values are
    present. *)
Definition complete_pairs (xs ys : list cell) : list (real * real) :=
  omap (fun ab => match ab with
                  | (CNum a, CNum b) => Some (a, b)
                  | _ => None
                  end) (zip xs ys).

(** [x >= y] on floats; false when one of them is NaN. *)
Definition ge (x y : float) : bool := gt x y || eqb x y.

(** The product of a row with the parameters, summed from the left. *)
Definition dot (row params : list float) : float :=
  match zip_with mul row params with
  | [] => fin 0
  | t :: ts => foldl add t ts
  end.

Section WithStatsmodels.

(** [sm.OLS(y, sm.add_constant(X)).fit()] on the columns [x_var] and
    [y_var] of the complete rows; the figure with its confidence band;
    the confidence interval of [results.get_prediction] at a point; the
    formats [.3f] and [.3e]; Python's [float] on a string; the texts of
    the errors of an index out of bounds and of a product of
    mismatched shapes. *)
Variable fit : string -> string -> list (real * real) -> py ols_results.

Variable figure : string -> string -> list (real * real) -> ols_results -> py unit.

Variable conf_int : ols_results -> float -> py (float * float).

Variable format_3f : float -> string.

Variable format_3e : float -> string.

Variable float_of_string : string -> py float.

Variable index_error : nat -> nat -> string.

Variable shape_error : nat -> nat -> string.

(** [results.params[i]] *)
Definition param (results : ols_results) (i : nat) : py float :=
  match params results !! i with
  | Some p => mret p
  | None => Raise (index_error i (length (params results)))
  end.

(** [results.predict([row])[0]] *)
Definition predict_row (results : ols_results) (row : list float) : py float :=
  if (length row =? length (params results))%nat then mret (dot row (params results))
  else Raise (shape_error (length row) (length (params results))).

(** The body of the [try] block of [perform_regression]. *)
Definition regress (df : DataFrame) (x_var y_var : string) : py regression :=
  xs ← getitem df x_var;
  if negb (is_numeric_dtype xs) then
    mret (RegressionError "Both variables must be numeric for regression analysis.")
  else
    ys ← getitem df y_var;
    if negb (is_numeric_dtype ys) then
      mret (RegressionError "Both variables must be numeric for regression analysis.")
    else
      let pairs := complete_pairs xs ys in
      if (length pairs <? 2)%nat then
        mret (RegressionError "Not enough valid data points for regression analysis.")
      else
        results ← fit x_var y_var pairs;
        intercept ← param results 0;
        slope ← param results 1;
        _ ← figure x_var y_var pairs results;
        let equation :=
          "y = " +:+ format_3f slope +:+ "x "
          +:+ (if ge intercept (fin 0) then "+" else "-") +:+ " "
          +:+ format_3f (abs intercept) in
        mret (Regressed equation
                [format_3f slope; format_3f intercept;
                 format_3f (rsquared results); format_3e (f_pvalue results)]).

Definition perform_regression (n_clicks : option nat) (x_var y_var : option string)
    (data : DataFrame) : regression :=
  if negb (StatTest.truthy_nat n_clicks) || negb (StatTest.truthy_str x_var)
     || negb (StatTest.truthy_str y_var) || (nrows data =? 0)%nat
  then NoRegression
  else
    try_except (regress data (default "" x_var) (default "" y_var))
      (fun e => RegressionError ("Error performing regression: " +:+ e)).

(** [float(x_value)] *)
Definition float_of (x_value : cell) : py float :=
  match x_value with
  | CNum x => mret (Some x)
  | CStr s => float_of_string s
  | CNull => Raise "float() argument must be a string or a real number, not 'NoneType'"
  end.

(** The body of the [try] block of [make_prediction]. *)
Definition predict (df : DataFrame) (x_value : cell) (x_var y_var : string) : py predicted :=
  xs ← getitem df x_var;
  if negb (is_numeric_dtype xs) then mret (PredictionError "Error: Variables must be numeric")
  else
    ys ← getitem df y_var;
    if negb (is_numeric_dtype ys) then
      mret (PredictionError "Error: Variables must be numeric")
    else
      let pairs := complete_pairs xs ys in
      if (length pairs <? 2)%nat then mret (PredictionError "Error: Not enough data points")
      else
        results ← fit x_var y_var pairs;
        x ← float_of x_value;
        prediction ← predict_row results [fin 1; x];
        prediction_interval ← conf_int results x;
        mret (Predicted prediction prediction_interval).

Definition make_prediction (n_clicks : option nat) (x_value : cell)
    (x_var y_var : option string) (data : DataFrame) : predicted :=
  if negb (StatTest.truthy_nat n_clicks) || isna x_value
     || negb (StatTest.truthy_str x_var) || negb (StatTest.truthy_str y_var)
     || (nrows data =? 0)%nat
  then NoPrediction
  else
    try_except (predict data x_value (default "" x_var) (default "" y_var))
      (fun e => PredictionError ("Error: " +:+ e)).

End WithStatsmodels.

(** Stand-ins for the library, to run the definitions: the line through
    the first two points, no band, an interval reduced to the point
    of the line, and formats that print the integer part. *)
Definition two_point_fit (x_var y_var : string) (pairs : list (real * real))
    : py ols_results :=
  match pairs with
  | (Fin x1, Fin y1) :: (Fin x2, Fin y2) :: _ =>
      let m := Qred ((y2 - y1) / (x2 - x1)) in
      Ret {| params := [fin (Qred (y1 - m * x1)); fin m]; rsquared := fin 1;
             f_pvalue := fin 0 |}
  | _ => Raise "singular matrix"
  end.

Definition no_figure (x_var y_var : string) (pairs : list (real * real))
    (results : ols_results) : py unit := Ret tt.

Definition point_interval (results : ols_results) (x : float) : py (float * float) :=
  Ret (dot [fin 1; x] (params results), dot [fin 1; x] (params results)).

Definition simple_format (x : float) : string :=
  match x with
  | Some r => Encoding.simple_str_num r
  | None => "nan"
  end.

Definition simple_index_error (i size : nat) : string :=
  "index " +:+ pretty i +:+ " is out of bounds for axis 0 with size " +:+ pretty size.

Definition simple_shape_error (n m : nat) : string :=
  "shapes (1," +:+ pretty n +:+ ") and (" +:+ pretty m +:+ ",) not aligned".

End Regression.

(** ** Prediction from a file: [process_prediction_file] and the refit
    of the file branch of [make_predictions] *)

Module Upload.

(** [needle in hay] *)
Fixpoint contains (needle hay : string) : bool :=
  String.prefix needle hay
  || match hay with
     | EmptyString => false
     | String _ rest => contains needle rest
     end.

(** [df[required_features].to_dict('records')] turned back into a
    frame: the required columns, each once. *)
Definition required_columns (df : DataFrame) (required_features : list string)
    : py DataFrame :=
  cols ← mapM (getitem df) required_features;
  mret (foldl (fun acc fc => Dict.set acc (fst fc) (snd fc)) [] (zip required_features cols)).

Section WithReaders.

(** [contents.split(",")] followed by [base64.b64decode], and the two
    readers of pandas applied to the decoded bytes. *)
Variable decode : string -> py string.

Variable read_csv : string -> py DataFrame.

Variable read_excel : string -> py DataFrame.

(** What follows the reading of the file in the [try] block. *)
Definition check_features (df : DataFrame) (filename : string)
    (required_features : list string) : py (string * option DataFrame) :=
  let missing_features :=
    List.filter (fun feature => negb (existsb (String.eqb feature) (map fst df)))
      required_features in
  match missing_features with
  | _ :: _ =>
      mret ("Missing required features: " +:+ String.concat ", " missing_features, None)
  | [] =>
      prediction_df ← required_columns df required_features;
      mret ("File processed: " +:+ filename +:+ " (" +:+ pretty (nrows df) +:+ " rows)",
            Some prediction_df)
  end.

Definition process_prediction_file (contents : option string) (filename : string)
    (required_features : list string) : py (string * option DataFrame) :=
  if negb (StatTest.truthy_str contents) || (length required_features =? 0)%nat then
    mret ("Upload a file for prediction", None)
  else
    decoded ← decode (default "" contents);
    mret (try_except
            (if contains "csv" (TypeInference.lower filename) then
               df ← read_csv decoded; check_features df filename required_features
             else if contains "xls" (TypeInference.lower filename) then
               df ← read_excel decoded; check_features df filename required_features
             else mret ("Unsupported file format: " +:+ filename, None))
            (fun e => ("Error processing file: " +:+ e, None))).

End WithReaders.

(** The refit of the file branch of [make_predictions]: the forest is
    built from the stored hyper-parameters, then [X = df[features]],
    [y = df[target]], the fit and the prediction. *)
Definition refit_predict {F : Type} (RandomForestClassifier : Forest.hyper -> py F)
    (fit_predict : F -> list (list cell) -> list cell -> py (list cell))
    (df : DataFrame) (features : list string) (target : string) (params : Forest.hyper)
    : py (list cell) :=
  random_forest ← RandomForestClassifier params;
  X ← mapM (getitem df) features;
  y ← getitem df target;
  fit_predict random_forest X y.

(** Stand-ins to run the definitions: a reader that returns a fixed
    frame, and a forest that predicts the target it was given. *)
Definition plain_decode (contents : string) : py string := Ret contents.

Definition fixed_reader (df : DataFrame) (decoded : string) : py DataFrame := Ret df.

Definition new_forest (params : Forest.hyper) : py Forest.hyper := Ret params.

Definition echo_fit (random_forest : Forest.hyper) (X : list (list cell)) (y : list cell)
    : py (list cell) := Ret y.

End Upload.
Module PyFacts.

Lemma bind_ret {A B : Type} (a : A) (k : A -> py B) : (Ret a ≫= k) = k a.
Proof. reflexivity. Qed.

End PyFacts.

Module FrameFacts.

Lemma combine_seq_lookup {A : Type} (l : list A) (s i : nat) (c : A) :
  In (i, c) (combine (seq s (length l)) l) <-> (s <= i)%nat /\ l !! (i - s)%nat = Some c.
Proof.
  revert s. induction l as [|x l IH]; intros s; simpl.
  - split; [tauto | intros [_ H]; discriminate].
  - rewrite IH. split.
    + intros [H | [Hle H]].
      * inversion H; subst. split; [lia |]. now rewrite Nat.sub_diag.
      * split; [lia |]. replace (i - s)%nat with (S (i - S s)) by lia. exact H.
    + intros [Hle H]. destruct (decide (i = s)) as [-> | Hne].
      * left. rewrite Nat.sub_diag in H. simpl in H. congruence.
      * right. split; [lia |]. replace (i - s)%nat with (S (i - S s)) in H by lia. exact H.
Qed.

Lemma rows_where_spec {A : Type} (p : A -> bool) (col : list A) (i : nat) :
  i ∈ rows_where p col <-> exists c, col !! i = Some c /\ p c = true.
Proof.
  unfold rows_where. rewrite list_elem_of_In, in_map_iff. split.
  - intros [[j c] [Hj Hin]]. simpl in Hj. subst j.
    apply filter_In in Hin as [Hin Hp]. apply combine_seq_lookup in Hin as [_ Hl].
    rewrite Nat.sub_0_r in Hl. eauto.
  - intros [c [Hl Hp]]. exists (i, c). split; [reflexivity |].
    apply filter_In. split; [| exact Hp].
    apply combine_seq_lookup. rewrite Nat.sub_0_r. split; [lia | exact Hl].
Qed.


Lemma dict_get_set_eq {V : Type} (d : list (string * V)) k v :
  Dict.get (Dict.set d k v) k = Some v.
Proof.
  induction d as [|[k' v'] d IH]; simpl.
  - now rewrite String.eqb_refl.
  - destruct (String.eqb k' k) eqn:E; simpl; rewrite E; [reflexivity | exact IH].
Qed.

Lemma dict_get_set_ne {V : Type} (d : list (string * V)) k k' v :
  k <> k' -> Dict.get (Dict.set d k v) k' = Dict.get d k'.
Proof.
  intros Hne. induction d as [|[k0 v0] d IH]; simpl.
  - destruct (String.eqb k k') eqn:E; [apply String.eqb_eq in E; congruence | reflexivity].
  - destruct (String.eqb k0 k) eqn:E; simpl.
    + apply String.eqb_eq in E. subst k0.
      destruct (String.eqb k k') eqn:E'; [apply String.eqb_eq in E'; congruence | reflexivity].
    + destruct (String.eqb k0 k'); [reflexivity | exact IH].
Qed.

End FrameFacts.

Module StatsFacts.


Lemma insert_sorted_Forall {A : Type} (P : A -> Prop) leb (x : A) (l : list A) :
  P x -> Forall P l -> Forall P (insert_sorted leb x l).
Proof.
  intros Hx Hl. induction Hl as [|y t Hy Ht IH]; simpl.
  - repeat constructor; assumption.
  - destruct (leb x y); repeat constructor; assumption.
Qed.

Lemma sort_by_Forall {A : Type} (P : A -> Prop) leb (l : list A) :
  Forall P l -> Forall P (sort_by leb l).
Proof.
  induction 1 as [|x t Hx Ht IH]; simpl; [constructor |].
  now apply insert_sorted_Forall.
Qed.

Lemma insert_sorted_length {A : Type} leb (x : A) (l : list A) :
  length (insert_sorted leb x l) = S (length l).
Proof.
  induction l as [|y t IH]; simpl; [reflexivity |].
  destruct (leb x y); simpl; [reflexivity | now rewrite IH].
Qed.

Lemma sort_by_length {A : Type} leb (l : list A) :
  length (sort_by leb l) = length l.
Proof.
  induction l as [|x t IH]; simpl; [reflexivity |].
  now rewrite insert_sorted_length, IH.
Qed.





End StatsFacts.

Module OutlierFacts.

Import Outliers FrameFacts StatsFacts.

Lemma lt_real_spec (x y : real) : lt_real x y = true <-> real_lt x y.
Proof.
  destruct x as [| |a], y as [| |b]; simpl; try tauto; try (split; [discriminate | tauto]).
  unfold Qltb. rewrite negb_true_iff, <- not_true_iff_false, Qle_bool_iff. split.
  - apply Qnot_le_lt.
  - apply Qlt_not_le.
Qed.

Lemma numbers_elem (series : list cell) (x : real) :
  x ∈ numbers series <-> CNum x ∈ series.
Proof.
  unfold numbers. rewrite list_elem_of_omap. split.
  - intros [c [Hc Hx]]. destruct c; simpl in Hx; try discriminate. congruence.
  - intros H. exists (CNum x). split; [exact H | reflexivity].
Qed.

(** The flagged rows of the IQR branch are the rows holding a number
    outside the bounds. *)
Lemma iqr_rows_spec (series : list cell) (col_data : list real) (thr : option Q) (i : nat) :
  i ∈ outlier_rows (iqr_rows series col_data thr) <->
  exists x, series !! i = Some (CNum x)
            /\ outside x (fst (iqr_bounds col_data thr)) (snd (iqr_bounds col_data thr)).
Proof.
  unfold iqr_rows. destruct (iqr_bounds col_data thr) as [lo hi]. simpl.
  rewrite rows_where_spec. unfold outside, gt, lt. split.
  - intros [c [Hl Hp]]. destruct c as [|x|s]; simpl in Hp; try discriminate.
    + destruct hi; discriminate.
    + exists x. split; [exact Hl |]. apply orb_true_iff in Hp as [Hp | Hp].
      * left. destruct lo as [l|]; [| discriminate]. exists l. now rewrite <- lt_real_spec.
      * right. destruct hi as [u|]; [| discriminate]. exists u. now rewrite <- lt_real_spec.
    + destruct hi; discriminate.
  - intros [x [Hl [[l [-> Hlt]] | [u [-> Hlt]]]]]; exists (CNum x); (split; [exact Hl |]);
      simpl; apply orb_true_iff; [left | right]; now apply lt_real_spec.
Qed.



Section Loop.

Variable series_mean series_std : list real -> float.

Variable df : DataFrame.

Variable m : outlier_method.

Variable thr : option Q.

Lemma flagged_record (acc : report) (col : string) (res : option column_result) (c : string) :
  flagged (record_column acc col res) c =
  match res with
  | Some r =>
      match outlier_rows r with
      | [] => flagged acc c
      | _ :: _ => if decide (col = c) then outlier_rows r else flagged acc c
      end
  | None => flagged acc c
  end.
Proof.
  destruct res as [r|]; [| reflexivity]. unfold record_column, flagged.
  destruct (outlier_rows r) as [|i t]; [reflexivity |]. simpl.
  destruct (decide (col = c)) as [-> | Hne].
  - now rewrite dict_get_set_eq.
  - now rewrite dict_get_set_ne.
Qed.

Lemma detect_loop_flagged (cols : list string) (acc rep : report) :
  detect_loop series_mean series_std df cols m thr acc = Ret rep ->
  (forall c, flagged acc c = [] \/ flagged acc c = rows_of series_mean series_std df m thr c) ->
  forall c, (c ∈ cols -> flagged rep c = rows_of series_mean series_std df m thr c)
            /\ (c ∉ cols -> flagged rep c = flagged acc c).
Proof.
  revert acc. induction cols as [|col rest IH]; intros acc Hrun Hacc c.
  - simpl in Hrun. inversion Hrun; subst. split; [intros H; inversion H | reflexivity].
  - simpl in Hrun. unfold mbind, py_bind in Hrun. simpl in Hrun.
    destruct (analyse_column series_mean series_std df col m thr) as [res|e] eqn:Ea; simpl in Hrun;
      [| discriminate].
    assert (Hcol : rows_of series_mean series_std df m thr col
                   = match res with Some r => outlier_rows r | None => [] end).
    { unfold rows_of. now rewrite Ea. }
    assert (Hacc' : forall c, flagged (record_column acc col res) c = []
                           \/ flagged (record_column acc col res) c
                              = rows_of series_mean series_std df m thr c).
    { intros c'. rewrite flagged_record. destruct res as [r|]; [| apply Hacc].
      destruct (outlier_rows r) as [|i t] eqn:Er; [apply Hacc |].
      destruct (decide (col = c')) as [<- | _]; [right; now rewrite Hcol | apply Hacc]. }
    destruct (IH _ Hrun Hacc' c) as [Hin Hnotin]. split.
    + intros Hc. destruct (decide (c ∈ rest)) as [Hr | Hr]; [now apply Hin |].
      apply elem_of_cons in Hc as [-> | Hc]; [| contradiction].
      rewrite (Hnotin Hr), flagged_record, Hcol. destruct res as [r|].
      * destruct (outlier_rows r) as [|i t] eqn:Er.
        -- destruct (Hacc col) as [H | H]; congruence.
        -- now rewrite decide_True.
      * destruct (Hacc col) as [H | H]; congruence.
    + intros Hc. apply not_elem_of_cons in Hc as [Hne Hr].
      rewrite (Hnotin Hr), flagged_record. destruct res as [r|]; [| reflexivity].
      destruct (outlier_rows r); [reflexivity |]. now rewrite decide_False.
Qed.

Lemma analyse_column_returns (col : string) (series : list cell) :
  getitem df col = Ret series ->
  exists res, analyse_column series_mean series_std df col m thr = Ret res.
Proof.
  intros H. unfold analyse_column. rewrite H. unfold mbind, py_bind. simpl.
  destruct (negb (is_numeric_dtype series)); [eexists; reflexivity |].
  destruct (length (numbers series) <=? 1)%nat; eexists; reflexivity.
Qed.

Lemma detect_loop_returns (cols : list string) (acc : report) :
  columns_exist df cols ->
  exists rep, detect_loop series_mean series_std df cols m thr acc = Ret rep.
Proof.
  intros H. revert acc. induction H as [|col rest [series Hs] Hrest IH]; intros acc.
  - eexists. reflexivity.
  - destruct (analyse_column_returns col series Hs) as [res Hres].
    simpl. unfold mbind, py_bind. rewrite Hres. simpl. apply IH.
Qed.

(** The report of a detection over existing columns holds, for every
    selected column, the rows the loop body finds for it. *)
Lemma detect_outliers_flagged (cols : list string) :
  columns_exist df cols ->
  exists rep, detect_outliers series_mean series_std df cols m thr = Ret rep
              /\ forall c, c ∈ cols -> flagged rep c = rows_of series_mean series_std df m thr c.
Proof.
  intros H. destruct (detect_loop_returns cols
    {| outliers_dict := []; outlier_indices := ∅; std_divisions := 0 |} H) as [rep Hrep].
  exists rep. split; [exact Hrep |]. intros c Hc.
  eapply detect_loop_flagged; [exact Hrep | | exact Hc].
  intros c'. left. reflexivity.
Qed.

End Loop.


End OutlierFacts.

Module ZScoreFacts.

Import Outliers FrameFacts StatsFacts OutlierFacts.

Lemma inject_nat_nonzero (n : nat) : (1 <= n)%nat -> Qeq_bool (inject_Z (Z.of_nat n)) 0 = false.
Proof.
  intros H. apply not_true_iff_false. intros E. apply Qeq_bool_iff in E.
  unfold Qeq in E. simpl in E. lia.
Qed.

(** With a standard deviation of zero the branch flags nothing and
    divides nothing. *)
Lemma zscore_rows_zero_std (series_mean series_std : list real -> float) (series : list cell)
    (thr : option Q) :
  eqb (series_std (numbers series)) (fin 0) = true ->
  zscore_rows series_mean series_std series (numbers series) thr
  = {| outlier_rows := []; divisions_by_std := 0 |}.
Proof.
  intros H. unfold zscore_rows. now rewrite H.
Qed.

End ZScoreFacts.

Module ImputationFacts.

Import Imputation FrameFacts.

Lemma getitem_setitem_eq (df : DataFrame) (col : string) (vals : list cell) :
  getitem (setitem df col vals) col = Ret vals.
Proof.
  induction df as [|[name old] rest IH]; simpl.
  - now rewrite String.eqb_refl.
  - destruct (String.eqb name col) eqn:E; simpl; rewrite E; [reflexivity | exact IH].
Qed.

Lemma getitem_setitem_ne (df : DataFrame) (col col' : string) (vals : list cell) :
  col <> col' -> getitem (setitem df col vals) col' = getitem df col'.
Proof.
  intros Hne. induction df as [|[name old] rest IH]; simpl.
  - destruct (String.eqb col col') eqn:E; [apply String.eqb_eq in E; congruence | reflexivity].
  - destruct (String.eqb name col) eqn:E; simpl.
    + apply String.eqb_eq in E. subst name.
      destruct (String.eqb col col') eqn:E'; [apply String.eqb_eq in E'; congruence | reflexivity].
    + destruct (String.eqb name col'); [reflexivity | exact IH].
Qed.

Lemma setitem_getitem_id (df : DataFrame) (col : string) (vals : list cell) :
  getitem df col = Ret vals -> setitem df col vals = df.
Proof.
  induction df as [|[name old] rest IH]; simpl; [discriminate |].
  destruct (String.eqb name col) eqn:E; [congruence |].
  intros H. now rewrite IH.
Qed.

(** [fillna] keeps every cell that holds a value. *)
Lemma fillna_keeps (col : list cell) (value c : cell) (i : nat) :
  col !! i = Some c -> isna c = false -> fillna col value !! i = Some c.
Proof.
  intros Hl Hc. unfold fillna. rewrite list_lookup_fmap, Hl. simpl. now rewrite Hc.
Qed.

Lemma fillna_null (col : list cell) : fillna col CNull = col.
Proof.
  unfold fillna. induction col as [|c t IH]; simpl; [reflexivity |].
  rewrite IH. now destruct c.
Qed.

Lemma fillna_value_no_missing (col : list cell) (value : cell) :
  isna value = false -> has_missing (fillna col value) = false.
Proof.
  intros Hv. unfold has_missing, fillna. induction col as [|c t IH]; simpl; [reflexivity |].
  rewrite IH. destruct (isna c) eqn:E; [now rewrite Hv | now rewrite E].
Qed.

(** Mean, median and mode imputation of a column only write into its
    missing cells. *)
Lemma impute_column_keeps (col vals : list cell) (method : method) (i : nat) (c : cell) :
  method <> knn_method ->
  impute_column col method = Ret (Some vals) ->
  col !! i = Some c -> isna c = false -> vals !! i = Some c.
Proof.
  intros Hm H Hl Hc. unfold impute_column in H.
  destruct (has_missing col); [| discriminate].
  destruct (is_numeric_dtype col), method; try discriminate; try congruence;
    inversion H; subst; now apply fillna_keeps.
Qed.

(** Columns are read from the frame as it was and written by name, so
    every column of the result is the column of the accumulator or the
    imputed version of the column of the input. *)
Lemma impute_loop_getitem (df : DataFrame) (method : method) (cols : list string)
    (acc df' : DataFrame) :
  impute_loop df acc cols method = Ret df' ->
  forall name,
    getitem df' name = getitem acc name
    \/ exists vals vals', getitem df name = Ret vals
                          /\ impute_column vals method = Ret (Some vals')
                          /\ getitem df' name = Ret vals'.
Proof.
  revert acc. induction cols as [|col rest IH]; intros acc Hrun name.
  - simpl in Hrun. inversion Hrun; subst. now left.
  - simpl in Hrun. unfold mbind, py_bind in Hrun. simpl in Hrun.
    destruct (getitem df col) as [series|e] eqn:Es; simpl in Hrun; [| discriminate].
    destruct (impute_column series method) as [new|e] eqn:En; simpl in Hrun; [| discriminate].
    destruct (IH _ Hrun name) as [Hacc | Hdone]; [| now right].
    destruct new as [vals|]; [| now left].
    destruct (decide (col = name)) as [<- | Hne].
    + rewrite getitem_setitem_eq in Hacc. right. eauto.
    + rewrite getitem_setitem_ne in Hacc by exact Hne. now left.
Qed.

(** Frame property of imputation by mean, median or mode: a cell that
    holds a value before the operation holds the same value afterwards. *)
Lemma impute_keeps_present_cells (df df' : DataFrame) (cols : list string) (method : method)
    (name : string) (vals vals' : list cell) (i : nat) (c : cell) :
  method <> knn_method ->
  impute df cols method = Ret df' ->
  getitem df name = Ret vals -> getitem df' name = Ret vals' ->
  vals !! i = Some c -> isna c = false -> vals' !! i = Some c.
Proof.
  intros Hm Hrun Hv Hv' Hl Hc.
  destruct (impute_loop_getitem _ _ _ _ _ Hrun name) as [Hsame | [vals0 [vals1 [H0 [Himp H1]]]]].
  - congruence.
  - assert (vals0 = vals) by congruence. assert (vals1 = vals') by congruence. subst.
    eapply impute_column_keeps; eauto.
Qed.

Lemma settled_after (col vals : list cell) :
  impute_column col mean_method = Ret (Some vals) -> settled vals.
Proof.
  unfold impute_column. destruct (has_missing col) eqn:Em; [| discriminate].
  destruct (is_numeric_dtype col) eqn:En; [| discriminate].
  intros H. inversion H; subst. clear H.
  destruct (round (mean (numbers col)) 3) as [x|] eqn:Er; simpl.
  - left. unfold impute_column. now rewrite fillna_value_no_missing.
  - right. rewrite fillna_null. unfold impute_column. rewrite Em, En, Er. simpl.
    now rewrite fillna_null.
Qed.

Lemma settled_processed (df : DataFrame) (cols : list string) (acc df' : DataFrame) :
  impute_loop df acc cols mean_method = Ret df' ->
  (forall name,
     getitem acc name = getitem df name
     \/ exists vals vals', getitem df name = Ret vals
                           /\ impute_column vals mean_method = Ret (Some vals')
                           /\ getitem acc name = Ret vals') ->
  forall col, col ∈ cols -> exists vals, getitem df' col = Ret vals /\ settled vals.
Proof.
  revert acc. induction cols as [|col rest IH]; intros acc Hrun Hinv c Hc; [inversion Hc |].
  simpl in Hrun. unfold mbind, py_bind in Hrun. simpl in Hrun.
  destruct (getitem df col) as [series|e] eqn:Es; simpl in Hrun; [| discriminate].
  destruct (impute_column series mean_method) as [new|e] eqn:En; simpl in Hrun; [| discriminate].
  set (acc' := match new with Some vals => setitem acc col vals | None => acc end) in *.
  assert (Hinv' : forall name,
             getitem acc' name = getitem df name
             \/ exists vals vals', getitem df name = Ret vals
                                   /\ impute_column vals mean_method = Ret (Some vals')
                                   /\ getitem acc' name = Ret vals').
  { intros name. unfold acc'. destruct new as [vals|]; [| apply Hinv].
    destruct (decide (col = name)) as [<- | Hne].
    - right. exists series, vals. now rewrite getitem_setitem_eq.
    - rewrite getitem_setitem_ne by exact Hne. apply Hinv. }
  destruct (decide (c ∈ rest)) as [Hr | Hr]; [exact (IH _ Hrun Hinv' c Hr) |].
  apply elem_of_cons in Hc as [-> | Hc]; [| contradiction].
  destruct (impute_loop_getitem _ _ _ _ _ Hrun col) as [Hsame | [v0 [v1 [H0 [Himp H1]]]]].
  - rewrite Hsame. unfold acc'. destruct new as [vals|].
    + rewrite getitem_setitem_eq. eexists. split; [reflexivity |]. eapply settled_after; eauto.
    + destruct (Hinv col) as [Hacc | [v0 [v1 [H0 [Himp H1]]]]].
      * rewrite Hacc, Es. eexists. split; [reflexivity |]. now left.
      * congruence.
  - exists v1. split; [exact H1 |]. eapply settled_after; eauto.
Qed.

Lemma settled_frame_fixed (d : DataFrame) (cols : list string) :
  (forall col, col ∈ cols -> exists vals, getitem d col = Ret vals /\ settled vals) ->
  impute_loop d d cols mean_method = Ret d.
Proof.
  induction cols as [|col rest IH]; intros H; [reflexivity |].
  destruct (H col) as [vals [Hv Hs]]; [left |].
  simpl. unfold mbind, py_bind. rewrite Hv. simpl.
  destruct Hs as [-> | ->]; simpl.
  - apply IH. intros c Hc. apply H. now right.
  - rewrite (setitem_getitem_id _ _ _ Hv). apply IH. intros c Hc. apply H. now right.
Qed.

(** Mean imputation run on its own result changes nothing. *)
Lemma impute_mean_idempotent (df df' : DataFrame) (cols : list string) :
  impute df cols mean_method = Ret df' -> impute df' cols mean_method = Ret df'.
Proof.
  intros Hrun. apply settled_frame_fixed.
  eapply settled_processed; [exact Hrun |]. intros name. now left.
Qed.

(** The numeric branch has no case for the mode: a numeric column with
    missing cells is left as it is. *)
Lemma impute_column_mode_numeric (col : list cell) :
  is_numeric_dtype col = true -> impute_column col mode_method = Ret None.
Proof.
  intros H. unfold impute_column. rewrite H. now destruct (has_missing col).
Qed.

(** On a column that is not numeric the mode fills the missing cells
    with the first of the most frequent values, if there is one. *)
Lemma impute_column_mode_object (col : list cell) :
  is_numeric_dtype col = false -> has_missing col = true ->
  impute_column col mode_method
  = Ret (Some (fillna col (match mode col with v :: _ => v | [] => CNull end))).
Proof.
  intros H Hm. unfold impute_column. now rewrite Hm, H.
Qed.

End ImputationFacts.

Module EncodingFacts.

Import Encoding FrameFacts StatsFacts.

Lemma eq_real_refl (x : real) : eq_real x x = true.
Proof. destruct x; simpl; try reflexivity. apply Qeq_bool_iff. reflexivity. Qed.

Lemma eq_real_sym (x y : real) : eq_real x y = eq_real y x.
Proof.
  destruct x, y; simpl; try reflexivity.
  apply eq_true_iff_eq. rewrite !Qeq_bool_iff. split; intros H; now symmetry.
Qed.

Lemma eq_real_trans (x y z : real) :
  eq_real x y = true -> eq_real y z = true -> eq_real x z = true.
Proof.
  destruct x, y, z; simpl; try discriminate; try reflexivity.
  rewrite !Qeq_bool_iff. intros H1 H2. now rewrite H1.
Qed.

Lemma cell_eqb_refl (c : cell) : isna c = false -> cell_eqb c c = true.
Proof.
  destruct c; simpl; try discriminate; intros _.
  - apply eq_real_refl.
  - apply String.eqb_refl.
Qed.

Lemma cell_eqb_sym (a b : cell) : cell_eqb a b = cell_eqb b a.
Proof.
  destruct a, b; simpl; try reflexivity.
  - apply eq_real_sym.
  - apply String.eqb_sym.
Qed.

Lemma cell_eqb_trans (a b c : cell) :
  cell_eqb a b = true -> cell_eqb b c = true -> cell_eqb a c = true.
Proof.
  destruct a, b, c; simpl; try discriminate.
  - apply eq_real_trans.
  - rewrite !String.eqb_eq. congruence.
Qed.

Lemma same_cell_notna (a b : cell) : isna a = false -> same_cell a b = cell_eqb a b.
Proof. intros H. unfold same_cell. rewrite H. simpl. apply orb_false_r. Qed.

(** Counting the occurrences of a value survives sorting. *)
Lemma count_insert_sorted leb (v x : cell) (l : list cell) :
  count v (insert_sorted leb x l) = count v (x :: l).
Proof.
  unfold count. induction l as [|y t IH]; simpl; [reflexivity |].
  destruct (leb x y); [reflexivity |]. simpl. simpl in IH.
  destruct (cell_eqb v y), (cell_eqb v x); simpl in *; rewrite IH; reflexivity.
Qed.

Lemma count_sort_by leb (v : cell) (l : list cell) : count v (sort_by leb l) = count v l.
Proof.
  induction l as [|x t IH]; [reflexivity |].
  cbn [sort_by foldr]. rewrite count_insert_sorted. fold (sort_by leb t).
  unfold count in *. cbn [List.filter]. destruct (cell_eqb v x); cbn [length]; now rewrite IH.
Qed.

Lemma elem_insert_sorted {A : Type} leb (v x : A) (l : list A) :
  v ∈ insert_sorted leb x l <-> v = x \/ v ∈ l.
Proof.
  induction l as [|y t IH]; simpl.
  - rewrite list_elem_of_singleton. split; [auto | intros [H | H]; [exact H | inversion H]].
  - destruct (leb x y); rewrite !elem_of_cons; [tauto |]. rewrite IH. tauto.
Qed.

Lemma elem_sort_by {A : Type} leb (v : A) (l : list A) : v ∈ sort_by leb l <-> v ∈ l.
Proof.
  induction l as [|x t IH]; simpl; [reflexivity |].
  rewrite elem_insert_sorted, elem_of_cons, IH. reflexivity.
Qed.

Lemma count_filter_kept (v : cell) (g : cell -> bool) (l : list cell) :
  (forall d, d ∈ l -> cell_eqb v d = true -> g d = true) ->
  count v (List.filter g l) = count v l.
Proof.
  unfold count. induction l as [|d t IH]; intros H; [reflexivity |]. simpl.
  assert (Ht : forall d', d' ∈ t -> cell_eqb v d' = true -> g d' = true)
    by (intros d' Hd; apply H; now right).
  destruct (cell_eqb v d) eqn:E.
  - rewrite (H d) by (auto; left). simpl. rewrite E. simpl. now rewrite IH.
  - destruct (g d); simpl; [rewrite E |]; now rewrite IH.
Qed.

Lemma count_filter_dropped (v : cell) (g : cell -> bool) (l : list cell) :
  (forall d, d ∈ l -> cell_eqb v d = true -> g d = false) ->
  count v (List.filter g l) = 0%nat.
Proof.
  unfold count. induction l as [|d t IH]; intros H; [reflexivity |]. simpl.
  assert (Ht : forall d', d' ∈ t -> cell_eqb v d' = true -> g d' = false)
    by (intros d' Hd; apply H; now right).
  destruct (g d) eqn:G; [| now apply IH]. simpl.
  destruct (cell_eqb v d) eqn:E; [| now apply IH].
  rewrite (H d) in G by (auto; left). discriminate.
Qed.

Lemma unique_elem (l : list cell) (v : cell) : v ∈ unique l -> v ∈ l.
Proof.
  revert v. induction l as [|c t IH]; intros v; simpl; [auto |].
  rewrite !elem_of_cons. intros [-> | H]; [now left |]. right. apply IH.
  apply list_elem_of_In in H. apply filter_In in H as [H _]. now apply list_elem_of_In.
Qed.

(** Every value of a null-free column has exactly one representative
    among the distinct values. *)
Lemma count_unique (l : list cell) (v : cell) :
  Forall (fun c => isna c = false) l -> isna v = false ->
  count v (unique l) = if existsb (cell_eqb v) l then 1%nat else 0%nat.
Proof.
  intros Hl Hv. induction Hl as [|c t Hc Ht IH]; [reflexivity |].
  cbn [unique existsb]. change (count v (c :: ?r)) with
    (length (List.filter (cell_eqb v) (c :: r))). cbn [List.filter].
  destruct (cell_eqb v c) eqn:E; cbn [orb length].
  - fold (count v (List.filter (fun d => negb (same_cell c d)) (unique t))).
    rewrite count_filter_dropped; [reflexivity |].
    intros d _ Hd. rewrite same_cell_notna by exact Hc.
    apply negb_false_iff. eapply cell_eqb_trans; [| exact Hd]. now rewrite cell_eqb_sym.
  - fold (count v (List.filter (fun d => negb (same_cell c d)) (unique t))).
    rewrite count_filter_kept; [exact IH |].
    intros d _ Hd. rewrite same_cell_notna by exact Hc.
    apply negb_true_iff, not_true_iff_false. intros Hcd.
    rewrite (cell_eqb_trans v d c) in E; [discriminate | exact Hd | now rewrite cell_eqb_sym].
Qed.

Lemma dropna_notna (col : list cell) : Forall (fun c => isna c = false) (dropna col).
Proof.
  apply Forall_forall. intros c Hc. apply list_elem_of_In, filter_In in Hc as [_ Hc].
  unfold notna in Hc. now apply negb_true_iff.
Qed.

Lemma dropna_elem (col : list cell) (c : cell) : c ∈ dropna col <-> c ∈ col /\ isna c = false.
Proof.
  unfold dropna. rewrite list_elem_of_In, filter_In, <- list_elem_of_In. unfold notna.
  now rewrite negb_true_iff.
Qed.

Lemma count_app (v : cell) (l1 l2 : list cell) :
  count v (l1 ++ l2) = (count v l1 + count v l2)%nat.
Proof. unfold count. now rewrite List.filter_app, length_app. Qed.

Lemma count_by_kind (v : cell) (l : list cell) :
  Forall (fun c => isna c = false) l ->
  (count v (List.filter is_number l) + count v (List.filter is_string l))%nat = count v l.
Proof.
  unfold count. induction 1 as [|c t Hc Ht IH]; [reflexivity |].
  destruct c as [|x|s]; [discriminate | |]; cbn [List.filter is_number is_string];
    destruct (cell_eqb v _); cbn [length]; lia.
Qed.

Lemma unique_notna_all (l : list cell) :
  Forall (fun c => isna c = false) l -> Forall (fun c => isna c = false) (unique l).
Proof.
  intros H. apply Forall_forall. intros c Hc. apply unique_elem in Hc.
  rewrite Forall_forall in H. now apply H.
Qed.

Lemma count_levels (col : list cell) (v : cell) :
  count v (levels col) = count v (unique (dropna col)).
Proof.
  unfold levels, sort_cells. rewrite count_app, !count_sort_by.
  apply count_by_kind, unique_notna_all, dropna_notna.
Qed.

Lemma levels_elem (col : list cell) (v : cell) :
  v ∈ levels col -> v ∈ col /\ isna v = false.
Proof.
  unfold levels, sort_cells. intros H. apply dropna_elem, unique_elem.
  apply elem_of_app in H as [H | H]; apply elem_sort_by, list_elem_of_In, filter_In in H;
    now apply list_elem_of_In.
Qed.

(** A value of the column is counted once among the levels. *)
Lemma count_levels_present (col : list cell) (c : cell) :
  c ∈ col -> isna c = false -> count c (levels col) = 1%nat.
Proof.
  intros Hc Hn. rewrite count_levels, count_unique; [| apply dropna_notna | exact Hn].
  assert (E : existsb (cell_eqb c) (dropna col) = true).
  { apply existsb_exists. exists c. split; [| now apply cell_eqb_refl].
    apply list_elem_of_In, dropna_elem. auto. }
  now rewrite E.
Qed.

Lemma row_sum_dummies str_num (series : list cell) (prefix : string) (lv : list cell)
    (i : nat) (c : cell) :
  series !! i = Some c ->
  (row_sum (map (fun v => (prefix +:+ "_" +:+ str str_num v,
                           map (fun c => indicator (cell_eqb c v)) series)) lv) i
   == inject_Z (Z.of_nat (count c lv)))%Q.
Proof.
  intros Hl. unfold row_sum, count. induction lv as [|v t IH]; [reflexivity |].
  cbn [map foldr snd List.filter]. rewrite IH, list_lookup_fmap, Hl.
  cbn [fmap option_fmap option_map default].
  destruct (cell_eqb c v); unfold indicator, cell_Q; cbn [length].
  - rewrite Nat2Z.inj_succ, <- Z.add_1_l, inject_Z_plus. reflexivity.
  - apply Qplus_0_l.
Qed.

(** Writing a new key into a dictionary appends it. *)
Lemma dict_set_new {V : Type} (d : list (string * V)) (k : string) (v : V) :
  k ∉ map fst d -> Dict.set d k v = d ++ [(k, v)].
Proof.
  induction d as [|[k' v'] rest IH]; [reflexivity |].
  cbn [map fst]. intros H. apply not_elem_of_cons in H as [Hne Hrest].
  cbn [Dict.set]. destruct (String.eqb k' k) eqn:E; [apply String.eqb_eq in E; congruence |].
  now rewrite IH.
Qed.

Lemma to_dict_records_acc (acc encoded_df : DataFrame) :
  NoDup (map fst (acc ++ encoded_df)) ->
  foldl (fun records nc => Dict.set records (fst nc) (snd nc)) acc encoded_df
  = acc ++ encoded_df.
Proof.
  revert acc. induction encoded_df as [|[k v] rest IH]; intros acc H.
  - now rewrite app_nil_r.
  - cbn [foldl fst snd]. rewrite dict_set_new.
    + rewrite IH; rewrite <- app_assoc; [reflexivity | exact H].
    + rewrite map_app in H. apply NoDup_app in H as (_ & H & _).
      intros Hin. apply (H k Hin). now left.
Qed.

(** Records of a frame whose column names are distinct hold the frame. *)
Lemma to_dict_records_nodup (encoded_df : DataFrame) :
  NoDup (map fst encoded_df) -> to_dict_records encoded_df = encoded_df.
Proof. intros H. unfold to_dict_records. now rewrite to_dict_records_acc. Qed.

Lemma getitem_nodup_elem (df : DataFrame) (name : string) (col : list cell) :
  NoDup (map fst df) -> (name, col) ∈ df -> getitem df name = Ret col.
Proof.
  induction df as [|[k v] rest IH]; intros Hnd Hin; [inversion Hin |].
  cbn [map fst] in Hnd. apply NoDup_cons in Hnd as [Hk Hnd].
  apply elem_of_cons in Hin as [[= <- <-] | Hin]; simpl.
  - now rewrite String.eqb_refl.
  - destruct (String.eqb k name) eqn:E; [| now apply IH].
    apply String.eqb_eq in E. subst k. exfalso. apply Hk.
    apply list_elem_of_fmap. now exists (name, col).
Qed.

Lemma getitem_app_l (df extra : DataFrame) (name : string) (col : list cell) :
  getitem df name = Ret col -> getitem (df ++ extra) name = Ret col.
Proof.
  induction df as [|[k v] rest IH]; [discriminate |].
  simpl. destruct (String.eqb k name); [auto | exact IH].
Qed.

End EncodingFacts.


Module StatTestFacts.

Import StatTest PyFacts.

Lemma valid_pairs_spec (xs ys : list cell) (a b : Q) :
  (a, b) ∈ valid_pairs xs ys <->
  exists i, xs !! i = Some (CNum (Fin a)) /\ ys !! i = Some (CNum (Fin b)).
Proof.
  unfold valid_pairs. rewrite list_elem_of_omap. split.
  - intros [[x y] [Hin Hm]]. apply list_elem_of_lookup in Hin as [i Hi].
    apply lookup_zip_with_Some in Hi as [x' [y' [Heq [Hx Hy]]]]. inversion Heq; subst.
    exists i. destruct x' as [|[| |p]|], y' as [|[| |q]|]; try discriminate.
    inversion Hm; subst. auto.
  - intros [i [Hx Hy]]. exists (CNum (Fin a), CNum (Fin b)). split; [| reflexivity].
    apply list_elem_of_lookup. exists i. apply lookup_zip_with_Some. eauto.
Qed.

Section WithSciPy.

Variable pearsonr : string -> string -> list (Q * Q) -> py (float * float).

Variable spearmanr : string -> string -> list (Q * Q) -> py (float * float).

Variable polyfit : string -> string -> list (Q * Q) -> py (float * float).

Variable chi2_contingency : list cell -> list cell -> py (float * float * nat).

Lemma perform_test_returns n_clicks test_type x_axis y_axis data :
  exists out,
    perform_test pearsonr spearmanr polyfit chi2_contingency n_clicks test_type x_axis y_axis data
    = Ret out.
Proof.
  unfold perform_test. destruct (_ || _); eexists; reflexivity.
Qed.

Lemma correlation_error name stat with_line df x y :
  ~ numeric_column df x \/ ~ numeric_column df y \/ (length (pairs_of df x y) < 2)%nat ->
  exists msg, try_except (correlation polyfit name stat with_line df x y) on_error = Message msg.
Proof.
  intros H. unfold correlation, pairs_of, numeric_column in *.
  destruct (getitem df x) as [xs|e]; [| eexists; reflexivity]. rewrite bind_ret.
  destruct (is_numeric_dtype xs) eqn:Ex; [| eexists; reflexivity]. cbn [negb].
  destruct (getitem df y) as [ys|e]; [| eexists; reflexivity]. rewrite bind_ret.
  destruct (is_numeric_dtype ys) eqn:Ey; [| eexists; reflexivity]. cbn [negb].
  destruct H as [H | [H | H]]; [exfalso; apply H; eauto | exfalso; apply H; eauto |].
  apply Nat.ltb_lt in H. rewrite H. eexists. reflexivity.
Qed.

Lemma correlation_computes name stat with_line df x y xs ys :
  getitem df x = Ret xs -> is_numeric_dtype xs = true ->
  getitem df y = Ret ys -> is_numeric_dtype ys = true ->
  (2 <= length (valid_pairs xs ys))%nat ->
  correlation polyfit name stat with_line df x y
  = correlate polyfit name stat with_line x y (valid_pairs xs ys).
Proof.
  intros Hx Hnx Hy Hny Hlen. unfold correlation.
  rewrite Hx, bind_ret, Hnx. cbn [negb]. rewrite Hy, bind_ret, Hny. cbn [negb].
  destruct (length (valid_pairs xs ys) <? 2)%nat eqn:E; [apply Nat.ltb_lt in E; lia |].
  reflexivity.
Qed.

Lemma run_test_pearson df x y :
  run_test pearsonr spearmanr polyfit chi2_contingency df "pearson" x y
  = if negb (truthy_str y) then Ret (Message "Please select Y-axis for Pearson Correlation.")
    else correlation polyfit "Pearson" pearsonr true df x (default "" y).
Proof. reflexivity. Qed.

Lemma run_test_spearman df x y :
  run_test pearsonr spearmanr polyfit chi2_contingency df "spearman" x y
  = if negb (truthy_str y) then Ret (Message "Please select Y-axis for Spearman Correlation.")
    else correlation polyfit "Spearman" spearmanr false df x (default "" y).
Proof. reflexivity. Qed.

Lemma perform_test_error n_clicks test_type x_axis y_axis data :
  is_correlation_test test_type -> error_condition data x_axis y_axis ->
  exists msg,
    perform_test pearsonr spearmanr polyfit chi2_contingency n_clicks test_type x_axis y_axis data
    = Ret (Message msg).
Proof.
  intros Htest Herr. unfold perform_test. destruct (_ || _); [eexists; reflexivity |].
  unfold error_condition in Herr.
  destruct Htest as [-> | ->]; cbn [default]; rewrite ?run_test_pearson, ?run_test_spearman;
    (destruct (truthy_str y_axis) eqn:Ey; cbn [negb]; [| eexists; reflexivity]);
    (destruct Herr as [Herr | Herr]; [discriminate |]);
    match goal with
    | |- context [try_except (correlation _ ?n ?s ?w _ _ _) _] =>
        destruct (correlation_error n s w _ _ _ Herr) as [msg Hmsg]
    end; unfold on_error in Hmsg; rewrite Hmsg; eauto.
Qed.

(** When nothing stands in the way the statistic is computed on the
    valid pairs and on nothing else. *)
Lemma perform_test_computes n_clicks test_type x_axis y_axis data x y xs ys :
  truthy_nat n_clicks = true -> (0 < nrows data)%nat ->
  x_axis = Some x -> truthy_str x_axis = true ->
  y_axis = Some y -> truthy_str y_axis = true ->
  getitem data x = Ret xs -> is_numeric_dtype xs = true ->
  getitem data y = Ret ys -> is_numeric_dtype ys = true ->
  (2 <= length (valid_pairs xs ys))%nat ->
  (test_type = Some "pearson" ->
   perform_test pearsonr spearmanr polyfit chi2_contingency n_clicks test_type x_axis y_axis data
   = Ret (try_except (correlate polyfit "Pearson" pearsonr true x y (valid_pairs xs ys))
            on_error))
  /\ (test_type = Some "spearman" ->
      perform_test pearsonr spearmanr polyfit chi2_contingency n_clicks test_type x_axis y_axis
        data
      = Ret (try_except (correlate polyfit "Spearman" spearmanr false x y (valid_pairs xs ys))
               on_error)).
Proof.
  intros Hn Hrows -> Hx -> Hy Hxs Hnx Hys Hny Hlen.
  assert (Hd : (nrows data =? 0)%nat = false) by (apply Nat.eqb_neq; lia).
  split; intros ->; unfold perform_test; rewrite Hn, Hx, Hd; cbn [negb orb truthy_str default];
    rewrite ?run_test_pearson, ?run_test_spearman, Hy; cbn [negb default];
    now rewrite (correlation_computes _ _ _ _ _ _ _ _ Hxs Hnx Hys Hny Hlen).
Qed.

End WithSciPy.

End StatTestFacts.

Module ForestFacts.

Import Forest PyFacts FrameFacts.

Section Training.

Variable Qsqrt : Q -> Q.

Variable str_num : real -> string.

Variable fit_forest : list (string * list float) -> list cell -> hyper -> py fitted.

Lemma train_model_not_enough n_clicks data target features params df :
  StatTest.truthy_nat n_clicks = true -> (0 < nrows data)%nat ->
  target <> "" -> features <> [] ->
  dropna_subset data (target :: features) = Ret df -> (nrows df < 10)%nat ->
  train_model Qsqrt str_num fit_forest n_clicks data (Some target) features params
  = TrainingError "Not enough data after removing missing values. Need at least 10 rows.".
Proof.
  intros Hn Hrows Ht Hf Hdrop Hlt. unfold train_model.
  assert (Hd : (nrows data =? 0)%nat = false) by (apply Nat.eqb_neq; lia).
  assert (Hl : (length features =? 0)%nat = false)
    by (destruct features; [congruence | reflexivity]).
  assert (Hs : StatTest.truthy_str (Some target) = true)
    by (destruct target; [congruence | reflexivity]).
  rewrite Hn, Hd, Hl, Hs. cbn [negb orb]. change (default "" (Some target)) with target.
  unfold train.
  rewrite Hdrop, bind_ret. apply Nat.ltb_lt in Hlt. now rewrite Hlt.
Qed.

(** The guard of [train_model]: without a click, data, a target or a
    feature nothing is trained and nothing is reported. *)
Lemma train_model_idle n_clicks data target features params :
  StatTest.truthy_nat n_clicks = false \/ nrows data = 0%nat
  \/ StatTest.truthy_str target = false \/ features = [] ->
  train_model Qsqrt str_num fit_forest n_clicks data target features params = Idle.
Proof.
  unfold train_model. intros [-> | [-> | [-> | ->]]]; cbn [negb orb Nat.eqb length];
    rewrite ?orb_true_r; reflexivity.
Qed.

Lemma dict_get_set_is_Some {V : Type} (d : list (string * V)) (k k' : string) (v : V) :
  k = k' \/ is_Some (Dict.get d k') -> is_Some (Dict.get (Dict.set d k v) k').
Proof.
  destruct (decide (k = k')) as [<- | Hne].
  - intros _. rewrite dict_get_set_eq. eauto.
  - intros [H | H]; [contradiction |]. now rewrite dict_get_set_ne.
Qed.

Lemma process_feature_info numeric feature vals acc (f : string) :
  f = feature \/ is_Some (Dict.get (fst acc) f) ->
  is_Some (Dict.get (fst (process_feature Qsqrt str_num numeric feature vals acc)) f).
Proof.
  intros H. unfold process_feature. destruct acc as [fi X]. simpl in H.
  destruct numeric; simpl; apply dict_get_set_is_Some; intuition.
Qed.

(** After the feature loop every feature has its metadata. *)
Lemma process_features_info data df (fs : list string) acc p (f : string) :
  process_features Qsqrt str_num data df fs acc = Ret p ->
  f ∈ fs \/ is_Some (Dict.get (fst acc) f) ->
  is_Some (Dict.get (fst p) f).
Proof.
  revert acc. induction fs as [|feature rest IH]; intros acc Hrun Hf.
  - simpl in Hrun. inversion Hrun; subst. destruct Hf as [Hf | Hf]; [inversion Hf | exact Hf].
  - cbn [process_features] in Hrun.
    destruct (getitem data feature) as [original|e]; [| discriminate]. rewrite bind_ret in Hrun.
    destruct (getitem df feature) as [vals|e]; [| discriminate]. rewrite bind_ret in Hrun.
    apply (IH _ Hrun). destruct Hf as [Hf | Hf].
    + apply elem_of_cons in Hf as [-> | Hf]; [| now left].
      right. apply process_feature_info. now left.
    + right. apply process_feature_info. now right.
Qed.

Lemma getitem_map (g : list cell -> list cell) (df : DataFrame) (name : string) :
  getitem (map (fun nc => (fst nc, g (snd nc))) df) name
  = match getitem df name with
    | Ret col => Ret (g col)
    | Raise e => Raise e
    end.
Proof.
  induction df as [|[n c] rest IH]; [reflexivity |]. simpl.
  destruct (String.eqb n name); [reflexivity | exact IH].
Qed.

Lemma select_rows_length {A : Type} (mask : list bool) (col : list A) :
  length col = length mask ->
  length (select_rows mask col) = length (List.filter id mask).
Proof.
  unfold select_rows. rewrite length_map. revert col.
  induction mask as [|b mask IH]; intros [|c col] Hlen; simpl in *; try reflexivity; try lia.
  destruct b; simpl; rewrite IH by lia; reflexivity.
Qed.

Lemma getitem_length (df : DataFrame) (name : string) (col : list cell) :
  well_formed df -> getitem df name = Ret col -> length col = nrows df.
Proof.
  unfold well_formed. generalize (nrows df). intros n H. rewrite Forall_forall in H.
  induction df as [|[n0 c0] rest IH]; simpl; [discriminate |].
  destruct (String.eqb n0 name).
  - intros E. inversion E; subst. apply (H (n0, col)). left.
  - apply IH. intros x Hx. apply H. now right.
Qed.

Lemma keep_mask_length cols n : length (keep_mask cols n) = n.
Proof. unfold keep_mask. now rewrite length_map, length_seq. Qed.

(** After [dropna] every column of a well-formed frame has the number
    of rows of the frame. *)
Lemma dropna_subset_length data subset df name col :
  well_formed data -> dropna_subset data subset = Ret df ->
  getitem df name = Ret col -> length col = nrows df.
Proof.
  intros Hwf Hdrop Hget. unfold dropna_subset in Hdrop.
  destruct (List.filter _ subset); [| discriminate].
  destruct (mapM (getitem data) subset) as [cols|e]; [| discriminate].
  rewrite bind_ret in Hdrop. inversion Hdrop; subst. clear Hdrop.
  rewrite getitem_map in Hget. destruct (getitem data name) as [c|e] eqn:Ec; [| discriminate].
  inversion Hget; subst. clear Hget.
  pose proof (getitem_length _ _ _ Hwf Ec) as Hc.
  rewrite select_rows_length by (now rewrite keep_mask_length).
  destruct data as [|[n0 c0] rest]; [discriminate |]. cbn [map nrows fst snd].
  rewrite select_rows_length; [reflexivity |]. now rewrite keep_mask_length.
Qed.

Lemma enumerate_keeps_head (v0 : cell) (items : list (nat * cell)) (d : list (cell * nat)) :
  Forall (fun iv => cell_eqb v0 (snd iv) = false) items ->
  exists d', foldl (fun d iv => Encoding.dict_set d (snd iv) (fst iv)) ((v0, 0%nat) :: d) items
             = (v0, 0%nat) :: d'.
Proof.
  intros H. revert d. induction H as [|[i v] items Hv Hitems IH]; intros d.
  - eexists. reflexivity.
  - cbn [foldl Encoding.dict_set fst snd]. simpl in Hv. rewrite Hv. apply IH.
Qed.

Lemma enumerate_unique_head (v0 : cell) (t : list cell) :
  exists d', Encoding.enumerate_map (unique (v0 :: t)) = (v0, 0%nat) :: d'.
Proof.
  unfold Encoding.enumerate_map. cbn [unique length seq combine foldl Encoding.dict_set fst snd].
  apply enumerate_keeps_head. apply Forall_forall. intros [i v] Hin. simpl.
  apply list_elem_of_In, in_combine_r, filter_In in Hin as [_ Hin].
  apply negb_true_iff in Hin. unfold same_cell in Hin. now apply orb_false_iff in Hin as [Hin _].
Qed.

(** A label-encoded target with at least one row records its first
    class under the key [0]. *)
Lemma encode_target_first_class numeric (y : list cell) mapping inverse :
  y <> [] -> fst (encode_target numeric y) = CategoricalTarget mapping inverse ->
  exists first_class, head y = Some first_class
                      /\ key_get inverse (KInt 0) = Some first_class.
Proof.
  intros Hy H. unfold encode_target in H.
  destruct (negb numeric && (length (unique y) <=? 10)%nat); [| discriminate].
  simpl in H. inversion H; subst. clear H.
  destruct y as [|v0 t]; [congruence |]. exists v0. split; [reflexivity |].
  destruct (enumerate_unique_head v0 t) as [d' ->]. reflexivity.
Qed.

(** What a successful training run fixes about the stored model. *)
Lemma train_model_trained n_clicks data target features params model fi m :
  well_formed data ->
  train_model Qsqrt str_num fit_forest n_clicks data target features params = Trained model fi m ->
  features <> []
  /\ Forest.features model = features
  /\ (forall f, f ∈ features -> is_Some (Dict.get fi f))
  /\ (forall mapping inverse, target_info model = CategoricalTarget mapping inverse ->
        exists first_class, key_get inverse (KInt 0) = Some first_class).
Proof.
  intros Hwf H. unfold train_model in H.
  destruct (length features =? 0)%nat eqn:El.
  { rewrite !orb_true_r in H. discriminate. }
  destruct (_ || _); [discriminate |].
  assert (Hne : features <> []) by (intros ->; discriminate).
  unfold train in H.
  destruct (dropna_subset data (default "" target :: features)) as [df|e] eqn:Ed;
    [| discriminate].
  rewrite bind_ret in H. destruct (nrows df <? 10)%nat eqn:Er; [discriminate |].
  destruct (process_features Qsqrt str_num data df features ([], [])) as [processed|e] eqn:Ep;
    [| discriminate].
  rewrite bind_ret in H.
  destruct (getitem data (default "" target)) as [original_y|e]; [| discriminate].
  rewrite bind_ret in H.
  destruct (getitem df (default "" target)) as [y|e] eqn:Ey; [| discriminate].
  rewrite bind_ret in H.
  destruct (encode_target (is_numeric_dtype original_y) y) as [ti y_encoded] eqn:Et.
  destruct (fit_forest (snd processed) y_encoded params) as [fm|e]; [| discriminate].
  rewrite bind_ret in H. cbn in H. inversion H; subst. clear H. cbn.
  split; [exact Hne |]. split; [reflexivity |]. split.
  - intros f Hf. eapply process_features_info; [exact Ep | now left].
  - intros mapping inverse Hti.
    assert (Hy : y <> []).
    { pose proof (dropna_subset_length _ _ _ _ _ Hwf Ed Ey) as Hlen.
      apply Nat.ltb_ge in Er. intros ->. simpl in Hlen. lia. }
    destruct (encode_target_first_class (is_numeric_dtype original_y) y mapping inverse Hy)
      as [c [_ Hc]]; [now rewrite Et | eauto].
Qed.

End Training.

Section Predicting.

Variable str_num : real -> string.

Variable forest_fit_predict : DataFrame -> list string -> string -> hyper -> py (list cell).

Variable float_of_string : string -> py float.

Lemma manual_frame_fold (f : string) (P : cell -> Prop) (l : list (cell * string))
    (acc : DataFrame) :
  (forall v, (v, f) ∈ l -> P v) ->
  (exists v, (v, f) ∈ l) \/ (exists v, Dict.get acc f = Some [v] /\ P v) ->
  exists v, Dict.get (foldl (fun d vi => Dict.set d (snd vi) [fst vi]) acc l) f = Some [v] /\ P v.
Proof.
  revert acc. induction l as [|[v0 k0] l IH]; intros acc HP H.
  - destruct H as [[v Hv] | H]; [inversion Hv | exact H].
  - cbn [foldl fst snd]. apply IH; [intros v Hv; apply HP; now right |].
    destruct (decide (k0 = f)) as [-> | Hne].
    + right. exists v0. rewrite dict_get_set_eq. split; [reflexivity | apply HP; left].
    + rewrite dict_get_set_ne by exact Hne. destruct H as [[v Hv] | H]; [| now right].
      left. exists v. apply elem_of_cons in Hv as [Hv | Hv]; [congruence | exact Hv].
Qed.

(** The one-row frame of the manual input has, for every input field,
    a value that was entered for it. *)
Lemma manual_frame_get (manual_values : list cell) (manual_ids : list string) (f : string) :
  length manual_values = length manual_ids -> f ∈ manual_ids ->
  exists v, Dict.get (manual_frame manual_values manual_ids) f = Some [v]
            /\ (v, f) ∈ zip manual_values manual_ids.
Proof.
  intros Hlen Hf. unfold manual_frame. apply manual_frame_fold; [auto |]. left.
  apply list_elem_of_lookup in Hf as [i Hi].
  destruct (lookup_lt_is_Some_2 manual_values i) as [v Hv].
  { rewrite Hlen. eapply lookup_lt_Some; eauto. }
  exists v. apply list_elem_of_lookup. exists i. apply lookup_zip_with_Some. eauto.
Qed.

Lemma preprocess_returns fi (pdf : DataFrame) (fs : list string) X :
  (forall f, f ∈ fs ->
     exists v, Dict.get pdf f = Some [v]
               /\ match Dict.get fi f with
                  | Some (NumericFeature _ _) => converts float_of_string v = true
                  | Some (CategoricalFeature _) => True
                  | None => False
                  end) ->
  exists X', preprocess str_num float_of_string fi pdf fs X = Ret (inr X').
Proof.
  revert X. induction fs as [|f rest IH]; intros X H; [eexists; reflexivity |].
  destruct (H f) as [v [Hv Hmeta]]; [left |].
  cbn [preprocess]. rewrite Hv.
  assert (Hrest : forall f', f' ∈ rest ->
             exists v, Dict.get pdf f' = Some [v]
                       /\ match Dict.get fi f' with
                          | Some (NumericFeature _ _) => converts float_of_string v = true
                          | Some (CategoricalFeature _) => True
                          | None => False
                          end) by (intros f' Hf'; apply H; now right).
  destruct (Dict.get fi f) as [[mean std | categories]|]; [| apply IH; exact Hrest | contradiction].
  unfold converts in Hmeta. cbn [mapM]. destruct (astype_float float_of_string v) as [x|e];
    [| discriminate].
  rewrite !bind_ret. apply IH. exact Hrest.
Qed.

Lemma simulate_class model X mapping inverse (c : cell) :
  target_info model = CategoricalTarget mapping inverse ->
  key_get inverse (KInt 0) = Some c ->
  exists fv, simulate model X = Ret (PredictedClass c fv).
Proof.
  intros Hti Hc. unfold simulate. rewrite Hti, Hc. eexists. reflexivity.
Qed.

(** The manual path on a model with a label-encoded target: whatever
    the input, the class stored under the key [0]. *)
Lemma make_predictions_manual model fi mapping inverse (c : cell)
    (manual_values : list cell) (manual_ids : list string) (file_data : DataFrame) :
  features model <> [] ->
  (forall f, f ∈ features model -> is_Some (Dict.get fi f)) ->
  target_info model = CategoricalTarget mapping inverse ->
  key_get inverse (KInt 0) = Some c ->
  manual_inputs_ok float_of_string fi (features model) manual_values manual_ids = true ->
  exists fv,
    make_predictions str_num forest_fit_predict float_of_string ManualButton manual_values
      manual_ids file_data (Some model) fi
    = PredictedClass c fv.
Proof.
  intros Hne Hfi Hti Hc Hok. unfold manual_inputs_ok in Hok.
  apply andb_true_iff in Hok as [Hok Hconv]. apply andb_true_iff in Hok as [Hlen Hcover].
  apply Nat.eqb_eq in Hlen. rewrite forallb_forall in Hcover, Hconv.
  assert (Hids : forall f, f ∈ features model -> f ∈ manual_ids).
  { intros f Hf. apply list_elem_of_In, Hcover, existsb_exists in Hf as [f' [Hin Heq]].
    apply String.eqb_eq in Heq. subst f'. now apply list_elem_of_In. }
  destruct (features model) as [|f0 fs] eqn:Ef; [congruence |].
  assert (Hfi0 : is_Some (Dict.get fi f0)) by (apply Hfi; left).
  unfold make_predictions. destruct fi as [|entry fi']; [destruct Hfi0; discriminate |].
  unfold predict.
  assert (Hn0 : (length manual_ids =? 0)%nat = false).
  { assert (Hin : f0 ∈ manual_ids) by (apply Hids; left).
    destruct manual_ids; [inversion Hin | reflexivity]. }
  assert (Hv0 : (length manual_values =? 0)%nat = false) by now rewrite Hlen.
  rewrite Hn0, Hv0. cbn [orb]. rewrite Ef.
  destruct (preprocess_returns (entry :: fi') (manual_frame manual_values manual_ids)
              (f0 :: fs) []) as [X HX].
  { intros f Hf. destruct (manual_frame_get _ _ f Hlen (Hids f Hf)) as [v [Hv Hin]].
    exists v. split; [exact Hv |].
    apply list_elem_of_In, Hconv in Hin. cbn [fst snd] in Hin.
    destruct (Hfi f Hf) as [meta Hmeta]. rewrite Hmeta in Hin |- *.
    destruct meta; [exact Hin | exact I]. }
  rewrite HX, bind_ret.
  destruct (simulate_class model X mapping inverse c Hti Hc) as [fv Hfv].
  rewrite Hfv. exists fv. reflexivity.
Qed.

Lemma key_get_string_keys (inverse : list (key * cell)) (i : nat) :
  Forall (fun kv => exists s, fst kv = KStr s) inverse -> key_get inverse (KInt i) = None.
Proof.
  induction 1 as [|[k v] rest [s Hs] Hrest IH]; [reflexivity |].
  simpl in Hs. subst k. exact IH.
Qed.

(** With an inverse mapping whose keys are strings, as a JSON object
    has them, the lookup of the integer [0] fails and the manual path
    ends in the handler. *)
Lemma make_predictions_manual_string_keys model fi mapping inverse
    (manual_values : list cell) (manual_ids : list string) (file_data : DataFrame) :
  features model <> [] ->
  (forall f, f ∈ features model -> is_Some (Dict.get fi f)) ->
  target_info model = CategoricalTarget mapping inverse ->
  Forall (fun kv => exists s, fst kv = KStr s) inverse ->
  manual_inputs_ok float_of_string fi (features model) manual_values manual_ids = true ->
  make_predictions str_num forest_fit_predict float_of_string ManualButton manual_values
    manual_ids file_data (Some model) fi
  = Notice "Error making prediction: 0".
Proof.
  intros Hne Hfi Hti Hkeys Hok. unfold manual_inputs_ok in Hok.
  apply andb_true_iff in Hok as [Hok Hconv]. apply andb_true_iff in Hok as [Hlen Hcover].
  apply Nat.eqb_eq in Hlen. rewrite forallb_forall in Hcover, Hconv.
  assert (Hids : forall f, f ∈ features model -> f ∈ manual_ids).
  { intros f Hf. apply list_elem_of_In, Hcover, existsb_exists in Hf as [f' [Hin Heq]].
    apply String.eqb_eq in Heq. subst f'. now apply list_elem_of_In. }
  destruct (features model) as [|f0 fs] eqn:Ef; [congruence |].
  assert (Hfi0 : is_Some (Dict.get fi f0)) by (apply Hfi; left).
  unfold make_predictions. destruct fi as [|entry fi']; [destruct Hfi0; discriminate |].
  unfold predict.
  assert (Hn0 : (length manual_ids =? 0)%nat = false).
  { assert (Hin : f0 ∈ manual_ids) by (apply Hids; left).
    destruct manual_ids; [inversion Hin | reflexivity]. }
  assert (Hv0 : (length manual_values =? 0)%nat = false) by now rewrite Hlen.
  rewrite Hn0, Hv0. cbn [orb]. rewrite Ef.
  destruct (preprocess_returns (entry :: fi') (manual_frame manual_values manual_ids)
              (f0 :: fs) []) as [X HX].
  { intros f Hf. destruct (manual_frame_get _ _ f Hlen (Hids f Hf)) as [v [Hv Hin]].
    exists v. split; [exact Hv |].
    apply list_elem_of_In, Hconv in Hin. cbn [fst snd] in Hin.
    destruct (Hfi f Hf) as [meta Hmeta]. rewrite Hmeta in Hin |- *.
    destruct meta; [exact Hin | exact I]. }
  rewrite HX, bind_ret. unfold simulate. rewrite Hti, (key_get_string_keys _ _ Hkeys).
  reflexivity.
Qed.

End Predicting.

End ForestFacts.

Module TypeInferenceFacts.

Import TypeInference PyFacts.




(** Asking for more values than there are fails, with one message when
    there is no value at all and another when there are too few. *)
Lemma sample_too_large {A : Type} (draw : list nat) (pop : list A) (n : nat) :
  (length pop < n)%nat ->
  sample draw pop n
  = Raise (if (length pop =? 0)%nat then "a must be greater than 0 unless no samples are taken"
           else "Cannot take a larger sample than population when 'replace=False'").
Proof.
  intros H. unfold sample. destruct (length pop =? 0)%nat eqn:E.
  - destruct n; [lia | reflexivity].
  - apply Nat.ltb_lt in H. now rewrite H.
Qed.




Lemma dropna_length (series : list cell) : (length (dropna series) <= length series)%nat.
Proof. unfold dropna. apply List.filter_length_le. Qed.

Section WithParsers.

Variable to_datetime : list cell -> bool.

Variable to_numeric : list cell -> bool.

Variable strptime : string -> string -> bool.

Variable is_string_dtype : list cell -> bool.

Variable str_num : real -> string.





End WithParsers.




End TypeInferenceFacts.

(** * The claims *)

Module Claims.

Import Outliers Imputation Encoding StatTest Forest TypeInference.

Import PyFacts FrameFacts StatsFacts OutlierFacts ZScoreFacts ImputationFacts.

Import EncodingFacts StatTestFacts ForestFacts TypeInferenceFacts.




(** C2.  Imputation must leave every cell that holds a value as it is.
    The knn branch rounds the whole column to three decimals: on the
    column 1.23456, null the cell holding 1.23456 becomes 1.235. *)
Theorem knn_imputation_rounds_present_cells :
  impute [("a", [CNum (Fin (123456 # 100000)); CNull])] ["a"] knn_method
  = Ret [("a", [CNum (Fin (1235 # 1000)); CNum (Fin (1235 # 1000))])]
  /\ ~ (1235 # 1000 == 123456 # 100000)%Q.
Proof. split; [reflexivity | discriminate]. Qed.

(** C3 (amended).  For every dataset and column such that the columns
    of the encoded frame have distinct names (the names
    "<column>_<value>" are new to the dataset and differ from one value
    to the next), one-hot encoding returns the records of the dataset
    followed by one 0/1 column per distinct non-null value of the
    column, named "<column>_<value>"; the columns of the dataset are as
    they were; in every row whose source value is not null the new
    columns sum to 1. *)
Theorem onehot_appends_one_indicator_per_value
    (str_num : real -> string) (sorted : list cell -> py (list cell))
    (df : DataFrame) (column : string) (series : list cell) (ordinal_values : list string) :
  getitem df column = Ret series -> (0 < nrows df)%nat -> column <> "" ->
  NoDup (map fst df
         ++ map (fun v => column +:+ "_" +:+ match v with
                                             | CStr s => s
                                             | CNum x => str_num x
                                             | CNull => "None"
                                             end) (levels series)) ->
  exists dummies,
    table_of (apply_encoding str_num sorted df column (Some onehot) ordinal_values)
    = df ++ dummies
    /\ map snd dummies
       = map (fun v => map (fun c => indicator (cell_eqb c v)) series) (levels series)
    /\ (forall s, CStr s ∈ series ->
          getitem (df ++ dummies) (column +:+ "_" +:+ s)
          = Ret (map (fun c => indicator (cell_eqb c (CStr s))) series))
    /\ (forall x, CNum x ∈ levels series ->
          getitem (df ++ dummies) (column +:+ "_" +:+ str_num x)
          = Ret (map (fun c => indicator (cell_eqb c (CNum x))) series))
    /\ (forall v, v ∈ levels series -> v ∈ series /\ isna v = false)
    /\ (forall c, c ∈ series -> isna c = false -> count c (levels series) = 1%nat)
    /\ (forall name col, getitem df name = Ret col -> getitem (df ++ dummies) name = Ret col)
    /\ (forall i c, series !! i = Some c -> isna c = false -> (row_sum dummies i == 1)%Q).
Proof.
  intros Hs Hrows Hcol Hnames. exists (get_dummies str_num series column).
  assert (Hfst : map fst (get_dummies str_num series column)
                 = map (fun v => column +:+ "_" +:+ match v with
                                                    | CStr s => s
                                                    | CNum x => str_num x
                                                    | CNull => "None"
                                                    end) (levels series)).
  { unfold get_dummies. rewrite map_map. apply map_ext. intros [|x|s]; reflexivity. }
  assert (Hnd : NoDup (map fst (df ++ get_dummies str_num series column))).
  { now rewrite map_app, Hfst. }
  assert (Hentry : forall v, v ∈ levels series ->
            getitem (df ++ get_dummies str_num series column)
              (column +:+ "_" +:+ str str_num v)
            = Ret (map (fun c => indicator (cell_eqb c v)) series)).
  { intros v Hv. apply getitem_nodup_elem; [exact Hnd |].
    apply elem_of_app. right. unfold get_dummies. apply list_elem_of_fmap. now exists v. }
  split; [| split; [| split; [| split; [| split; [| split; [| split]]]]]].
  - unfold apply_encoding. destruct (nrows df =? 0)%nat eqn:E; [apply Nat.eqb_eq in E; lia |].
    destruct column as [|a column']; [congruence |].
    unfold encode_onehot. rewrite Hs. cbn [mbind py_bind Py.bind mret py_ret try_except table_of].
    now apply to_dict_records_nodup.
  - unfold get_dummies. rewrite map_map. reflexivity.
  - intros s Hin.
    assert (Hone : count (CStr s) (levels series) = 1%nat)
      by (now apply count_levels_present).
    unfold count in Hone.
    destruct (List.filter (cell_eqb (CStr s)) (levels series)) as [|v t] eqn:Ef;
      [discriminate |].
    assert (Hv : v ∈ List.filter (cell_eqb (CStr s)) (levels series))
      by (rewrite Ef; now left).
    apply list_elem_of_In, filter_In in Hv as [Hv Heq].
    destruct v as [|x|s']; try discriminate. simpl in Heq. apply String.eqb_eq in Heq.
    subst s'. apply (Hentry (CStr s)). now apply list_elem_of_In.
  - intros x Hx. apply (Hentry (CNum x) Hx).
  - apply levels_elem.
  - apply count_levels_present.
  - intros name col. apply getitem_app_l.
  - intros i c Hl Hn. unfold get_dummies. rewrite (row_sum_dummies _ _ _ _ _ _ Hl).
    rewrite count_levels_present; [reflexivity | | exact Hn].
    eapply list_elem_of_lookup_2; eauto.
Qed.

Lemma onehot_witness :
  let series := [CStr "b"; CStr "a"; CNull; CStr "b"] in
  let df := [("id", [num 1; num 2; num 3; num 4]); ("c", series)] in
  exists dummies,
    table_of (apply_encoding simple_str_num simple_sorted df "c" (Some onehot) [])
    = df ++ dummies
    /\ map snd dummies
       = map (fun v => map (fun c => indicator (cell_eqb c v)) series) (levels series)
    /\ (forall s, CStr s ∈ series ->
          getitem (df ++ dummies) ("c" +:+ "_" +:+ s)
          = Ret (map (fun c => indicator (cell_eqb c (CStr s))) series))
    /\ (forall x, CNum x ∈ levels series ->
          getitem (df ++ dummies) ("c" +:+ "_" +:+ simple_str_num x)
          = Ret (map (fun c => indicator (cell_eqb c (CNum x))) series))
    /\ (forall v, v ∈ levels series -> v ∈ series /\ isna v = false)
    /\ (forall c, c ∈ series -> isna c = false -> count c (levels series) = 1%nat)
    /\ (forall name col, getitem df name = Ret col -> getitem (df ++ dummies) name = Ret col)
    /\ (forall i c, series !! i = Some c -> isna c = false -> (row_sum dummies i == 1)%Q).
Proof.
  apply (onehot_appends_one_indicator_per_value simple_str_num simple_sorted
           [("id", [num 1; num 2; num 3; num 4]); ("c", [CStr "b"; CStr "a"; CNull; CStr "b"])]
           "c" [CStr "b"; CStr "a"; CNull; CStr "b"] []).
  - reflexivity.
  - simpl. lia.
  - discriminate.
  - vm_compute. repeat constructor; compute_done.
Defined.

(** With a column already named like an indicator, the records keep
    one column under the name, the indicator: the column of the
    dataset is overwritten.  With the values 1 and "1", whose names
    are the same, the records keep one indicator for the two, and the
    row holding 1 has no indicator set. *)
Lemma onehot_name_collision_counterexample :
  (let df := [("c", [CStr "a"; CStr "b"]); ("c_a", [CStr "x"; CStr "y"])] in
   table_of (apply_encoding simple_str_num simple_sorted df "c" (Some onehot) [])
   = [("c", [CStr "a"; CStr "b"]); ("c_a", [num 1; num 0]); ("c_b", [num 0; num 1])])
  /\ (let df := [("c", [num 1; CStr "1"])] in
      table_of (apply_encoding simple_str_num simple_sorted df "c" (Some onehot) [])
      = [("c", [num 1; CStr "1"]); ("c_1", [num 0; num 1])]).
Proof. split; reflexivity. Qed.

(** C4 (amended).  For every dataset and column whose standard
    deviation, as pandas computes it, is exactly zero, Z-score
    detection flags no row of the column, for every threshold, and
    evaluates no division by the standard deviation. *)
Theorem zscore_zero_deviation_flags_nothing
    (series_mean series_std : list real -> float) (df : DataFrame) (cols : list string)
    (col : string) (series : list cell) (thr : option Q) :
  columns_exist df cols -> col ∈ cols -> getitem df col = Ret series ->
  eqb (series_std (numbers series)) (fin 0) = true ->
  (exists rep,
     detect_outliers series_mean series_std df cols zscore thr = Ret rep
     /\ flagged rep col = [])
  /\ divisions_by_std (zscore_rows series_mean series_std series (numbers series) thr)
     = 0%nat.
Proof.
  intros Hcols Hin Hs Hstd.
  rewrite (zscore_rows_zero_std _ _ _ _ Hstd). split; [| reflexivity].
  destruct (detect_outliers_flagged series_mean series_std df zscore thr cols Hcols)
    as [rep [Hrep Hfl]].
  exists rep. split; [exact Hrep |]. rewrite (Hfl col Hin).
  unfold rows_of, analyse_column. rewrite Hs, bind_ret.
  destruct (negb (is_numeric_dtype series)); [reflexivity |].
  destruct (length (numbers series) <=? 1)%nat; [reflexivity |].
  now rewrite (zscore_rows_zero_std _ _ _ _ Hstd).
Qed.

Lemma zscore_zero_deviation_witness :
  let series := [num 7; CNull; num 7; num 7] in
  (exists rep,
     detect_outliers Binary64.mean Binary64.std [("level", series)] ["level"] zscore
       (Some (1 # 10))
     = Ret rep
     /\ flagged rep "level" = [])
  /\ divisions_by_std
       (zscore_rows Binary64.mean Binary64.std series (numbers series) (Some (1 # 10)))
     = 0%nat.
Proof.
  apply (zscore_zero_deviation_flags_nothing Binary64.mean Binary64.std
           [("level", [num 7; CNull; num 7; num 7])] ["level"] "level"
           [num 7; CNull; num 7; num 7] (Some (1 # 10))).
  - repeat constructor. eexists. reflexivity.
  - constructor.
  - reflexivity.
  - vm_compute. reflexivity.
Defined.

(** The three values 0.1, 0.1, 0.1 are all equal, but the mean that
    binary64 arithmetic gives for them is not 0.1 and their standard
    deviation is not zero: with the threshold 0.5 the three rows are
    flagged. *)
Lemma zscore_equal_values_counterexample :
  let x := Binary64.json_number (1 # 10) in
  let series := [x; x; x] in
  all_equal (numbers series)
  /\ eqb (Binary64.std (numbers series)) (fin 0) = false
  /\ exists rep,
       detect_outliers Binary64.mean Binary64.std [("level", series)] ["level"] zscore
         (Some (1 # 2))
       = Ret rep
       /\ flagged rep "level" = [0; 1; 2]%nat.
Proof.
  split; [| split].
  - exists (Fin (3602879701896397 # 36028797018963968)). vm_compute. repeat constructor.
  - vm_compute. reflexivity.
  - eexists. split; vm_compute; reflexivity.
Qed.

(** C5.  Mode imputation is to fill the nulls of any column, numeric or
    not, with its most frequent value.  On the numeric column 1, 1,
    null, whose mode is 1, the null is left in place. *)
Theorem mode_imputation_skips_numeric_columns :
  impute [("a", [num 1; num 1; CNull])] ["a"] mode_method
  = Ret [("a", [num 1; num 1; CNull])]
  /\ mode [num 1; num 1; CNull] = [num 1]
  /\ is_numeric_dtype [num 1; num 1; CNull] = true.
Proof. split; [reflexivity | split; reflexivity]. Qed.

(** C6.  An ordinal order that omits a value of the column is to be
    rejected or completed.  With the order low, high on the column low,
    high, mid the encoding succeeds and the row holding mid gets no
    code. *)
Theorem ordinal_partial_order_leaves_values_unmapped
    (str_num : real -> string) (sorted : list cell -> py (list cell)) :
  apply_encoding str_num sorted [("size", [CStr "low"; CStr "high"; CStr "mid"])] "size"
    (Some ordinal) ["low"; "high"]
  = Encoded [("size", [CStr "low"; CStr "high"; CStr "mid"]);
             ("size_ordinal", [num 0; num 1; CNull])]
      ["size_ordinal"].
Proof. reflexivity. Qed.

(** C7.  For every dataset and pair of selected variables, a Pearson or
    Spearman test returns and never raises; it returns a message when
    the second variable is missing, when a variable is not a numeric
    column, or when fewer than two valid paired points remain; the
    valid paired points are exactly the rows in which both values are
    finite numbers (rows with a null or an infinite value are dropped),
    and the statistic is computed on them. *)
Theorem correlation_tests_report_errors
    (pearsonr spearmanr polyfit : string -> string -> list (Q * Q) -> py (float * float))
    (chi2_contingency : list cell -> list cell -> py (float * float * nat))
    (n_clicks : option nat) (test_type x_axis y_axis : option string) (data : DataFrame) :
  is_correlation_test test_type ->
  (exists out,
     perform_test pearsonr spearmanr polyfit chi2_contingency n_clicks test_type x_axis y_axis
       data = Ret out)
  /\ (error_condition data x_axis y_axis ->
      exists msg,
        perform_test pearsonr spearmanr polyfit chi2_contingency n_clicks test_type x_axis
          y_axis data = Ret (Message msg))
  /\ (forall xs ys a b,
        (a, b) ∈ valid_pairs xs ys <->
        exists i, xs !! i = Some (CNum (Fin a)) /\ ys !! i = Some (CNum (Fin b)))
  /\ (forall x y xs ys,
        truthy_nat n_clicks = true -> (0 < nrows data)%nat ->
        x_axis = Some x -> truthy_str x_axis = true ->
        y_axis = Some y -> truthy_str y_axis = true ->
        getitem data x = Ret xs -> is_numeric_dtype xs = true ->
        getitem data y = Ret ys -> is_numeric_dtype ys = true ->
        (2 <= length (valid_pairs xs ys))%nat ->
        (test_type = Some "pearson" ->
         perform_test pearsonr spearmanr polyfit chi2_contingency n_clicks test_type x_axis
           y_axis data
         = Ret (try_except (correlate polyfit "Pearson" pearsonr true x y (valid_pairs xs ys))
                  on_error))
        /\ (test_type = Some "spearman" ->
            perform_test pearsonr spearmanr polyfit chi2_contingency n_clicks test_type x_axis
              y_axis data
            = Ret (try_except
                     (correlate polyfit "Spearman" spearmanr false x y (valid_pairs xs ys))
                     on_error))).
Proof.
  intros Htest. split; [apply perform_test_returns |].
  split; [now apply perform_test_error |].
  split; [apply valid_pairs_spec |].
  intros. now apply perform_test_computes.
Qed.

Lemma correlation_tests_witness :
  let data := [("height", [num 150; CNull; num 180]); ("weight", [num 50; num 60; CNum PInf])] in
  exists msg,
    perform_test failing_stat failing_stat failing_stat failing_chi2 (Some 1%nat)
      (Some "pearson") (Some "height") (Some "weight") data
    = Ret (Message msg).
Proof.
  apply (correlation_tests_report_errors failing_stat failing_stat failing_stat failing_chi2
           (Some 1%nat) (Some "pearson") (Some "height") (Some "weight")
           [("height", [num 150; CNull; num 180]); ("weight", [num 50; num 60; CNum PInf])]).
  - left. reflexivity.
  - right. right. right. vm_compute. lia.
Defined.

(** C8 (amended).  For every non-empty dataset, selected target and
    non-empty feature selection whose columns exist in the dataset,
    once training is requested, if fewer than 10 rows remain after
    dropping the rows with a null in the target or in a feature column,
    [train_model] returns the error "Not enough data after removing
    missing values. Need at least 10 rows."; [train_model] returns in
    every case.  Without a click, a record, a target or a feature it
    reports nothing. *)
Theorem training_needs_ten_rows :
  (forall Qsqrt str_num fit_forest n_clicks data target features params df,
     truthy_nat n_clicks = true -> (0 < nrows data)%nat ->
     target <> "" -> features <> [] ->
     dropna_subset data (target :: features) = Ret df -> (nrows df < 10)%nat ->
     train_model Qsqrt str_num fit_forest n_clicks data (Some target) features params
     = TrainingError "Not enough data after removing missing values. Need at least 10 rows.")
  /\ (forall Qsqrt str_num fit_forest n_clicks data target features params,
        truthy_nat n_clicks = false \/ nrows data = 0%nat
        \/ truthy_str target = false \/ features = [] ->
        train_model Qsqrt str_num fit_forest n_clicks data target features params = Idle).
Proof.
  split.
  - intros. eapply train_model_not_enough; eauto.
  - intros. now apply train_model_idle.
Qed.

Lemma training_needs_ten_rows_witness :
  train_model Qsqrt_approx simple_str_num uniform_fit (Some 1%nat)
    [("x", [num 1; num 2; CNull]); ("y", [CStr "a"; CNull; CStr "b"])]
    (Some "y") ["x"] default_params
  = TrainingError "Not enough data after removing missing values. Need at least 10 rows.".
Proof.
  apply (proj1 training_needs_ten_rows Qsqrt_approx simple_str_num uniform_fit (Some 1%nat)
           [("x", [num 1; num 2; CNull]); ("y", [CStr "a"; CNull; CStr "b"])]
           "y" ["x"] default_params [("x", [num 1]); ("y", [CStr "a"])]).
  - reflexivity.
  - simpl. lia.
  - discriminate.
  - discriminate.
  - reflexivity.
  - simpl. lia.
Defined.

Lemma training_without_features_counterexample :
  let data := [("x", [num 1; num 2; num 3]); ("y", [CStr "a"; CStr "b"; CStr "a"])] in
  exists df,
    dropna_subset data ("y" :: []) = Ret df /\ (nrows df < 10)%nat
    /\ train_model Qsqrt_approx simple_str_num uniform_fit (Some 1%nat) data (Some "y") []
         default_params = Idle.
Proof.
  eexists. split; [reflexivity |]. split; [simpl; lia | reflexivity].
Qed.




(** C10.  The manual path is to return the class stored under the
    code 0 for every input.  The model reaches [make_predictions]
    through the store, as JSON, where the keys of the inverse mapping
    are strings: the lookup of the integer 0 fails and, for every input
    that has a value for each feature, the answer is the notice of the
    handler and no class. *)
Theorem manual_prediction_fails_on_stored_model
    (Qsqrt : Q -> Q) (str_num : real -> string)
    (fit_forest : list (string * list float) -> list cell -> hyper -> py fitted)
    (forest_fit_predict : DataFrame -> list string -> string -> hyper -> py (list cell))
    (float_of_string : string -> py float)
    (n_clicks : option nat) (data : DataFrame) (target : option string)
    (features : list string) (params : hyper)
    (model : model_info) (feature_info : list (string * feature_meta)) (m : metrics)
    (mapping : list (cell * nat)) (inverse_mapping : list (key * cell)) :
  well_formed data ->
  train_model Qsqrt str_num fit_forest n_clicks data target features params
  = Trained model feature_info m ->
  target_info model = CategoricalTarget mapping inverse_mapping ->
  exists first_class,
    key_get inverse_mapping (KInt 0) = Some first_class
    /\ forall manual_values manual_ids file_data,
         manual_inputs_ok float_of_string feature_info (Forest.features model)
           manual_values manual_ids = true ->
         make_predictions str_num forest_fit_predict float_of_string ManualButton
           manual_values manual_ids file_data (Some (stored str_num model)) feature_info
         = Notice "Error making prediction: 0".
Proof.
  intros Hwf Htrain Hti.
  destruct (train_model_trained Qsqrt str_num fit_forest n_clicks data target features params
              model feature_info m Hwf Htrain) as [Hne [Hf [Hfi Hkey]]].
  destruct (Hkey mapping inverse_mapping Hti) as [c Hc].
  exists c. split; [exact Hc |]. intros manual_values manual_ids file_data Hok.
  eapply (make_predictions_manual_string_keys str_num forest_fit_predict float_of_string
            (stored str_num model)).
  - cbn [stored Forest.features]. now rewrite Hf.
  - cbn [stored Forest.features]. rewrite Hf. exact Hfi.
  - cbn [stored target_info]. rewrite Hti. reflexivity.
  - apply Forall_map. apply Forall_forall. intros [k v] _. cbn [fst].
    destruct k; eexists; reflexivity.
  - exact Hok.
Qed.

Lemma manual_prediction_stored_witness :
  let data :=
    [("age", map num [21; 34; 45; 52; 23; 38; 61; 47; 29; 55; 40; 33]%Z);
     ("city", map CStr ["a"; "b"; "a"; "b"; "a"; "b"; "a"; "b"; "a"; "b"; "a"; "b"]);
     ("label", [CStr "yes"; CStr "no"; CStr "yes"; CStr "no"; CStr "yes"; CStr "no";
                CStr "yes"; CStr "no"; CStr "yes"; CStr "no"; CNull; CStr "no"])] in
  exists model feature_info m,
    train_model Qsqrt_approx simple_str_num uniform_fit (Some 1%nat) data (Some "label")
      ["age"; "city"] default_params
    = Trained model feature_info m
    /\ target_info model
       = CategoricalTarget [(CStr "yes", 0%nat); (CStr "no", 1%nat)]
           [(KInt 0, CStr "yes"); (KInt 1, CStr "no")]
    /\ target_info (stored simple_str_num model)
       = CategoricalTarget [(CStr "yes", 0%nat); (CStr "no", 1%nat)]
           [(KStr "0", CStr "yes"); (KStr "1", CStr "no")]
    /\ make_predictions simple_str_num echo_predict reject_string ManualButton
         [num 30; CStr "a"] ["age"; "city"] [] (Some (stored simple_str_num model))
         feature_info
       = Notice "Error making prediction: 0".
Proof.
  intros data.
  destruct (train_model Qsqrt_approx simple_str_num uniform_fit (Some 1%nat) data (Some "label")
              ["age"; "city"] default_params) as [| msg | model feature_info m] eqn:Etrain;
    try (vm_compute in Etrain; discriminate).
  exists model, feature_info, m. split; [reflexivity |].
  assert (Hti : target_info model
                = CategoricalTarget [(CStr "yes", 0%nat); (CStr "no", 1%nat)]
                    [(KInt 0, CStr "yes"); (KInt 1, CStr "no")]).
  { vm_compute in Etrain. inversion Etrain. reflexivity. }
  assert (Hfeat : Forest.features model = ["age"; "city"]).
  { vm_compute in Etrain. inversion Etrain. reflexivity. }
  assert (Hinfo : feature_info
                  = [("age", NumericFeature (mean (numbers (map num [21; 34; 45; 52; 23; 38;
                                                                       61; 47; 29; 55; 33]%Z)))
                               (Stats.std Qsqrt_approx
                                  (numbers (map num [21; 34; 45; 52; 23; 38; 61; 47; 29; 55;
                                                     33]%Z))));
                     ("city", CategoricalFeature [CStr "a"; CStr "b"])]).
  { vm_compute in Etrain. inversion Etrain. vm_compute. reflexivity. }
  split; [exact Hti |]. split; [cbn [stored target_info]; rewrite Hti; reflexivity |].
  assert (Hwf : well_formed data) by (repeat constructor).
  destruct (manual_prediction_fails_on_stored_model Qsqrt_approx simple_str_num uniform_fit
              echo_predict reject_string (Some 1%nat) data (Some "label") ["age"; "city"]
              default_params model feature_info m _ _ Hwf Etrain Hti) as [c [Hc Hall]].
  apply Hall. rewrite Hfeat, Hinfo. vm_compute. reflexivity.
Defined.

End Claims.

(** * Further properties of the callbacks *)

(** ** Navigation *)

Module NavigationFacts.

Import Navigation.

Lemma idx_map_keys (name : string) (k : nat) :
  Dict.get idx_map name = Some k ->
  (k < 11)%nat /\ idx_map !! k = Some (name, k).
Proof.
  unfold idx_map. cbn [Dict.get].
  repeat match goal with
         | |- (if String.eqb ?a name then _ else _) = _ -> _ =>
             let E := fresh "E" in
             destruct (String.eqb a name) eqn:E; cbv iota;
             [apply String.eqb_eq in E; subst name; intros [= <-]; split; [lia | reflexivity] |]
         end.
  discriminate.
Qed.

Lemma shows_index (k : nat) :
  (k < 11)%nat ->
  shows (map Style (<[k := shown_style]> (replicate 11 hidden_style))
         ++ map Flag (<[k := true]> (replicate 11 false))
         ++ map Class (<[k := "nav-button active"]> (replicate 11 "nav-button"))) k.
Proof.
  intros Hk j Hj.
  do 11 (destruct k as [|k]; [do 11 (destruct j as [|j]; [repeat split |]); lia |]).
  lia.
Qed.

Lemma update_content_known (prop_id : string) (rest : list string) (k : nat) :
  Dict.get idx_map (before_dot prop_id) = Some k ->
  shows (update_content (prop_id :: rest)) k.
Proof.
  intros Hk. unfold update_content. rewrite Hk.
  apply shows_index. now apply idx_map_keys in Hk.
Qed.

Lemma before_dot_app (name property : string) :
  before_dot name = name -> before_dot (name +:+ "." +:+ property) = name.
Proof.
  induction name as [|a name IH]; [reflexivity |].
  change (before_dot (String a name) = String a name ->
          before_dot (String a (name +:+ "." +:+ property)) = String a name).
  cbn [before_dot]. destruct (Ascii.eqb a "."); [discriminate |].
  intros [= H]. now rewrite (IH H).
Qed.

End NavigationFacts.

Module NavigationProperties.

Import Navigation NavigationFacts.

(** X1.  Whatever triggered the callback, [update_content] returns 33
    entries that show nothing or exactly one panel, whose button alone
    is marked active.  Without a trigger the welcome panel is shown; a
    click on one of the eleven navigation buttons shows the panel of
    that button; a trigger that is not a navigation button hides every
    panel. *)
Theorem navigation_shows_one_panel :
  (forall triggered,
     length (update_content triggered) = 33%nat
     /\ (shows_nothing (update_content triggered)
         \/ exists k, (k < 11)%nat /\ shows (update_content triggered) k))
  /\ shows (update_content []) 0
  /\ (forall name k property rest,
        idx_map !! k = Some (name, k) ->
        shows (update_content ((name +:+ "." +:+ property) :: rest)) k)
  /\ (forall prop_id rest,
        Dict.get idx_map (before_dot prop_id) = None ->
        shows_nothing (update_content (prop_id :: rest))).
Proof.
  assert (Hnone : forall prop_id rest,
             Dict.get idx_map (before_dot prop_id) = None ->
             shows_nothing (update_content (prop_id :: rest))).
  { intros prop_id rest Hk j Hj. unfold update_content. rewrite Hk.
    do 11 (destruct j as [|j]; [repeat split |]). lia. }
  assert (Hfirst : shows (update_content []) 0).
  { intros j Hj. do 11 (destruct j as [|j]; [repeat split |]). lia. }
  split; [| split; [exact Hfirst | split; [| exact Hnone]]].
  - intros [|prop_id rest].
    + split; [reflexivity |]. right. exists 0%nat. split; [lia | exact Hfirst].
    + destruct (Dict.get idx_map (before_dot prop_id)) as [k|] eqn:Hk.
      * split.
        -- unfold update_content. rewrite Hk.
           rewrite !length_app, !length_map, !length_insert, !length_replicate. reflexivity.
        -- right. exists k. split; [now apply idx_map_keys in Hk |].
           now apply update_content_known.
      * split; [unfold update_content; rewrite Hk; reflexivity |].
        left. now apply Hnone.
  - intros name k property rest Hk. apply update_content_known.
    rewrite before_dot_app.
    + do 11 (destruct k as [|k]; [injection Hk as <-; reflexivity |]). discriminate.
    + do 11 (destruct k as [|k]; [injection Hk as <-; reflexivity |]). discriminate.
Qed.

End NavigationProperties.

(** ** Outlier detection: the report and the Z-score rule *)

Module DetectionFacts.

Import Outliers Treatment PyFacts FrameFacts StatsFacts OutlierFacts ForestFacts.


Section Report.

Variable series_mean series_std : list real -> float.

Variable df : DataFrame.

Variable m : outlier_method.

Variable thr : option Q.

Lemma consistent_record (acc : report) (col : string) (res : option column_result) :
  analyse_column series_mean series_std df col m thr = Ret res ->
  consistent series_mean series_std df m thr acc ->
  consistent series_mean series_std df m thr (record_column acc col res).
Proof.
  intros Ha [Hd Hi].
  assert (Hcol : rows_of series_mean series_std df m thr col
                 = match res with Some r => outlier_rows r | None => [] end).
  { unfold rows_of. now rewrite Ha. }
  destruct res as [r|]; [| split; assumption].
  unfold record_column. destruct (outlier_rows r) as [|i0 t] eqn:Er; [split; assumption |].
  split.
  - cbn [outliers_dict]. intros c rows Hget.
    destruct (decide (col = c)) as [<- | Hne].
    + rewrite dict_get_set_eq in Hget. injection Hget as <-. split; [discriminate | now symmetry].
    + rewrite dict_get_set_ne in Hget by exact Hne. now apply Hd.
  - intros i. cbn [outlier_indices]. rewrite elem_of_union, elem_of_list_to_set, Hi.
    unfold flagged. cbn [outliers_dict]. split.
    + intros [[c Hc] | Hin].
      * destruct (decide (col = c)) as [<- | Hne].
        -- exists col. rewrite dict_get_set_eq. cbn [default].
           unfold flagged in Hc. destruct (Dict.get (outliers_dict acc) col) as [rows|] eqn:Eg;
             [| inversion Hc].
           cbn [default] in Hc. destruct (Hd _ _ Eg) as [_ ->] in Hc. now rewrite Hcol in Hc.
        -- exists c. now rewrite dict_get_set_ne.
      * exists col. now rewrite dict_get_set_eq.
    + intros [c Hc]. destruct (decide (col = c)) as [<- | Hne].
      * rewrite dict_get_set_eq in Hc. now right.
      * rewrite dict_get_set_ne in Hc by exact Hne. left. now exists c.
Qed.

Lemma detect_loop_consistent (cols : list string) (acc rep : report) :
  detect_loop series_mean series_std df cols m thr acc = Ret rep ->
  consistent series_mean series_std df m thr acc -> consistent series_mean series_std df m thr rep.
Proof.
  revert acc. induction cols as [|col rest IH]; intros acc Hrun Hacc.
  - simpl in Hrun. now inversion Hrun; subst.
  - simpl in Hrun. unfold mbind, py_bind in Hrun. simpl in Hrun.
    destruct (analyse_column series_mean series_std df col m thr) as [res|e] eqn:Ea; simpl in Hrun;
      [| discriminate].
    apply (IH _ Hrun). now apply consistent_record.
Qed.

(** An entry of the final dictionary belongs to a selected column or
    was there at the start. *)
Lemma detect_loop_keys (cols : list string) (acc rep : report) (c : string) :
  detect_loop series_mean series_std df cols m thr acc = Ret rep ->
  is_Some (Dict.get (outliers_dict rep) c) ->
  c ∈ cols \/ is_Some (Dict.get (outliers_dict acc) c).
Proof.
  revert acc. induction cols as [|col rest IH]; intros acc Hrun Hc.
  - simpl in Hrun. inversion Hrun; subst. now right.
  - simpl in Hrun. unfold mbind, py_bind in Hrun. simpl in Hrun.
    destruct (analyse_column series_mean series_std df col m thr) as [res|e] eqn:Ea; simpl in Hrun;
      [| discriminate].
    destruct (IH _ Hrun Hc) as [Hin | Hacc]; [left; now right |].
    destruct (decide (col = c)) as [<- | Hne]; [left; now left |]. right.
    unfold record_column in Hacc. destruct res as [r|]; [| exact Hacc].
    destruct (outlier_rows r); [exact Hacc |].
    cbn [outliers_dict] in Hacc. now rewrite dict_get_set_ne in Hacc.
Qed.

(** A column for which the loop body finds rows is numeric and has at
    least two values; the rows are labels of cells holding a number. *)
Lemma rows_of_found (c : string) (i : nat) :
  i ∈ rows_of series_mean series_std df m thr c ->
  exists series, getitem df c = Ret series /\ is_numeric_dtype series = true
                 /\ (2 <= length (numbers series))%nat
                 /\ is_Some (series !! i).
Proof.
  unfold rows_of, analyse_column. destruct (getitem df c) as [series|e]; [| inversion 1].
  unfold mbind, py_bind. simpl.
  destruct (is_numeric_dtype series) eqn:En; simpl; [| inversion 1].
  destruct (length (numbers series) <=? 1)%nat eqn:El; [inversion 1 |].
  apply Nat.leb_gt in El. intros Hi. exists series.
  split; [reflexivity | split; [exact En | split; [lia |]]].
  change (i ∈ outlier_rows (match m with
                            | iqr => iqr_rows series (numbers series) thr
                            | zscore =>
                                zscore_rows series_mean series_std series (numbers series) thr
                            end)) in Hi.
  destruct m.
  - apply iqr_rows_spec in Hi as [x [Hx _]]. eauto.
  - unfold zscore_rows in Hi.
    destruct (eqb (series_std (numbers series)) (fin 0)); [inversion Hi |].
    cbn [outlier_rows] in Hi. apply rows_where_spec in Hi as [z [Hz _]].
    rewrite list_lookup_fmap in Hz. destruct (series !! i); [eauto | discriminate].
Qed.

End Report.

Lemma consistent_empty series_mean series_std df m thr :
  consistent series_mean series_std df m thr
    {| outliers_dict := []; outlier_indices := ∅; std_divisions := 0 |}.
Proof.
  split.
  - intros c rows H. discriminate.
  - intros i. split; [intros H; now apply not_elem_of_empty in H |].
    intros [c Hc]. inversion Hc.
Qed.

(** The indices of a report are the rows the rule flags in a selected
    column, and they are rows of the frame. *)
Lemma detect_outliers_indices series_mean series_std df cols m thr rep :
  well_formed df ->
  detect_outliers series_mean series_std df cols m thr = Ret rep ->
  forall i, (i ∈ outlier_indices rep <->
             exists c, c ∈ cols /\ i ∈ rows_of series_mean series_std df m thr c)
            /\ (i ∈ outlier_indices rep -> (i < nrows df)%nat).
Proof.
  intros Hwf Hrep. unfold detect_outliers in Hrep.
  pose proof (detect_loop_consistent series_mean series_std df m thr cols _ _ Hrep
                (consistent_empty series_mean series_std df m thr)) as [Hd Hi].
  assert (Hfl : forall c, c ∈ cols -> flagged rep c = rows_of series_mean series_std df m thr c).
  { intros c Hc. eapply detect_loop_flagged; [exact Hrep | | exact Hc].
    intros c'. now left. }
  assert (Hiff : forall i, i ∈ outlier_indices rep <->
                           exists c, c ∈ cols /\ i ∈ rows_of series_mean series_std df m thr c).
  { intros i. rewrite Hi. split.
    - intros [c Hc]. exists c. unfold flagged in Hc.
      destruct (Dict.get (outliers_dict rep) c) as [rows|] eqn:Eg; [| inversion Hc].
      cbn [default] in Hc. destruct (Hd c rows Eg) as [_ Hrows]. split; [| now rewrite <- Hrows].
      destruct (detect_loop_keys series_mean series_std df m thr cols _ _ c Hrep) as [H | [x H]];
        [now rewrite Eg | exact H | discriminate].
    - intros [c [Hc Hin]]. exists c. now rewrite (Hfl c Hc). }
  intros i. split; [apply Hiff |].
  intros Hin. apply Hiff in Hin as [c [_ Hin]].
  apply rows_of_found in Hin as [series [Hs [_ [_ Hl]]]].
  rewrite <- (getitem_length df c series Hwf Hs). now apply lookup_lt_is_Some.
Qed.

End DetectionFacts.

(** ** Duplicate rows *)

Module DuplicateFacts.

Import Duplicates Forest EncodingFacts ForestFacts.

Lemma same_cell_refl (c : cell) : same_cell c c = true.
Proof.
  destruct c as [|x|s]; unfold same_cell; simpl; [reflexivity | | ].
  - now rewrite eq_real_refl.
  - now rewrite String.eqb_refl.
Qed.

Lemma same_cell_sym (a b : cell) : same_cell a b = same_cell b a.
Proof. unfold same_cell. now rewrite cell_eqb_sym, andb_comm. Qed.

Lemma same_cell_trans (a b c : cell) :
  same_cell a b = true -> same_cell b c = true -> same_cell a c = true.
Proof.
  unfold same_cell. intros Hab Hbc.
  apply orb_true_iff in Hab as [Hab | Hab], Hbc as [Hbc | Hbc].
  - now rewrite (cell_eqb_trans a b c).
  - apply andb_true_iff in Hbc as [Hb _]. destruct a, b; discriminate.
  - apply andb_true_iff in Hab as [_ Hb]. destruct b, c; discriminate.
  - apply andb_true_iff in Hab as [-> _], Hbc as [_ ->]. apply orb_true_r.
Qed.

Lemma same_row_refl (r : list cell) : same_row r r = true.
Proof. induction r as [|c t IH]; [reflexivity |]. simpl. now rewrite same_cell_refl. Qed.

Lemma same_row_sym (r1 r2 : list cell) : same_row r1 r2 = same_row r2 r1.
Proof.
  revert r2. induction r1 as [|a t IH]; intros [|b u]; try reflexivity.
  simpl. now rewrite same_cell_sym, IH.
Qed.

Lemma same_row_trans (r1 r2 r3 : list cell) :
  same_row r1 r2 = true -> same_row r2 r3 = true -> same_row r1 r3 = true.
Proof.
  revert r2 r3. induction r1 as [|a t IH]; intros [|b u] [|c v]; simpl; try congruence.
  intros H1 H2. apply andb_true_iff in H1 as [Hab Htu], H2 as [Hbc Huv].
  now rewrite (same_cell_trans a b c), (IH u v).
Qed.

(** *** Selecting rows by a mask *)

Lemma select_rows_cons {A : Type} (b : bool) (mask : list bool) (x : A) (l : list A) :
  select_rows (b :: mask) (x :: l) = if b then x :: select_rows mask l else select_rows mask l.
Proof. unfold select_rows. simpl. now destruct b. Qed.

Lemma select_rows_map {A B : Type} (f : A -> B) (mask : list bool) (l : list A) :
  select_rows mask (map f l) = map f (select_rows mask l).
Proof.
  revert l. induction mask as [|b mask IH]; intros [|x l]; try reflexivity.
  change (map f (x :: l)) with (f x :: map f l).
  rewrite !select_rows_cons, IH. now destruct b.
Qed.

Lemma select_rows_sublist {A : Type} (mask : list bool) (l : list A) :
  sublist (select_rows mask l) l.
Proof.
  revert l. induction mask as [|b mask IH]; intros [|x l];
    try (unfold select_rows; simpl; apply sublist_nil_l).
  rewrite select_rows_cons. destruct b; [now apply sublist_skip | now apply sublist_cons].
Qed.

Lemma select_rows_count {A : Type} (mask : list bool) (l : list A) :
  length l = length mask -> length (select_rows mask l) = length (List.filter id mask).
Proof. apply select_rows_length. Qed.

Lemma tabulate_lookup {A : Type} (d : A) (l : list A) :
  map (fun i => default d (l !! i)) (seq 0 (length l)) = l.
Proof.
  apply list_eq. intros i. rewrite list_lookup_fmap.
  destruct (decide (i < length l)%nat) as [Hi | Hi].
  - rewrite lookup_seq_lt by exact Hi. simpl.
    destruct (lookup_lt_is_Some_2 l i Hi) as [x Hx]. now rewrite Hx.
  - rewrite lookup_seq_ge by lia. simpl. symmetry. apply lookup_ge_None. lia.
Qed.

(** The cells a mask keeps are the cells at the labels it keeps. *)
Lemma select_rows_labels (mask : list bool) (col : list cell) :
  select_rows mask col
  = map (fun i => default CNull (col !! i)) (select_rows mask (seq 0 (length col))).
Proof. now rewrite <- select_rows_map, tabulate_lookup. Qed.

Lemma nrows_select (mask : list bool) (df : DataFrame) :
  well_formed df -> length mask = nrows df ->
  nrows (select mask df) = length (List.filter id mask).
Proof.
  intros Hwf Hlen. destruct df as [|[name col] rest].
  - simpl in *. destruct mask; [reflexivity | discriminate].
  - simpl. apply select_rows_length. simpl in Hlen. congruence.
Qed.

(** The records of [df[mask]] are the records of [df] the mask keeps. *)
Lemma rows_select (mask : list bool) (df : DataFrame) :
  well_formed df -> length mask = nrows df ->
  rows (select mask df) = select_rows mask (rows df).
Proof.
  intros Hwf Hlen. unfold rows at 2. rewrite select_rows_map.
  set (K := select_rows mask (seq 0 (nrows df))).
  assert (HK : length K = length (List.filter id mask)).
  { apply select_rows_length. now rewrite length_seq. }
  unfold rows. rewrite (nrows_select mask df Hwf Hlen), <- HK.
  apply list_eq. intros i. rewrite !list_lookup_fmap.
  destruct (decide (i < length K)%nat) as [Hi | Hi].
  - rewrite lookup_seq_lt by exact Hi.
    destruct (lookup_lt_is_Some_2 K i Hi) as [k Hk]. rewrite Hk. simpl. f_equal.
    unfold row, select. rewrite map_map. apply map_ext_in. intros [name col] Hin. simpl.
    rewrite select_rows_labels.
    assert (Hcol : length col = nrows df).
    { unfold well_formed in Hwf. rewrite Forall_forall in Hwf.
      apply (Hwf (name, col)). now apply list_elem_of_In. }
    rewrite Hcol. fold K. now rewrite list_lookup_fmap, Hk.
  - rewrite lookup_seq_ge by lia. simpl. symmetry.
    rewrite fmap_None. apply lookup_ge_None. lia.
Qed.

Lemma select_well_formed (mask : list bool) (df : DataFrame) :
  well_formed df -> length mask = nrows df -> well_formed (select mask df).
Proof.
  intros Hwf Hlen. unfold well_formed. rewrite (nrows_select mask df Hwf Hlen).
  unfold select. rewrite Forall_fmap. unfold well_formed in Hwf.
  eapply Forall_impl; [exact Hwf |]. intros [name col] Hcol. simpl in *.
  apply select_rows_length. congruence.
Qed.

Lemma rows_length (df : DataFrame) : length (rows df) = nrows df.
Proof. unfold rows. now rewrite length_map, length_seq. Qed.

Lemma duplicated_length (seen rs : list (list cell)) :
  length (duplicated seen rs) = length rs.
Proof.
  revert seen. induction rs as [|r t IH]; intros seen; simpl; [reflexivity | now rewrite IH].
Qed.

Lemma duplicated_all_length (rs : list (list cell)) : length (duplicated_all rs) = length rs.
Proof. unfold duplicated_all. now rewrite length_map. Qed.

(** *** Rows kept by [drop_duplicates] *)

Lemma dedup_cons (seen : list (list cell)) (r : list cell) (t : list (list cell)) :
  select_rows (map negb (duplicated seen (r :: t))) (r :: t)
  = if existsb (same_row r) seen
    then select_rows (map negb (duplicated (r :: seen) t)) t
    else r :: select_rows (map negb (duplicated (r :: seen) t)) t.
Proof.
  cbn [duplicated map]. rewrite select_rows_cons. now destruct (existsb (same_row r) seen).
Qed.

Lemma dedup_fresh (seen rs : list (list cell)) (y : list cell) :
  y ∈ select_rows (map negb (duplicated seen rs)) rs ->
  y ∈ rs /\ existsb (same_row y) seen = false.
Proof.
  revert seen. induction rs as [|r t IH]; intros seen Hy.
  - inversion Hy.
  - rewrite dedup_cons in Hy.
    assert (Htail : y ∈ select_rows (map negb (duplicated (r :: seen) t)) t ->
                    y ∈ r :: t /\ existsb (same_row y) seen = false).
    { intros H. apply IH in H as [Hin Hex]. split; [now right |].
      simpl in Hex. now apply orb_false_iff in Hex as [_ Hex]. }
    destruct (existsb (same_row r) seen) eqn:E; [now apply Htail |].
    apply elem_of_cons in Hy as [-> | Hy]; [| now apply Htail].
    split; [now left | exact E].
Qed.

Lemma dedup_distinct (seen rs : list (list cell)) :
  distinct_rows (select_rows (map negb (duplicated seen rs)) rs).
Proof.
  revert seen. induction rs as [|r t IH]; intros seen.
  - intros i j r1 r2 H. inversion H.
  - rewrite dedup_cons. destruct (existsb (same_row r) seen); [apply IH |].
    assert (Hhead : forall y, y ∈ select_rows (map negb (duplicated (r :: seen) t)) t ->
                              same_row y r = false).
    { intros y Hy. apply dedup_fresh in Hy as [_ Hex]. simpl in Hex.
      now apply orb_false_iff in Hex as [Hex _]. }
    intros [|i] [|j] r1 r2 H1 H2 Hne; simpl in H1, H2.
    + congruence.
    + injection H1 as <-. rewrite same_row_sym. apply Hhead.
      eapply list_elem_of_lookup_2; eauto.
    + injection H2 as <-. apply Hhead. eapply list_elem_of_lookup_2; eauto.
    + apply (IH (r :: seen) i j r1 r2 H1 H2). congruence.
Qed.

Lemma dedup_covers (seen rs : list (list cell)) (r : list cell) :
  r ∈ rs ->
  existsb (same_row r) seen = true
  \/ exists r', r' ∈ select_rows (map negb (duplicated seen rs)) rs /\ same_row r r' = true.
Proof.
  revert seen. induction rs as [|r0 t IH]; intros seen Hr; [inversion Hr |].
  rewrite dedup_cons. apply elem_of_cons in Hr as [-> | Hr].
  - destruct (existsb (same_row r0) seen) eqn:E; [now left |].
    right. exists r0. split; [now left | apply same_row_refl].
  - destruct (IH (r0 :: seen) Hr) as [Hex | [r' [Hin Hsame]]].
    + simpl in Hex. apply orb_true_iff in Hex as [Hex | Hex]; [| now left].
      destruct (existsb (same_row r0) seen) eqn:E.
      * left. apply existsb_exists in E as [s [Hs Hrs]]. apply existsb_exists.
        exists s. split; [exact Hs |]. now apply (same_row_trans r r0 s).
      * right. exists r0. split; [now left | exact Hex].
    + right. exists r'. split; [| exact Hsame].
      destruct (existsb (same_row r0) seen); [exact Hin | now right].
Qed.

(** When the rows differ pairwise and from the rows seen before, none
    is marked. *)
Lemma duplicated_none (seen rs : list (list cell)) :
  distinct_rows rs -> (forall r, r ∈ rs -> existsb (same_row r) seen = false) ->
  duplicated seen rs = replicate (length rs) false.
Proof.
  revert seen. induction rs as [|r t IH]; intros seen Hd Hs; [reflexivity |].
  simpl. rewrite (Hs r) by now left. f_equal. apply IH.
  - intros i j r1 r2 H1 H2 Hne. apply (Hd (S i) (S j) r1 r2 H1 H2). congruence.
  - intros y Hy. simpl. apply orb_false_iff. split; [| apply Hs; now right].
    apply list_elem_of_lookup in Hy as [j Hj].
    apply (Hd (S j) 0%nat y r Hj eq_refl). discriminate.
Qed.

Lemma select_rows_all {A : Type} (l : list A) :
  select_rows (replicate (length l) true) l = l.
Proof.
  induction l as [|x l IH]; [reflexivity |].
  cbn [length replicate]. now rewrite select_rows_cons, IH.
Qed.

Lemma select_all (df : DataFrame) :
  well_formed df -> select (replicate (nrows df) true) df = df.
Proof.
  intros Hwf. unfold select. rewrite <- (map_id df) at 2. apply map_ext_in.
  intros [name col] Hin. simpl. f_equal.
  unfold well_formed in Hwf. rewrite Forall_forall in Hwf.
  rewrite <- (Hwf (name, col)) by now apply list_elem_of_In. apply select_rows_all.
Qed.

(** *** Counting marked rows *)

Lemma filter_length_pos {A : Type} (p : A -> bool) (l : list A) (x : A) :
  x ∈ l -> p x = true -> (1 <= length (List.filter p l))%nat.
Proof.
  intros Hin Hp. apply list_elem_of_In in Hin.
  assert (H : In x (List.filter p l)) by (apply List.filter_In; now split).
  destruct (List.filter p l); [inversion H | simpl; lia].
Qed.

Lemma filter_length_two {A : Type} (p : A -> bool) (l : list A) (i j : nat) (x y : A) :
  (i < j)%nat -> l !! i = Some x -> l !! j = Some y -> p x = true -> p y = true ->
  (2 <= length (List.filter p l))%nat.
Proof.
  intros Hij Hx Hy Hpx Hpy. rewrite <- (take_drop j l), List.filter_app, length_app.
  assert (H1 : (1 <= length (List.filter p (take j l)))%nat).
  { apply (filter_length_pos p _ x); [| exact Hpx].
    apply list_elem_of_lookup. exists i. now rewrite lookup_take_lt. }
  assert (H2 : (1 <= length (List.filter p (drop j l)))%nat).
  { apply (filter_length_pos p _ y); [| exact Hpy].
    apply list_elem_of_lookup. exists 0%nat. rewrite lookup_drop.
    now replace (j + 0)%nat with j by lia. }
  lia.
Qed.

Lemma filter_witness {A : Type} (p : A -> bool) (l : list A) :
  (1 <= length (List.filter p l))%nat -> exists j y, l !! j = Some y /\ p y = true.
Proof.
  intros H. destruct (List.filter p l) as [|y u] eqn:Ef; [simpl in H; lia |].
  assert (Hy : In y (List.filter p l)) by (rewrite Ef; now left).
  apply List.filter_In in Hy as [Hin Hpy]. apply list_elem_of_In in Hin.
  apply list_elem_of_lookup in Hin as [j Hj]. now exists j, y.
Qed.

Lemma filter_other {A : Type} (p : A -> bool) (l : list A) (i : nat) :
  (2 <= length (List.filter p l))%nat ->
  exists j y, l !! j = Some y /\ p y = true /\ j <> i.
Proof.
  revert i. induction l as [|a t IH]; intros i H; [simpl in H; lia |].
  simpl in H. destruct (p a) eqn:Ea.
  - destruct i as [|i].
    + destruct (filter_witness p t) as [j [y [Hj Hy]]]; [simpl in H; lia |].
      exists (S j), y. split; [exact Hj | split; [exact Hy | discriminate]].
    + exists 0%nat, a. split; [reflexivity | split; [exact Ea | discriminate]].
  - destruct i as [|i].
    + destruct (IH 0%nat H) as [j [y [Hj [Hy _]]]].
      exists (S j), y. split; [exact Hj | split; [exact Hy | discriminate]].
    + destruct (IH i H) as [j [y [Hj [Hy Hne]]]].
      exists (S j), y. split; [exact Hj | split; [exact Hy | congruence]].
Qed.

(** A row is marked by [duplicated(keep=False)] when an equal row sits
    at another position. *)
Lemma duplicated_all_spec (rs : list (list cell)) (i : nat) :
  duplicated_all rs !! i = Some true <->
  exists r j r', rs !! i = Some r /\ rs !! j = Some r' /\ i <> j /\ same_row r r' = true.
Proof.
  unfold duplicated_all. rewrite list_lookup_fmap. split.
  - destruct (rs !! i) as [r|] eqn:Hr; [| discriminate].
    cbn [fmap option_fmap option_map]. intros Hc.
    assert (Hc' : (2 <= length (List.filter (same_row r) rs))%nat).
    { apply Nat.leb_le. injection Hc as Hc. exact Hc. }
    destruct (filter_other _ _ i Hc') as [j [r' [Hj [Hs Hne]]]].
    exists r, j, r'. split; [reflexivity | split; [exact Hj | split; [congruence | exact Hs]]].
  - intros [r [j [r' [Hi [Hj [Hne Hs]]]]]]. rewrite Hi.
    cbn [fmap option_fmap option_map]. f_equal. apply Nat.leb_le.
    destruct (decide (i < j)%nat).
    + apply (filter_length_two _ _ i j r r'); auto using same_row_refl.
    + apply (filter_length_two _ _ j i r' r); auto using same_row_refl. lia.
Qed.

(** A row is marked by [duplicated()] when an equal row comes before it. *)
Lemma duplicated_spec (seen rs : list (list cell)) (i : nat) :
  duplicated seen rs !! i = Some true <->
  exists r, rs !! i = Some r
            /\ (existsb (same_row r) seen = true
                \/ exists j r', (j < i)%nat /\ rs !! j = Some r' /\ same_row r r' = true).
Proof.
  revert seen i. induction rs as [|r0 t IH]; intros seen i.
  - simpl. split; [discriminate | intros [r [H _]]; discriminate].
  - destruct i as [|i]; simpl.
    + split.
      * intros [= H]. exists r0. split; [reflexivity | now left].
      * intros [r [[= <-] [H | [j [r' [Hj _]]]]]]; [now rewrite H | lia].
    + rewrite IH. split.
      * intros [r [Hr [Hex | [j [r' [Hj [Hl Hs]]]]]]]; exists r; (split; [exact Hr |]).
        -- simpl in Hex. apply orb_true_iff in Hex as [Hex | Hex]; [| now left].
           right. exists 0%nat, r0. split; [lia | split; [reflexivity | exact Hex]].
        -- right. exists (S j), r'. split; [lia | split; [exact Hl | exact Hs]].
      * intros [r [Hr [Hex | [j [r' [Hj [Hl Hs]]]]]]]; exists r; (split; [exact Hr |]).
        -- left. simpl. rewrite Hex. apply orb_true_r.
        -- destruct j as [|j]; simpl in Hl.
           ++ injection Hl as <-. left. simpl. now rewrite Hs.
           ++ right. exists j, r'. split; [lia | split; [exact Hl | exact Hs]].
Qed.

Lemma select_rows_filter {A : Type} (p : A -> bool) (l : list A) :
  select_rows (map p l) l = List.filter p l.
Proof.
  induction l as [|x l IH]; [reflexivity |].
  cbn [map List.filter]. rewrite select_rows_cons, IH. reflexivity.
Qed.

(** The marks of [duplicated()] on the rows numbered from 0: row [i] is
    marked when it equals one of the rows before it. *)
Lemma duplicated_tabulate (f : nat -> list cell) (n : nat) :
  duplicated [] (map f (seq 0 n))
  = map (fun i => existsb (fun j => same_row (f i) (f j)) (seq 0 i)) (seq 0 n).
Proof.
  apply list_eq. intros i. rewrite (list_lookup_fmap _ (seq 0 n)).
  destruct (decide (i < n)%nat) as [Hi | Hi].
  - rewrite lookup_seq_lt by exact Hi. cbn [fmap option_fmap option_map Nat.add].
    destruct (lookup_lt_is_Some_2 (duplicated [] (map f (seq 0 n))) i) as [b Hb].
    { now rewrite duplicated_length, length_map, length_seq. }
    rewrite Hb. f_equal. apply eq_true_iff_eq. split.
    + intros ->. apply duplicated_spec in Hb as [r [Hr [H | [j [r' [Hj [Hl Hs]]]]]]];
        [discriminate |].
      rewrite list_lookup_fmap, lookup_seq_lt in Hr by exact Hi. injection Hr as <-.
      rewrite list_lookup_fmap, lookup_seq_lt in Hl by lia. injection Hl as <-.
      apply existsb_exists. exists j. split; [apply List.in_seq; lia | exact Hs].
    + intros H. apply existsb_exists in H as [j [Hj Hs]]. apply List.in_seq in Hj.
      assert (Ht : duplicated [] (map f (seq 0 n)) !! i = Some true).
      { apply duplicated_spec. exists (f i). split.
        - now rewrite list_lookup_fmap, lookup_seq_lt.
        - right. exists j, (f j). split; [lia |]. split; [| exact Hs].
          rewrite list_lookup_fmap, lookup_seq_lt by lia. reflexivity. }
      congruence.
  - rewrite lookup_seq_ge by lia. cbn [fmap option_fmap option_map].
    apply lookup_ge_None. rewrite duplicated_length, length_map, length_seq. lia.
Qed.

Lemma count_true_mono (l1 l2 : list bool) :
  length l1 = length l2 -> (forall i, l1 !! i = Some true -> l2 !! i = Some true) ->
  (length (List.filter id l1) <= length (List.filter id l2))%nat.
Proof.
  revert l2. induction l1 as [|a l1 IH]; intros [|b l2] Hlen H; try discriminate.
  - simpl. lia.
  - assert (Hrec : (length (List.filter id l1) <= length (List.filter id l2))%nat).
    { apply IH; [simpl in Hlen; lia |]. intros i Hi. apply (H (S i) Hi). }
    simpl. destruct a; simpl.
    + specialize (H 0%nat eq_refl). injection H as ->. simpl. lia.
    + destruct b; simpl; lia.
Qed.

Lemma count_true_negb (l : list bool) :
  (length (List.filter id (map negb l)) + length (List.filter id l) = length l)%nat.
Proof. induction l as [|[|] l IH]; simpl; lia. Qed.

Lemma count_true_zero (l : list bool) :
  length (List.filter id l) = 0%nat <-> forall i, l !! i <> Some true.
Proof.
  induction l as [|[|] l IH]; simpl.
  - split; [intros _ i; discriminate | reflexivity].
  - split; [discriminate | intros H; now specialize (H 0%nat)].
  - rewrite IH. split.
    + intros H [|i]; [discriminate | apply H].
    + intros H i. apply (H (S i)).
Qed.

End DuplicateFacts.

Module DuplicateProperties.

Import Duplicates Forest DuplicateFacts.

(** X2.  [drop_duplicates] keeps the first occurrence of every row and
    nothing else: the rows kept are, in the order of the frame, the
    rows that equal none of the rows before them (nulls counting as
    equal); they differ pairwise, every row of the frame is equal to a
    row kept, the columns are those of the frame, and removing
    duplicates a second time changes nothing. *)
Theorem drop_duplicates_keeps_one_of_each_row (df : DataFrame) :
  well_formed df ->
  rows (drop_duplicates df)
  = map (row df)
      (List.filter
         (fun i => negb (existsb (fun j => same_row (row df i) (row df j)) (seq 0 i)))
         (seq 0 (nrows df)))
  /\ distinct_rows (rows (drop_duplicates df))
  /\ sublist (rows (drop_duplicates df)) (rows df)
  /\ (forall r, r ∈ rows df ->
        exists r', r' ∈ rows (drop_duplicates df) /\ same_row r r' = true)
  /\ map fst (drop_duplicates df) = map fst df
  /\ drop_duplicates (drop_duplicates df) = drop_duplicates df.
Proof.
  intros Hwf.
  assert (Hlen : length (map negb (duplicated [] (rows df))) = nrows df).
  { now rewrite length_map, duplicated_length, rows_length. }
  assert (Hrows : rows (drop_duplicates df)
                  = select_rows (map negb (duplicated [] (rows df))) (rows df)).
  { unfold drop_duplicates. now apply rows_select. }
  assert (Hdist : distinct_rows (rows (drop_duplicates df))).
  { rewrite Hrows. apply dedup_distinct. }
  split; [| split; [exact Hdist |]; split; [| split; [| split]]].
  - rewrite Hrows. unfold rows at 1 2. rewrite duplicated_tabulate, map_map.
    rewrite select_rows_map.
    rewrite (select_rows_filter
               (fun i => negb (existsb (fun j => same_row (row df i) (row df j)) (seq 0 i)))).
    reflexivity.
  - rewrite Hrows. apply select_rows_sublist.
  - intros r Hr. rewrite Hrows. destruct (dedup_covers [] (rows df) r Hr) as [H | H];
      [discriminate | exact H].
  - unfold drop_duplicates, select. rewrite map_map. reflexivity.
  - assert (Hwf' : well_formed (drop_duplicates df)).
    { unfold drop_duplicates. now apply select_well_formed. }
    unfold drop_duplicates at 1.
    rewrite (duplicated_none [] (rows (drop_duplicates df)) Hdist) by reflexivity.
    rewrite rows_length, fmap_replicate. now apply select_all.
Qed.

Lemma drop_duplicates_witness :
  let df := [("city", [CStr "Oslo"; CStr "Rome"; CStr "Oslo"; CNull; CNull]);
             ("n", [num 1; num 2; num 1; CNull; CNull])] in
  rows (drop_duplicates df)
  = map (row df)
      (List.filter
         (fun i => negb (existsb (fun j => same_row (row df i) (row df j)) (seq 0 i)))
         (seq 0 (nrows df)))
  /\ distinct_rows (rows (drop_duplicates df))
  /\ sublist (rows (drop_duplicates df)) (rows df)
  /\ (forall r, r ∈ rows df ->
        exists r', r' ∈ rows (drop_duplicates df) /\ same_row r r' = true)
  /\ map fst (drop_duplicates df) = map fst df
  /\ drop_duplicates (drop_duplicates df) = drop_duplicates df.
Proof.
  apply (drop_duplicates_keeps_one_of_each_row
           [("city", [CStr "Oslo"; CStr "Rome"; CStr "Oslo"; CNull; CNull]);
            ("n", [num 1; num 2; num 1; CNull; CNull])]).
  repeat constructor.
Defined.

(** X3.  The number of rows reported by the search for duplicates is
    never 1; it is 0 exactly when [drop_duplicates] removes no row, so
    the removal button is enabled exactly when a removal would change
    the frame; and it is at least the number of rows a removal takes
    away. *)
Theorem duplicate_count_never_one (df : DataFrame) :
  well_formed df ->
  duplicate_count df <> 1%nat
  /\ (duplicate_count df = 0%nat <-> nrows (drop_duplicates df) = nrows df)
  /\ (snd (fst (find_duplicates df)) = false <->
      (nrows (drop_duplicates df) < nrows df)%nat)
  /\ (nrows df - nrows (drop_duplicates df) <= duplicate_count df)%nat.
Proof.
  intros Hwf. set (rs := rows df).
  set (cA := length (List.filter id (duplicated_all rs))).
  set (cF := length (List.filter id (duplicated [] rs))).
  assert (HA : duplicate_count df = cA).
  { unfold duplicate_count. apply nrows_select; [exact Hwf |].
    now rewrite duplicated_all_length, rows_length. }
  assert (HF : (nrows (drop_duplicates df) + cF = nrows df)%nat).
  { unfold drop_duplicates. rewrite nrows_select; [| exact Hwf |].
    - rewrite <- (rows_length df), <- (duplicated_length [] (rows df)).
      apply count_true_negb.
    - now rewrite length_map, duplicated_length, rows_length. }
  assert (Hle : (cF <= cA)%nat).
  { apply count_true_mono; [now rewrite duplicated_length, duplicated_all_length |].
    intros i Hi. apply duplicated_spec in Hi as [r [Hr [H | [j [r' [Hj [Hl Hs]]]]]]];
      [discriminate |].
    apply duplicated_all_spec. exists r, j, r'. repeat split; auto. lia. }
  assert (Htwo : (1 <= cA)%nat -> (2 <= cA)%nat /\ (1 <= cF)%nat).
  { intros H. destruct (filter_witness id _ H) as [i [b [Hi Hb]]]. simpl in Hb. subst b.
    apply duplicated_all_spec in Hi as [r [j [r' [Hr [Hr' [Hne Hs]]]]]].
    assert (Hj : duplicated_all rs !! j = Some true).
    { apply duplicated_all_spec. exists r', i, r.
      repeat split; auto. now rewrite same_row_sym. }
    assert (Hi : duplicated_all rs !! i = Some true).
    { apply duplicated_all_spec. exists r, j, r'. repeat split; auto. }
    split.
    - destruct (decide (i < j)%nat).
      + now apply (filter_length_two id _ i j true true).
      + apply (filter_length_two id _ j i true true); auto. lia.
    - destruct (decide (i < j)%nat).
      + apply (filter_length_pos id _ true); [| reflexivity].
        apply list_elem_of_lookup. exists j. apply duplicated_spec.
        exists r'. split; [exact Hr' |]. right. exists i, r.
        repeat split; auto. now rewrite same_row_sym.
      + apply (filter_length_pos id _ true); [| reflexivity].
        apply list_elem_of_lookup. exists i. apply duplicated_spec.
        exists r. split; [exact Hr |]. right. exists j, r'. repeat split; auto. lia. }
  assert (Hflag : snd (fst (find_duplicates df)) = negb (0 <? duplicate_count df)%nat).
  { unfold find_duplicates. now destruct (0 <? duplicate_count df)%nat. }
  rewrite Hflag, HA. split; [| split; [| split]].
  - intros H. assert (2 <= cA)%nat by (apply Htwo; lia). lia.
  - split; [intros H; lia |]. intros H.
    destruct (decide (cA = 0%nat)) as [| Hne]; [assumption |].
    assert (1 <= cF)%nat by (apply Htwo; lia). lia.
  - rewrite negb_false_iff, Nat.ltb_lt. split.
    + intros H. assert (1 <= cF)%nat by (apply Htwo; lia). lia.
    + intros H. lia.
  - lia.
Qed.

Lemma duplicate_count_witness :
  let df := [("city", [CStr "Oslo"; CStr "Rome"; CStr "Oslo"; CStr "Oslo"])] in
  duplicate_count df <> 1%nat
  /\ (duplicate_count df = 0%nat <-> nrows (drop_duplicates df) = nrows df)
  /\ (snd (fst (find_duplicates df)) = false <->
      (nrows (drop_duplicates df) < nrows df)%nat)
  /\ (nrows df - nrows (drop_duplicates df) <= duplicate_count df)%nat.
Proof.
  apply (duplicate_count_never_one
           [("city", [CStr "Oslo"; CStr "Rome"; CStr "Oslo"; CStr "Oslo"])]).
  repeat constructor.
Defined.

End DuplicateProperties.

Module DetectionProperties.

Import Outliers Treatment PyFacts FrameFacts OutlierFacts ForestFacts DetectionFacts.



(** X5.  The report of a detection is consistent: a row is among the
    outlier indices exactly when the rule flags it in one of the
    selected columns, every index is a row of the frame, and the
    dictionary has an entry only for a selected numeric column with at
    least two values in which the rule flags a row, the entry holding
    those rows. *)
Theorem outlier_report_is_consistent
    (series_mean series_std : list real -> float) (df : DataFrame) (cols : list string)
    (m : outlier_method)
    (thr : option Q) (rep : report) :
  well_formed df ->
  detect_outliers series_mean series_std df cols m thr = Ret rep ->
  (forall i, i ∈ outlier_indices rep <->
             exists c, c ∈ cols /\ i ∈ rows_of series_mean series_std df m thr c)
  /\ (forall i, i ∈ outlier_indices rep -> (i < nrows df)%nat)
  /\ (forall c rows,
        Dict.get (outliers_dict rep) c = Some rows ->
        c ∈ cols /\ rows <> [] /\ rows = rows_of series_mean series_std df m thr c
        /\ exists series, getitem df c = Ret series /\ is_numeric_dtype series = true
                          /\ (2 <= length (numbers series))%nat).
Proof.
  intros Hwf Hrep. pose proof (detect_outliers_indices _ _ _ _ _ _ _ Hwf Hrep) as Hind.
  split; [intros i; apply Hind | split; [intros i; apply Hind |]].
  unfold detect_outliers in Hrep.
  pose proof (detect_loop_consistent series_mean series_std df m thr cols _ _ Hrep
                (consistent_empty series_mean series_std df m thr)) as [Hd _].
  intros c rows Hget. destruct (Hd c rows Hget) as [Hne Hrows].
  split; [| split; [exact Hne | split; [exact Hrows |]]].
  - destruct (detect_loop_keys series_mean series_std df m thr cols _ _ c Hrep) as [H | [x H]];
      [now rewrite Hget | exact H | discriminate].
  - destruct rows as [|i t]; [congruence |].
    assert (Hin : i ∈ rows_of series_mean series_std df m thr c) by (rewrite <- Hrows; now left).
    apply rows_of_found in Hin as [series [Hs [Hn [Hl _]]]]. now exists series.
Qed.

Lemma outlier_report_witness :
  let df := [("a", [num 1; num 2; num 3; num 4; num 100]); ("b", [CStr "x"; CStr "y"; CStr "x";
                                                                 CStr "y"; CStr "x"])] in
  let rep := {| outliers_dict := [("a", [4%nat])]; outlier_indices := {[4%nat]};
                std_divisions := 0 |} in
  (forall i, i ∈ outlier_indices rep <->
             exists c, c ∈ ["a"; "b"] /\ i ∈ rows_of mean (std Qsqrt_approx) df iqr None c)
  /\ (forall i, i ∈ outlier_indices rep -> (i < nrows df)%nat)
  /\ (forall c rows,
        Dict.get (outliers_dict rep) c = Some rows ->
        c ∈ ["a"; "b"] /\ rows <> [] /\ rows = rows_of mean (std Qsqrt_approx) df iqr None c
        /\ exists series, getitem df c = Ret series /\ is_numeric_dtype series = true
                          /\ (2 <= length (numbers series))%nat).
Proof.
  apply (outlier_report_is_consistent mean (std Qsqrt_approx)
           [("a", [num 1; num 2; num 3; num 4; num 100]);
            ("b", [CStr "x"; CStr "y"; CStr "x"; CStr "y"; CStr "x"])]
           ["a"; "b"] iqr None
           {| outliers_dict := [("a", [4%nat])]; outlier_indices := {[4%nat]};
              std_divisions := 0 |}).
  - repeat constructor.
  - reflexivity.
Defined.

End DetectionProperties.

(** ** Outlier treatment *)

Module TreatmentFacts.

Import Outliers Treatment Duplicates Forest.

Import PyFacts FrameFacts OutlierFacts ImputationFacts ForestFacts DetectionFacts DuplicateFacts.

Lemma existsb_eqb_elem (i : nat) (labels : list nat) :
  existsb (Nat.eqb i) labels = true <-> i ∈ labels.
Proof.
  rewrite existsb_exists. split.
  - intros [j [Hj Hij]]. apply Nat.eqb_eq in Hij. subst j. now apply list_elem_of_In.
  - intros H. exists i. split; [now apply list_elem_of_In | apply Nat.eqb_refl].
Qed.

(** Among the labels [0 .. n-1] there are as many listed labels as the
    list is long, when it lists rows and lists none twice. *)
Lemma count_labels (labels : list nat) (n : nat) :
  NoDup labels -> (forall i, i ∈ labels -> (i < n)%nat) ->
  length (List.filter (fun i => existsb (Nat.eqb i) labels) (seq 0 n)) = length labels.
Proof.
  intros Hnd Hlt. apply Permutation_length, NoDup_Permutation.
  - apply NoDup_ListNoDup, List.NoDup_filter, NoDup_ListNoDup, NoDup_seq.
  - exact Hnd.
  - intros i. split.
    + intros H. apply list_elem_of_In, List.filter_In in H as [_ H].
      now apply existsb_eqb_elem.
    + intros H. apply list_elem_of_In, List.filter_In. split.
      * apply List.in_seq. specialize (Hlt i H). lia.
      * now apply existsb_eqb_elem.
Qed.

Lemma filter_split_length {A : Type} (p : A -> bool) (l : list A) :
  (length (List.filter p l) + length (List.filter (fun x => negb (p x)) l) = length l)%nat.
Proof. induction l as [|x l IH]; [reflexivity |]. simpl. destruct (p x); simpl; lia. Qed.

(** [df.drop(index=labels)] on labels that are rows of the frame. *)
Lemma drop_index_rows (df : DataFrame) (labels : list nat) :
  well_formed df -> NoDup labels -> (forall i, i ∈ labels -> (i < nrows df)%nat) ->
  exists df',
    drop_index df labels = Ret df'
    /\ rows df' = map (row df) (List.filter (fun i => negb (existsb (Nat.eqb i) labels))
                                  (seq 0 (nrows df)))
    /\ (nrows df' + length labels = nrows df)%nat
    /\ map fst df' = map fst df.
Proof.
  intros Hwf Hnd Hlt. unfold drop_index.
  assert (Hmiss : List.filter (fun i => negb (i <? nrows df)%nat) labels = []).
  { destruct (List.filter _ labels) as [|i t] eqn:Ef; [reflexivity |].
    assert (Hi : In i (List.filter (fun i => negb (i <? nrows df)%nat) labels))
      by (rewrite Ef; now left).
    apply List.filter_In in Hi as [Hin Hi]. apply list_elem_of_In, Hlt in Hin.
    apply negb_true_iff, Nat.ltb_ge in Hi. lia. }
  rewrite Hmiss. eexists. split; [reflexivity |].
  set (p := fun i => negb (existsb (Nat.eqb i) labels)).
  assert (Hlen : length (map p (seq 0 (nrows df))) = nrows df)
    by now rewrite length_map, length_seq.
  split; [| split].
  - rewrite (rows_select _ _ Hwf Hlen). unfold rows.
    now rewrite select_rows_map, select_rows_filter.
  - rewrite (nrows_select _ _ Hwf Hlen).
    rewrite <- (select_rows_length (map p (seq 0 (nrows df))) (seq 0 (nrows df)))
      by now rewrite length_map.
    rewrite select_rows_filter.
    pose proof (count_labels labels (nrows df) Hnd Hlt) as Hc.
    pose proof (filter_split_length (fun i => existsb (Nat.eqb i) labels)
                  (seq 0 (nrows df))) as Hs.
    rewrite length_seq in Hs. subst p. lia.
  - unfold select. rewrite map_map. reflexivity.
Qed.

Lemma columns_setitem (df : DataFrame) (col : string) (series new : list cell) :
  getitem df col = Ret series -> map fst (setitem df col new) = map fst df.
Proof.
  induction df as [|[name vals] rest IH]; [discriminate |].
  simpl. destruct (String.eqb name col); [reflexivity |].
  intros H. simpl. now rewrite IH.
Qed.

Lemma dict_get_notin {V : Type} (items : list (string * V)) (c : string) :
  c ∉ map fst items -> Dict.get items c = None.
Proof.
  induction items as [|[k v] rest IH]; [reflexivity |].
  simpl. intros H. apply not_elem_of_cons in H as [Hne Hrest].
  destruct (String.eqb k c) eqn:E; [apply String.eqb_eq in E; congruence | now apply IH].
Qed.

Section Replacing.

Variable reduce_object : handling -> list cell -> py float.

Variable loc_error : list nat -> string.

Lemma replacement_of_ext (h : handling) (df1 df2 : DataFrame) (c : string) :
  getitem df1 c = getitem df2 c ->
  replacement_of reduce_object h df1 c = replacement_of reduce_object h df2 c.
Proof. intros H. unfold replacement_of. now rewrite H. Qed.

(** The loop changes each listed column at its listed rows, to the
    replacement computed on the column as it was, and nothing else. *)
Lemma replace_loop_spec (h : handling) (items : list (string * list nat))
    (df df' : DataFrame) :
  NoDup (map fst items) ->
  replace_loop reduce_object loc_error df items h = Ret df' ->
  map fst df' = map fst df
  /\ forall c,
       match Dict.get items c with
       | None => getitem df' c = getitem df c
       | Some indices =>
           exists series replacement,
             getitem df c = Ret series
             /\ replacement_of reduce_object h df c = Ret replacement
             /\ getitem df' c
                = Ret (imap (fun i x => if existsb (Nat.eqb i) indices
                                        then of_float replacement else x) series)
       end.
Proof.
  revert df. induction items as [|[col indices] rest IH]; intros df Hnd Hrun.
  - simpl in Hrun. injection Hrun as <-. split; [reflexivity | intros c; reflexivity].
  - cbn [replace_loop] in Hrun. unfold mbind, py_bind in Hrun.
    destruct (replacement_of reduce_object h df col) as [replacement|e] eqn:Er;
      [| discriminate].
    cbn [Py.bind] in Hrun.
    destruct (getitem df col) as [series|e] eqn:Es; [| discriminate].
    cbn [Py.bind] in Hrun. unfold loc_assign in Hrun.
    destruct (List.filter (fun i => negb (i <? length series)%nat) indices); [| discriminate].
    unfold mret, py_ret in Hrun. cbn [Py.bind] in Hrun.
    cbn [map fst] in Hnd. apply NoDup_cons in Hnd as [Hnotin Hnd].
    destruct (IH _ Hnd Hrun) as [Hcols Hspec]. split.
    + rewrite Hcols. now apply (columns_setitem df col series).
    + intros c. specialize (Hspec c). cbn [Dict.get].
      destruct (String.eqb col c) eqn:Ec.
      * apply String.eqb_eq in Ec. subst c.
        rewrite (dict_get_notin rest col Hnotin) in Hspec.
        exists series, replacement. split; [exact Es | split; [exact Er |]].
        rewrite Hspec. apply getitem_setitem_eq.
      * apply String.eqb_neq in Ec.
        assert (Hsame : getitem (setitem df col
                          (imap (fun i x => if existsb (Nat.eqb i) indices
                                            then of_float replacement else x) series)) c
                        = getitem df c) by now apply getitem_setitem_ne.
        destruct (Dict.get rest c) as [idx|].
        -- destruct Hspec as [s [r [Hs [Hr Hg]]]]. exists s, r.
           split; [now rewrite <- Hsame | split; [| exact Hg]].
           now rewrite <- (replacement_of_ext h _ df c Hsame).
        -- now rewrite Hspec.
Qed.

End Replacing.

End TreatmentFacts.

Module TreatmentProperties.

Import Outliers Treatment Duplicates Forest.

Import PyFacts FrameFacts OutlierFacts ForestFacts DetectionFacts DuplicateFacts TreatmentFacts.

(** X6.  Removing outliers right after a detection drops exactly the
    rows the rule flags in a selected column: the records left are, in
    their order, those the rule flags in no selected column; their
    number is the number of rows less the number of outlier indices;
    the columns are those of the frame.  The order in which the store
    lists the indices does not matter. *)
Theorem outlier_removal_drops_flagged_rows
    (reduce_object : handling -> list cell -> py float) (loc_error : list nat -> string)
    (series_mean series_std : list real -> float) (df : DataFrame) (cols : list string)
    (m : outlier_method)
    (thr : option Q) (rep : report) (indices : list nat) :
  well_formed df ->
  detect_outliers series_mean series_std df cols m thr = Ret rep ->
  indices ≡ₚ elements (outlier_indices rep) ->
  exists df',
    handle_outliers reduce_object loc_error df (outliers_dict rep) indices remove_handling
    = Ret df'
    /\ rows df'
       = map (row df)
           (List.filter
              (fun i =>
                 negb (existsb
                         (fun c => bool_decide (i ∈ rows_of series_mean series_std df m thr c))
                         cols))
              (seq 0 (nrows df)))
    /\ (nrows df' + length indices = nrows df)%nat
    /\ map fst df' = map fst df.
Proof.
  intros Hwf Hrep Hperm.
  pose proof (detect_outliers_indices _ _ _ _ _ _ _ Hwf Hrep) as Hind.
  assert (Hin : forall i, i ∈ indices <-> i ∈ outlier_indices rep).
  { intros i. now rewrite Hperm, elem_of_elements. }
  destruct (drop_index_rows df indices Hwf) as [df' [Hrun [Hrows [Hcount Hcols]]]].
  - rewrite Hperm. apply NoDup_elements.
  - intros i Hi. now apply Hind, Hin.
  - exists df'. split; [exact Hrun | split; [| split; [exact Hcount | exact Hcols]]].
    rewrite Hrows. f_equal. apply List.filter_ext. intros i. f_equal.
    apply eq_true_iff_eq. rewrite existsb_eqb_elem, Hin, (proj1 (Hind i)), existsb_exists.
    split.
    + intros [c [Hc Hi]]. exists c. split; [now apply list_elem_of_In |].
      now apply bool_decide_eq_true.
    + intros [c [Hc Hi]]. exists c. split; [now apply list_elem_of_In |].
      now apply bool_decide_eq_true in Hi.
Qed.

Lemma outlier_removal_witness :
  let df := [("a", [num 1; num 2; num 3; num 4; num 100]);
             ("b", [CStr "p"; CStr "q"; CStr "r"; CStr "s"; CStr "t"])] in
  exists df',
    handle_outliers no_reduce simple_loc_error df [("a", [4%nat])] [4%nat] remove_handling
    = Ret df'
    /\ rows df'
       = map (row df)
           (List.filter
              (fun i =>
                 negb (existsb
                         (fun c => bool_decide
                                     (i ∈ rows_of mean (std Qsqrt_approx) df iqr None c))
                         ["a"; "b"]))
              (seq 0 (nrows df)))
    /\ (nrows df' + length [4%nat] = nrows df)%nat
    /\ map fst df' = map fst df.
Proof.
  apply (outlier_removal_drops_flagged_rows no_reduce simple_loc_error mean (std Qsqrt_approx)
           [("a", [num 1; num 2; num 3; num 4; num 100]);
            ("b", [CStr "p"; CStr "q"; CStr "r"; CStr "s"; CStr "t"])]
           ["a"; "b"] iqr None
           {| outliers_dict := [("a", [4%nat])]; outlier_indices := {[4%nat]};
              std_divisions := 0 |} [4%nat]).
  - repeat constructor.
  - reflexivity.
  - now vm_compute.
Defined.

(** X7.  Replacing outliers by the median or the mean changes, in every
    column listed in the store, the cells at the listed rows and no
    other cell, and leaves every other column as it was.  The
    replacement of a column is computed once, on the whole column as it
    was before the treatment, flagged values included: for a numeric
    column it is the median, or the mean, of its non-null values. *)
Theorem outlier_replacement_touches_only_flagged_cells
    (reduce_object : handling -> list cell -> py float) (loc_error : list nat -> string)
    (df df' : DataFrame) (outliers_dict : list (string * list nat))
    (outlier_indices : list nat) (outlier_handling : handling) :
  outlier_handling <> remove_handling ->
  NoDup (map fst outliers_dict) ->
  handle_outliers reduce_object loc_error df outliers_dict outlier_indices outlier_handling
  = Ret df' ->
  map fst df' = map fst df
  /\ (forall c, Dict.get outliers_dict c = None -> getitem df' c = getitem df c)
  /\ (forall c indices,
        Dict.get outliers_dict c = Some indices ->
        exists series new replacement,
          getitem df c = Ret series /\ getitem df' c = Ret new
          /\ replacement_of reduce_object outlier_handling df c = Ret replacement
          /\ (is_numeric_dtype series = true ->
              replacement = match outlier_handling with
                            | median_handling => median (numbers series)
                            | _ => mean (numbers series)
                            end)
          /\ length new = length series
          /\ forall i x, series !! i = Some x ->
                         new !! i = Some (if bool_decide (i ∈ indices)
                                          then of_float replacement else x)).
Proof.
  intros Hh Hnd Hrun.
  assert (Hloop : replace_loop reduce_object loc_error df outliers_dict outlier_handling
                  = Ret df').
  { destruct outlier_handling; [congruence | exact Hrun | exact Hrun | exact Hrun]. }
  destruct (replace_loop_spec _ _ _ _ _ _ Hnd Hloop) as [Hcols Hspec].
  split; [exact Hcols | split].
  - intros c Hc. specialize (Hspec c). now rewrite Hc in Hspec.
  - intros c indices Hc. specialize (Hspec c). rewrite Hc in Hspec.
    destruct Hspec as [series [replacement [Hs [Hr Hg]]]].
    exists series. eexists. exists replacement.
    split; [exact Hs | split; [exact Hg | split; [exact Hr | split; [| split]]]].
    + intros Hnum. unfold replacement_of in Hr. rewrite Hs in Hr.
      unfold mbind, py_bind in Hr. cbn [Py.bind] in Hr. rewrite Hnum in Hr.
      destruct outlier_handling; try congruence; now injection Hr.
    + apply length_imap.
    + intros i x Hx. rewrite list_lookup_imap, Hx. cbn [fmap option_fmap option_map].
      f_equal. destruct (existsb (Nat.eqb i) indices) eqn:E.
      * apply existsb_eqb_elem in E. now rewrite bool_decide_eq_true_2.
      * rewrite bool_decide_eq_false_2; [reflexivity |].
        intros Hin. apply existsb_eqb_elem in Hin. congruence.
Qed.

Lemma outlier_replacement_witness :
  let df := [("a", [num 1; num 2; num 3; num 4; num 100]);
             ("b", [CStr "p"; CStr "q"; CStr "r"; CStr "s"; CStr "t"])] in
  let df' := [("a", [num 1; num 2; num 3; num 4; num 3]);
              ("b", [CStr "p"; CStr "q"; CStr "r"; CStr "s"; CStr "t"])] in
  map fst df' = map fst df
  /\ (forall c, Dict.get [("a", [4%nat])] c = None -> getitem df' c = getitem df c)
  /\ (forall c indices,
        Dict.get [("a", [4%nat])] c = Some indices ->
        exists series new replacement,
          getitem df c = Ret series /\ getitem df' c = Ret new
          /\ replacement_of no_reduce median_handling df c = Ret replacement
          /\ (is_numeric_dtype series = true -> replacement = median (numbers series))
          /\ length new = length series
          /\ forall i x, series !! i = Some x ->
                         new !! i = Some (if bool_decide (i ∈ indices)
                                          then of_float replacement else x)).
Proof.
  apply (outlier_replacement_touches_only_flagged_cells no_reduce simple_loc_error
           [("a", [num 1; num 2; num 3; num 4; num 100]);
            ("b", [CStr "p"; CStr "q"; CStr "r"; CStr "s"; CStr "t"])]
           [("a", [num 1; num 2; num 3; num 4; num 3]);
            ("b", [CStr "p"; CStr "q"; CStr "r"; CStr "s"; CStr "t"])]
           [("a", [4%nat])] [4%nat] median_handling).
  - discriminate.
  - repeat constructor. inversion 1.
  - reflexivity.
Defined.

End TreatmentProperties.

(** ** Imputation *)

Module ImputationMoreFacts.

Import Imputation PyFacts FrameFacts StatsFacts ZScoreFacts ImputationFacts EncodingFacts.

Import TreatmentFacts.

Lemma sum_finite (xs : list real) (acc : Q) :
  Forall (fun x => is_finite x = true) xs ->
  exists q, foldl add (fin acc) (map Some xs) = Some (Fin q).
Proof.
  revert acc. induction xs as [|x xs IH]; intros acc H; [now exists acc |].
  apply Forall_cons in H as [Hx Hxs]. destruct x as [| |a]; try discriminate.
  simpl. apply IH, Hxs.
Qed.

Lemma mean_finite (xs : list real) :
  Forall (fun x => is_finite x = true) xs -> xs <> [] -> exists q, mean xs = Some (Fin q).
Proof.
  intros H Hne. unfold mean, Stats.sum, fsum.
  destruct (sum_finite xs 0 H) as [q ->]. unfold of_nat, fin, div, lift2, div_real.
  rewrite inject_nat_nonzero; [eauto |]. destruct xs; [congruence | simpl; lia].
Qed.

Lemma lookup_finite (s : list real) (i : nat) :
  Forall (fun x => is_finite x = true) s -> (i < length s)%nat ->
  exists q, s !! i = Some (Fin q).
Proof.
  intros H Hi. destruct (lookup_lt_is_Some_2 s i Hi) as [x Hx]. rewrite Hx.
  rewrite Forall_forall in H. assert (Hf : is_finite x = true).
  { apply H. eapply list_elem_of_lookup_2; eauto. }
  destruct x; try discriminate. eauto.
Qed.

Lemma median_finite (xs : list real) :
  Forall (fun x => is_finite x = true) xs -> xs <> [] -> exists q, median xs = Some (Fin q).
Proof.
  intros H Hne. unfold median.
  assert (Hs : Forall (fun x => is_finite x = true) (Stats.sort xs))
    by now apply sort_by_Forall.
  assert (Hl : length (Stats.sort xs) = length xs) by apply sort_by_length.
  destruct (length (Stats.sort xs)) as [|n] eqn:En.
  - destruct xs; [congruence | simpl in Hl; lia].
  - destruct (Nat.odd (S n)).
    + apply lookup_finite; [exact Hs |]. rewrite En. apply Nat.div_lt; lia.
    + destruct (lookup_finite _ (S n / 2 - 1) Hs) as [a ->].
      { rewrite En. pose proof (Nat.div_lt (S n) 2). lia. }
      destruct (lookup_finite _ (S n / 2) Hs) as [b ->].
      { rewrite En. apply Nat.div_lt; lia. }
      simpl. eauto.
Qed.

Lemma numeric_has_number (col : list cell) :
  is_numeric_dtype col = true -> numbers col <> [].
Proof.
  unfold is_numeric_dtype. intros H. apply andb_true_iff in H as [_ H].
  apply existsb_exists in H as [c [Hin Hc]]. destruct c as [|x|s]; try discriminate.
  intros E. apply list_elem_of_In, OutlierFacts.numbers_elem in Hin.
  rewrite E in Hin. inversion Hin.
Qed.

Lemma has_missing_map_of_float (fs : list float) :
  Forall is_Some fs -> has_missing (map of_float fs) = false.
Proof.
  unfold has_missing. induction 1 as [|f fs [x ->] _ IH]; [reflexivity |].
  simpl. exact IH.
Qed.

(** The values the knn branch writes hold no null. *)
Lemma knn_no_missing (col : list cell) (vals : list float) :
  is_numeric_dtype col = true -> knn_fit_transform col = Ret vals ->
  has_missing (map (fun v => of_float (round v 3)) vals) = false.
Proof.
  intros Hnum. unfold knn_fit_transform.
  destruct (forallb is_finite (numbers col)) eqn:Ef; [| discriminate].
  intros [= <-]. rewrite <- (map_map (fun v => round v 3) of_float).
  apply has_missing_map_of_float. rewrite !Forall_fmap. apply Forall_forall. intros c _.
  unfold compose.
  destruct (mean_finite (numbers col)) as [q Hq].
  - apply Forall_forall. intros x Hx. rewrite forallb_forall in Ef.
    now apply Ef, list_elem_of_In.
  - now apply numeric_has_number.
  - rewrite Hq. destruct (to_float c); simpl; eauto.
Qed.

Lemma mode_notna (col : list cell) (v : cell) : v ∈ mode col -> isna v = false.
Proof.
  unfold mode. set (vals := dropna col). set (u := unique vals).
  set (modes := List.filter _ u). intros Hv.
  assert (Hm : v ∈ modes).
  { destruct (homogeneous modes); [| exact Hv]. now apply elem_sort_by in Hv. }
  apply list_elem_of_In, List.filter_In in Hm as [Hu _]. apply list_elem_of_In in Hu.
  apply unique_elem in Hu. pose proof (dropna_notna col) as Hd.
  rewrite Forall_forall in Hd. now apply Hd.
Qed.

(** What a column looks like once it was imputed: it is as before, or
    it has no null left. *)
Lemma impute_column_result (col vals : list cell) (m : method) :
  impute_column col m = Ret (Some vals) -> vals = col \/ has_missing vals = false.
Proof.
  unfold impute_column. destruct (has_missing col) eqn:Em; [| discriminate].
  assert (Hfill : forall v, fillna col v = col \/ has_missing (fillna col v) = false).
  { intros v. destruct (isna v) eqn:Ev.
    - left. destruct v; try discriminate. apply fillna_null.
    - right. now apply fillna_value_no_missing. }
  destruct (is_numeric_dtype col) eqn:En, m; try discriminate;
    try (intros [= <-]; apply Hfill).
  unfold mbind, py_bind. destruct (knn_fit_transform col) as [fs|e] eqn:Ek; [| discriminate].
  intros [= <-]. right. now apply (knn_no_missing col).
Qed.

Lemma impute_column_settled (col vals : list cell) (m : method) :
  impute_column col m = Ret (Some vals) ->
  impute_column vals m = Ret None \/ impute_column vals m = Ret (Some vals).
Proof.
  intros H. destruct (impute_column_result col vals m H) as [-> | Hno]; [now right |].
  left. unfold impute_column. now rewrite Hno.
Qed.

Section Loop.

Variable m : method.

Lemma impute_loop_settled (df : DataFrame) (cols : list string) (acc df' : DataFrame) :
  impute_loop df acc cols m = Ret df' ->
  (forall name,
     getitem acc name = getitem df name
     \/ exists vals vals', getitem df name = Ret vals
                           /\ impute_column vals m = Ret (Some vals')
                           /\ getitem acc name = Ret vals') ->
  forall col, col ∈ cols ->
    exists vals, getitem df' col = Ret vals
                 /\ (impute_column vals m = Ret None \/ impute_column vals m = Ret (Some vals)).
Proof.
  revert acc. induction cols as [|col rest IH]; intros acc Hrun Hinv c Hc; [inversion Hc |].
  simpl in Hrun. unfold mbind, py_bind in Hrun. simpl in Hrun.
  destruct (getitem df col) as [series|e] eqn:Es; simpl in Hrun; [| discriminate].
  destruct (impute_column series m) as [new|e] eqn:En; simpl in Hrun; [| discriminate].
  set (acc' := match new with Some vals => setitem acc col vals | None => acc end) in *.
  assert (Hinv' : forall name,
             getitem acc' name = getitem df name
             \/ exists vals vals', getitem df name = Ret vals
                                   /\ impute_column vals m = Ret (Some vals')
                                   /\ getitem acc' name = Ret vals').
  { intros name. unfold acc'. destruct new as [vals|]; [| apply Hinv].
    destruct (decide (col = name)) as [<- | Hne].
    - right. exists series, vals. now rewrite getitem_setitem_eq.
    - rewrite getitem_setitem_ne by exact Hne. apply Hinv. }
  destruct (decide (c ∈ rest)) as [Hr | Hr]; [exact (IH _ Hrun Hinv' c Hr) |].
  apply elem_of_cons in Hc as [-> | Hc]; [| contradiction].
  destruct (impute_loop_getitem _ _ _ _ _ Hrun col) as [Hsame | [v0 [v1 [H0 [Himp H1]]]]].
  - rewrite Hsame. unfold acc'. destruct new as [vals|].
    + rewrite getitem_setitem_eq. eexists. split; [reflexivity |].
      eapply impute_column_settled; eauto.
    + destruct (Hinv col) as [Hacc | [v0 [v1 [H0 [Himp H1]]]]].
      * rewrite Hacc, Es. eexists. split; [reflexivity |]. now left.
      * congruence.
  - exists v1. split; [exact H1 |]. eapply impute_column_settled; eauto.
Qed.

Lemma impute_loop_fixed (d : DataFrame) (cols : list string) :
  (forall col, col ∈ cols ->
     exists vals, getitem d col = Ret vals
                  /\ (impute_column vals m = Ret None
                      \/ impute_column vals m = Ret (Some vals))) ->
  impute_loop d d cols m = Ret d.
Proof.
  induction cols as [|col rest IH]; intros H; [reflexivity |].
  destruct (H col) as [vals [Hv Hs]]; [left |].
  simpl. unfold mbind, py_bind. rewrite Hv. simpl.
  destruct Hs as [-> | ->]; simpl.
  - apply IH. intros c Hc. apply H. now right.
  - rewrite (setitem_getitem_id _ _ _ Hv). apply IH. intros c Hc. apply H. now right.
Qed.

(** The columns of the result, and what a column that was not selected
    looks like. *)
Lemma impute_loop_columns (df : DataFrame) (cols : list string) (acc df' : DataFrame) :
  impute_loop df acc cols m = Ret df' ->
  (forall c, c ∈ cols -> exists old, getitem acc c = Ret old) ->
  map fst df' = map fst acc /\ forall c, c ∉ cols -> getitem df' c = getitem acc c.
Proof.
  revert acc. induction cols as [|col rest IH]; intros acc Hrun Hex.
  - simpl in Hrun. injection Hrun as <-. split; [reflexivity | intros c _; reflexivity].
  - simpl in Hrun. unfold mbind, py_bind in Hrun. simpl in Hrun.
    destruct (getitem df col) as [series|e] eqn:Es; simpl in Hrun; [| discriminate].
    destruct (impute_column series m) as [new|e] eqn:En; simpl in Hrun; [| discriminate].
    destruct new as [vals|].
    + destruct (Hex col) as [old Hget]; [now left |].
      destruct (IH _ Hrun) as [Hcols Hother].
      * intros c Hc. destruct (decide (col = c)) as [<- | Hne].
        -- rewrite getitem_setitem_eq. eauto.
        -- rewrite getitem_setitem_ne by exact Hne. apply Hex. now right.
      * split.
        -- rewrite Hcols. exact (columns_setitem acc col old vals Hget).
        -- intros c Hc. apply not_elem_of_cons in Hc as [Hne Hc].
           rewrite (Hother c Hc). apply getitem_setitem_ne. congruence.
    + destruct (IH _ Hrun) as [Hcols Hother].
      * intros c Hc. apply Hex. now right.
      * split; [exact Hcols |]. intros c Hc. apply not_elem_of_cons in Hc as [_ Hc].
        now apply Hother.
Qed.

Lemma impute_loop_other (df : DataFrame) (cols : list string) (acc df' : DataFrame)
    (c : string) :
  impute_loop df acc cols m = Ret df' -> c ∉ cols -> getitem df' c = getitem acc c.
Proof.
  revert acc. induction cols as [|col rest IH]; intros acc Hrun Hc.
  - simpl in Hrun. now injection Hrun as <-.
  - simpl in Hrun. unfold mbind, py_bind in Hrun. simpl in Hrun.
    destruct (getitem df col) as [series|e] eqn:Es; simpl in Hrun; [| discriminate].
    destruct (impute_column series m) as [new|e] eqn:En; simpl in Hrun; [| discriminate].
    apply not_elem_of_cons in Hc as [Hne Hc]. rewrite (IH _ Hrun Hc).
    destruct new; [apply getitem_setitem_ne; congruence | reflexivity].
Qed.

(** A selected column is read from the frame and imputed; the result
    holds its new content, or the content of the accumulator when
    nothing is assigned. *)
Lemma impute_loop_selected (df : DataFrame) (cols : list string) (acc df' : DataFrame)
    (c : string) :
  impute_loop df acc cols m = Ret df' -> c ∈ cols ->
  exists series new,
    getitem df c = Ret series /\ impute_column series m = Ret new
    /\ match new with
       | Some vals => getitem df' c = Ret vals
       | None => getitem df' c = getitem acc c
       end.
Proof.
  revert acc. induction cols as [|col rest IH]; intros acc Hrun Hc; [inversion Hc |].
  simpl in Hrun. unfold mbind, py_bind in Hrun. simpl in Hrun.
  destruct (getitem df col) as [series|e] eqn:Es; simpl in Hrun; [| discriminate].
  destruct (impute_column series m) as [new|e] eqn:En; simpl in Hrun; [| discriminate].
  destruct (decide (c ∈ rest)) as [Hr | Hr].
  - destruct (IH _ Hrun Hr) as [s [n [Hs [Hn Hres]]]]. exists s, n.
    split; [exact Hs | split; [exact Hn |]].
    destruct n as [vals|]; [exact Hres |]. rewrite Hres.
    destruct (decide (col = c)) as [-> | Hne].
    + assert (new = None) by congruence. now subst new.
    + destruct new; [now apply getitem_setitem_ne | reflexivity].
  - apply elem_of_cons in Hc as [-> | Hc]; [| contradiction].
    exists series, new. split; [exact Es | split; [exact En |]].
    rewrite (impute_loop_other _ _ _ _ _ Hrun Hr).
    destruct new; [apply getitem_setitem_eq | reflexivity].
Qed.

End Loop.

Lemma impute_column_length (col vals : list cell) (m : method) :
  impute_column col m = Ret (Some vals) -> length vals = length col.
Proof.
  unfold impute_column. destruct (has_missing col); [| discriminate].
  destruct (is_numeric_dtype col), m; try discriminate;
    try (intros [= <-]; unfold fillna; apply length_map).
  unfold mbind, py_bind, knn_fit_transform.
  destruct (forallb is_finite (numbers col)); [| discriminate].
  intros [= <-]. now rewrite !length_map.
Qed.

(** *** The mode *)

Lemma count_dropna (v : cell) (col : list cell) : count v (dropna col) = count v col.
Proof.
  unfold count, dropna. induction col as [|c t IH]; [reflexivity |].
  simpl. destruct c as [|x|s]; simpl.
  - rewrite IH. now destruct v.
  - destruct (cell_eqb v (CNum x)); simpl; now rewrite IH.
  - destruct (cell_eqb v (CStr s)); simpl; now rewrite IH.
Qed.

Lemma count_eqb (a b : cell) (l : list cell) :
  cell_eqb a b = true -> count a l = count b l.
Proof.
  intros Hab. unfold count. f_equal. apply List.filter_ext. intros d.
  destruct (cell_eqb b d) eqn:E.
  - now apply (cell_eqb_trans a b d).
  - destruct (cell_eqb a d) eqn:E'; [| reflexivity].
    rewrite cell_eqb_sym in Hab. now rewrite (cell_eqb_trans b a d) in E.
Qed.

Lemma unique_covers (l : list cell) (d : cell) :
  d ∈ l -> exists d', d' ∈ unique l /\ same_cell d d' = true.
Proof.
  induction l as [|c t IH]; intros Hd; [inversion Hd |].
  apply elem_of_cons in Hd as [-> | Hd].
  - exists c. split; [now left | apply DuplicateFacts.same_cell_refl].
  - destruct (IH Hd) as [d' [Hin Hs]]. simpl.
    destruct (same_cell c d') eqn:E.
    + exists c. split; [now left |].
      apply (DuplicateFacts.same_cell_trans d d' c); [exact Hs |].
      now rewrite DuplicateFacts.same_cell_sym.
    + exists d'. split; [| exact Hs]. right. apply list_elem_of_In, List.filter_In.
      split; [now apply list_elem_of_In | now rewrite E].
Qed.

Lemma max_bound {A : Type} (f : A -> nat) (u : list A) (x : A) :
  x ∈ u -> (f x <= foldr Nat.max 0%nat (map f u))%nat.
Proof.
  induction u as [|y u IH]; intros H; [inversion H |].
  simpl. apply elem_of_cons in H as [-> | H]; [lia |]. specialize (IH H). lia.
Qed.

Lemma max_attained {A : Type} (f : A -> nat) (u : list A) :
  u <> [] -> exists x, x ∈ u /\ f x = foldr Nat.max 0%nat (map f u).
Proof.
  induction u as [|y u IH]; [congruence |]. intros _. simpl.
  destruct u as [|z u].
  - exists y. split; [now left | simpl; lia].
  - destruct IH as [x [Hx Hf]]; [discriminate |].
    destruct (decide (f y <= foldr Nat.max 0%nat (map f (z :: u)))%nat).
    + exists x. split; [now right | lia].
    + exists y. split; [now left | lia].
Qed.

(** The first of the modes of a column with a value: it is a value of
    the column and none occurs more often. *)
Lemma mode_head (col : list cell) :
  dropna col <> [] ->
  exists v rest, mode col = v :: rest /\ v ∈ col /\ isna v = false
                 /\ forall w, (count w col <= count v col)%nat.
Proof.
  intros Hne. pose proof (mode_notna col) as Hnotna. unfold mode in *.
  set (vals := dropna col) in *. set (u := unique vals) in *.
  set (best := foldr Nat.max 0%nat (map (fun v => count v vals) u)) in *.
  set (modes := List.filter (fun v => Nat.eqb (count v vals) best) u) in *.
  assert (Hu : u <> []) by (unfold u; destruct vals; [congruence | discriminate]).
  destruct (max_attained (fun v => count v vals) u Hu) as [x [Hx Hbest]].
  assert (Hxm : x ∈ modes).
  { apply list_elem_of_In, List.filter_In. split; [now apply list_elem_of_In |].
    apply Nat.eqb_eq. exact Hbest. }
  assert (Hmodes : forall v, v ∈ modes ->
                     v ∈ col /\ forall w, (count w col <= count v col)%nat).
  { intros v Hv. apply list_elem_of_In, List.filter_In in Hv as [Hvu Hc].
    apply list_elem_of_In in Hvu. apply Nat.eqb_eq in Hc. split.
    - apply unique_elem, dropna_elem in Hvu. tauto.
    - intros w. rewrite <- !(count_dropna _ col). fold vals. rewrite Hc.
      destruct (count w vals) as [|n] eqn:Ew; [lia |]. rewrite <- Ew.
      assert (Hex : exists d, d ∈ vals /\ cell_eqb w d = true).
      { unfold count in Ew. destruct (List.filter (cell_eqb w) vals) as [|d t] eqn:Ef;
          [discriminate |].
        assert (Hd : In d (List.filter (cell_eqb w) vals)) by (rewrite Ef; now left).
        apply List.filter_In in Hd as [Hd Hwd]. exists d.
        split; [now apply list_elem_of_In | exact Hwd]. }
      destruct Hex as [d [Hd Hwd]]. destruct (unique_covers vals d Hd) as [d' [Hd' Hs]].
      assert (Hdn : isna d = false).
      { pose proof (dropna_notna col) as Hn. rewrite Forall_forall in Hn. now apply Hn. }
      rewrite (same_cell_notna d d' Hdn) in Hs.
      rewrite (count_eqb w d' vals) by now apply (cell_eqb_trans w d d').
      now apply (max_bound (fun v => count v vals) u d'). }
  destruct (homogeneous modes) eqn:Eh.
  - destruct (sort_cells modes) as [|v rest] eqn:Es.
    + assert (Hin : x ∈ sort_cells modes) by now apply elem_sort_by.
      rewrite Es in Hin. inversion Hin.
    + assert (Hv : v ∈ modes).
      { apply (elem_sort_by (fun a b => default false (cell_leb a b))).
        fold (sort_cells modes). rewrite Es. now left. }
      exists v, rest. split; [reflexivity |]. destruct (Hmodes v Hv) as [Hin Hmax].
      split; [exact Hin | split; [| exact Hmax]]. apply Hnotna. now left.
  - destruct modes as [|v rest] eqn:Em; [inversion Hxm |].
    exists v, rest. split; [reflexivity |]. destruct (Hmodes v) as [Hin Hmax]; [now left |].
    split; [exact Hin | split; [| exact Hmax]]. apply Hnotna. now left.
Qed.

End ImputationMoreFacts.

Module ImputationProperties.

Import Imputation PyFacts FrameFacts StatsFacts ImputationFacts ImputationMoreFacts.

(** X8.  Imputation keeps the shape of the frame: the columns and their
    order are unchanged, a column that is not selected or has no null
    is returned as it was, every column keeps its length, and with the
    mean, the median or the mode a cell that holds a value keeps it. *)
Theorem imputation_changes_only_missing_cells
    (df df' : DataFrame) (cols : list string) (m : method) :
  impute df cols m = Ret df' ->
  map fst df' = map fst df
  /\ (forall c, c ∉ cols -> getitem df' c = getitem df c)
  /\ (forall c series,
        getitem df c = Ret series ->
        exists series',
          getitem df' c = Ret series' /\ length series' = length series
          /\ (has_missing series = false -> series' = series)
          /\ (m <> knn_method ->
              forall i x, series !! i = Some x -> isna x = false -> series' !! i = Some x)).
Proof.
  intros Hrun. unfold impute in Hrun. split; [| split].
  - apply (impute_loop_columns m df cols df df' Hrun). intros c Hc.
    destruct (impute_loop_selected m _ _ _ _ c Hrun Hc) as [s [n [Hs _]]]. eauto.
  - intros c Hc. exact (impute_loop_other m _ _ _ _ c Hrun Hc).
  - intros c series Hs.
    destruct (impute_loop_getitem _ _ _ _ _ Hrun c) as [Hsame | [v0 [v1 [H0 [Himp H1]]]]].
    + exists series. rewrite Hsame. split; [exact Hs | split; [reflexivity | split]].
      * reflexivity.
      * intros _ i x Hx _. exact Hx.
    + assert (v0 = series) by congruence. subst v0. exists v1.
      split; [exact H1 | split; [now apply (impute_column_length series v1 m) | split]].
      * intros Hno. unfold impute_column in Himp. rewrite Hno in Himp. discriminate.
      * intros Hm i x Hx Hn. now apply (impute_column_keeps series v1 m i x).
Qed.

Lemma imputation_shape_witness :
  let df := [("age", [num 30; CNull; num 40]); ("city", [CStr "Oslo"; CNull; CStr "Oslo"])] in
  let df' := [("age", [num 30; CNum (Fin (35000 # 1000)); num 40]);
               ("city", [CStr "Oslo"; CNull; CStr "Oslo"])] in
  map fst df' = map fst df
  /\ (forall c, c ∉ ["age"] -> getitem df' c = getitem df c)
  /\ (forall c series,
        getitem df c = Ret series ->
        exists series',
          getitem df' c = Ret series' /\ length series' = length series
          /\ (has_missing series = false -> series' = series)
          /\ (mean_method <> knn_method ->
              forall i x, series !! i = Some x -> isna x = false -> series' !! i = Some x)).
Proof.
  apply (imputation_changes_only_missing_cells
           [("age", [num 30; CNull; num 40]); ("city", [CStr "Oslo"; CNull; CStr "Oslo"])]
           [("age", [num 30; CNum (Fin (35000 # 1000)); num 40]);
               ("city", [CStr "Oslo"; CNull; CStr "Oslo"])]
           ["age"] mean_method).
  reflexivity.
Defined.

(** X9.  After imputation by the mean, the median or knn, a selected
    numeric column of at most a million values, all finite and of
    magnitude at most 1e300, has no null left. *)
Theorem numeric_imputation_fills_every_null
    (df df' : DataFrame) (cols : list string) (m : method) (c : string) (series : list cell) :
  m <> mode_method ->
  impute df cols m = Ret df' -> c ∈ cols ->
  getitem df c = Ret series -> is_numeric_dtype series = true ->
  Magnitude.bounded (numbers series) ->
  exists series', getitem df' c = Ret series' /\ has_missing series' = false.
Proof.
  intros Hm Hrun Hc Hs Hnum [_ Hbound]. unfold impute in Hrun.
  assert (Hfin : Forall (fun x => is_finite x = true) (numbers series)).
  { eapply Forall_impl; [exact Hbound |]. intros x [q [-> _]]. reflexivity. }
  destruct (impute_loop_selected m _ _ _ _ c Hrun Hc) as [s [new [Hs' [Himp Hres]]]].
  assert (s = series) by congruence. subst s.
  assert (Hne : numbers series <> []) by now apply numeric_has_number.
  unfold impute_column in Himp. destruct (has_missing series) eqn:Emiss.
  - rewrite Hnum in Himp. destruct m; try congruence.
    + injection Himp as <-. eexists. split; [exact Hres |].
      destruct (mean_finite _ Hfin Hne) as [q ->]. now apply fillna_value_no_missing.
    + injection Himp as <-. eexists. split; [exact Hres |].
      destruct (median_finite _ Hfin Hne) as [q ->]. now apply fillna_value_no_missing.
    + unfold mbind, py_bind in Himp.
      destruct (knn_fit_transform series) as [fs|e] eqn:Ek; [| discriminate].
      injection Himp as <-. eexists. split; [exact Hres |]. now apply (knn_no_missing series).
  - injection Himp as <-. exists series. split; [now rewrite Hres | exact Emiss].
Qed.

Lemma numeric_imputation_witness :
  exists series',
    getitem [("age", [num 30; CNum (Fin (35000 # 1000)); CNum (Fin (35000 # 1000)); num 40])]
      "age" = Ret series'
    /\ has_missing series' = false.
Proof.
  apply (numeric_imputation_fills_every_null
           [("age", [num 30; CNull; CNull; num 40])]
           [("age", [num 30; CNum (Fin (35000 # 1000)); CNum (Fin (35000 # 1000)); num 40])]
           ["age"] mean_method "age"
           [num 30; CNull; CNull; num 40]).
  - discriminate.
  - reflexivity.
  - constructor.
  - reflexivity.
  - reflexivity.
  - split; [vm_compute; discriminate |].
    repeat constructor; eexists; (split; [reflexivity | vm_compute; discriminate]).
Defined.

(** X10.  Imputation by the mean, the median or the mode is idempotent:
    run on its own result with the same columns and method it changes
    nothing. *)
Theorem imputation_is_idempotent (df df' : DataFrame) (cols : list string) (m : method) :
  m <> knn_method ->
  impute df cols m = Ret df' -> impute df' cols m = Ret df'.
Proof.
  intros _ Hrun. apply impute_loop_fixed.
  eapply impute_loop_settled; [exact Hrun |]. intros name. now left.
Qed.

Lemma imputation_idempotent_witness :
  impute [("age", [num 31; CNum (Fin (35000 # 1000)); num 39]);
          ("city", [CStr "Oslo"; CNull; CStr "Rome"])]
    ["age"; "city"] median_method
  = Ret [("age", [num 31; CNum (Fin (35000 # 1000)); num 39]);
         ("city", [CStr "Oslo"; CNull; CStr "Rome"])].
Proof.
  apply (imputation_is_idempotent
           [("age", [num 31; CNull; num 39]); ("city", [CStr "Oslo"; CNull; CStr "Rome"])]
           [("age", [num 31; CNum (Fin (35000 # 1000)); num 39]);
            ("city", [CStr "Oslo"; CNull; CStr "Rome"])] ["age"; "city"] median_method).
  - discriminate.
  - reflexivity.
Defined.

(** X11.  Mode imputation of a selected column that is not numeric and
    has both a null and a value fills the nulls with a value of the
    column that no other value outnumbers. *)
Theorem mode_imputation_uses_a_most_frequent_value
    (df df' : DataFrame) (cols : list string) (c : string) (series : list cell) :
  impute df cols mode_method = Ret df' -> c ∈ cols ->
  getitem df c = Ret series -> is_numeric_dtype series = false ->
  has_missing series = true -> dropna series <> [] ->
  exists v,
    v ∈ series /\ isna v = false
    /\ (forall w, (count w series <= count v series)%nat)
    /\ getitem df' c = Ret (fillna series v).
Proof.
  intros Hrun Hc Hs Hnum Hmiss Hne. unfold impute in Hrun.
  destruct (impute_loop_selected mode_method _ _ _ _ c Hrun Hc) as [s [new [Hs' [Himp Hres]]]].
  assert (s = series) by congruence. subst s.
  rewrite (impute_column_mode_object series Hnum Hmiss) in Himp. injection Himp as <-.
  destruct (mode_head series Hne) as [v [rest [Hmode [Hin [Hn Hmax]]]]].
  rewrite Hmode in Hres. exists v. auto.
Qed.

Lemma mode_imputation_witness :
  exists v,
    v ∈ [CStr "b"; CNull; CStr "a"; CStr "b"] /\ isna v = false
    /\ (forall w, (count w [CStr "b"; CNull; CStr "a"; CStr "b"]
                   <= count v [CStr "b"; CNull; CStr "a"; CStr "b"])%nat)
    /\ getitem [("k", [CStr "b"; CStr "b"; CStr "a"; CStr "b"])] "k"
       = Ret (fillna [CStr "b"; CNull; CStr "a"; CStr "b"] v).
Proof.
  apply (mode_imputation_uses_a_most_frequent_value
           [("k", [CStr "b"; CNull; CStr "a"; CStr "b"])]
           [("k", [CStr "b"; CStr "b"; CStr "a"; CStr "b"])] ["k"] "k"
           [CStr "b"; CNull; CStr "a"; CStr "b"]).
  - reflexivity.
  - constructor.
  - reflexivity.
  - reflexivity.
  - reflexivity.
  - discriminate.
Defined.

End ImputationProperties.

(** ** Ordinal encoding *)

Module OrdinalFacts.

Import Encoding OrdinalInput PyFacts FrameFacts ImputationFacts EncodingFacts.

Import DuplicateFacts ImputationMoreFacts.

Lemma dict_get_set (d : list (cell * nat)) (k q : cell) (v : nat) :
  isna k = false ->
  dict_get (dict_set d k v) q = if cell_eqb k q then Some v else dict_get d q.
Proof.
  intros Hk. induction d as [|[k0 v0] rest IH]; simpl; [reflexivity |].
  destruct (cell_eqb k0 k) eqn:E0; simpl.
  - destruct (cell_eqb k q) eqn:Eq.
    + now rewrite (cell_eqb_trans k0 k q).
    + destruct (cell_eqb k0 q) eqn:E; [| reflexivity].
      rewrite cell_eqb_sym in E0. now rewrite (cell_eqb_trans k k0 q) in Eq.
  - destruct (cell_eqb k0 q) eqn:E; [| exact IH].
    destruct (cell_eqb k q) eqn:Eq; [| reflexivity].
    rewrite (cell_eqb_sym k q) in Eq. now rewrite (cell_eqb_trans k0 q k) in E0.
Qed.

(** What the dictionary built by [enumerate] answers: the index of an
    equal value of the list, or what the dictionary answered before
    when the list has no equal value. *)
Lemma enumerate_get (values : list cell) (d : list (cell * nat)) (s : nat) (q : cell) :
  Forall (fun v => isna v = false) values ->
  (exists i v, values !! i = Some v /\ cell_eqb v q = true
               /\ dict_get (foldl (fun d iv => dict_set d (snd iv) (fst iv)) d
                              (combine (seq s (length values)) values)) q
                  = Some (s + i)%nat)
  \/ ((forall v, v ∈ values -> cell_eqb v q = false)
      /\ dict_get (foldl (fun d iv => dict_set d (snd iv) (fst iv)) d
                     (combine (seq s (length values)) values)) q
         = dict_get d q).
Proof.
  revert d s. induction values as [|v0 t IH]; intros d s Hna.
  - right. split; [intros v Hv; inversion Hv | reflexivity].
  - apply Forall_cons in Hna as [Hv0 Ht]. cbn [length seq combine foldl fst snd].
    destruct (IH (dict_set d v0 s) (S s) Ht) as [[i [v [Hi [Hv Hg]]]] | [Hnone Hg]].
    + left. exists (S i), v. split; [exact Hi | split; [exact Hv |]].
      rewrite Hg. f_equal. lia.
    + rewrite Hg, (dict_get_set d v0 q s Hv0). destruct (cell_eqb v0 q) eqn:E.
      * left. exists 0%nat, v0. split; [reflexivity | split; [exact E |]]. f_equal. lia.
      * right. split; [| reflexivity]. intros v Hv.
        apply elem_of_cons in Hv as [-> | Hv]; [exact E | now apply Hnone].
Qed.

(** The codes of an explicit order: a string of the order gets an index
    at which the order holds it, any other cell gets none. *)
Lemma ordinal_map_get (ordinal_values : list string) (c : cell) :
  match dict_get (enumerate_map (map CStr ordinal_values)) c with
  | Some k => exists s, c = CStr s /\ ordinal_values !! k = Some s
  | None => forall s, c = CStr s -> s ∉ ordinal_values
  end.
Proof.
  unfold enumerate_map.
  destruct (enumerate_get (map CStr ordinal_values) [] 0 c) as [[i [v [Hi [Hv Hg]]]] | [Hn Hg]].
  - apply Forall_fmap, Forall_forall. intros s _. reflexivity.
  - rewrite Hg. rewrite list_lookup_fmap in Hi.
    destruct (ordinal_values !! i) as [s|] eqn:Es; [| discriminate]. injection Hi as <-.
    destruct c as [|x|s']; try discriminate. apply String.eqb_eq in Hv. subst s'.
    exists s. split; [reflexivity | exact Es].
  - rewrite Hg. simpl. intros s -> Hin.
    assert (H : cell_eqb (CStr s) (CStr s) = false).
    { apply Hn. apply list_elem_of_fmap. now exists s. }
    simpl in H. now rewrite String.eqb_refl in H.
Qed.

Lemma dict_get_getitem (df : DataFrame) (col : string) :
  getitem df col = match Dict.get df col with
                   | Some series => Ret series
                   | None => Raise (key_error col)
                   end.
Proof.
  induction df as [|[name vals] rest IH]; [reflexivity |].
  simpl. destruct (String.eqb name col); [reflexivity | exact IH].
Qed.

Section WithPython.

Variable str_num : real -> string.

Variable sorted : list cell -> py (list cell).

(** The ordinal branch with an explicit order. *)
Lemma apply_encoding_ordinal (df : DataFrame) (column : string) (series : list cell)
    (ordinal_values : list string) :
  getitem df column = Ret series -> (0 < nrows df)%nat -> column <> "" ->
  ordinal_values <> [] ->
  apply_encoding str_num sorted df column (Some ordinal) ordinal_values
  = Encoded (setitem df (column +:+ "_ordinal")
               (map_dict series (enumerate_map (map CStr ordinal_values))))
      [column +:+ "_ordinal"].
Proof.
  intros Hs Hrows Hcol Hne.
  unfold apply_encoding. destruct (nrows df =? 0)%nat eqn:E; [apply Nat.eqb_eq in E; lia |].
  destruct column as [|a column']; [congruence |].
  unfold encode_ordinal. rewrite Hs. destruct ordinal_values; [congruence | reflexivity].
Qed.

End WithPython.

Lemma map_dict_listed (series : list cell) (ordinal_values : list string) (i : nat)
    (s : string) :
  series !! i = Some (CStr s) -> s ∈ ordinal_values ->
  exists k, map_dict series (enumerate_map (map CStr ordinal_values)) !! i
            = Some (num (Z.of_nat k))
            /\ ordinal_values !! k = Some s.
Proof.
  intros Hi Hin. unfold map_dict. rewrite list_lookup_fmap, Hi.
  cbn [fmap option_fmap option_map].
  pose proof (ordinal_map_get ordinal_values (CStr s)) as H.
  destruct (dict_get (enumerate_map (map CStr ordinal_values)) (CStr s)) as [k|].
  - destruct H as [s' [[= <-] Hk]]. exists k. split; [reflexivity | exact Hk].
  - now specialize (H s eq_refl).
Qed.

Lemma map_dict_unlisted (series : list cell) (ordinal_values : list string) (i : nat)
    (c : cell) :
  series !! i = Some c -> (forall s, c = CStr s -> s ∉ ordinal_values) ->
  map_dict series (enumerate_map (map CStr ordinal_values)) !! i = Some CNull.
Proof.
  intros Hi Hnot. unfold map_dict. rewrite list_lookup_fmap, Hi.
  cbn [fmap option_fmap option_map].
  pose proof (ordinal_map_get ordinal_values c) as H.
  destruct (dict_get (enumerate_map (map CStr ordinal_values)) c) as [k|]; [| reflexivity].
  destruct H as [s [-> Hk]]. exfalso. apply (Hnot s eq_refl).
  eapply list_elem_of_lookup_2; eauto.
Qed.

Lemma insert_sorted_perm {A : Type} leb (x : A) (l : list A) :
  insert_sorted leb x l ≡ₚ x :: l.
Proof.
  induction l as [|y t IH]; [reflexivity |].
  simpl. destruct (leb x y); [reflexivity |]. rewrite IH. apply Permutation_swap.
Qed.

Lemma sort_by_perm {A : Type} leb (l : list A) : sort_by leb l ≡ₚ l.
Proof.
  unfold sort_by. induction l as [|x t IH]; [reflexivity |].
  simpl. now rewrite insert_sorted_perm, IH.
Qed.

Lemma unique_nodup (l : list cell) : NoDup (unique l).
Proof.
  induction l as [|c t IH]; [constructor |].
  simpl. constructor.
  - intros H. apply list_elem_of_In, List.filter_In in H as [_ H].
    now rewrite same_cell_refl in H.
  - now apply NoDup_ListNoDup, List.NoDup_filter, NoDup_ListNoDup.
Qed.

End OrdinalFacts.

Module OrdinalProperties.

Import Encoding OrdinalInput PyFacts FrameFacts ImputationFacts EncodingFacts OrdinalFacts.

Import DuplicateFacts ImputationMoreFacts.

(** X12.  Ordinal encoding with an explicit order adds the column
    "<column>_ordinal" and leaves the other columns as they were.  The
    code of a cell decodes to its value: a string listed in the order
    gets an index at which the order holds that string; a null, a
    number or a string the order does not list gets no code. *)
Theorem ordinal_codes_decode_to_values
    (str_num : real -> string) (sorted : list cell -> py (list cell))
    (df : DataFrame) (column : string) (series : list cell) (ordinal_values : list string) :
  getitem df column = Ret series -> (0 < nrows df)%nat -> column <> "" ->
  ordinal_values <> [] ->
  exists codes,
    apply_encoding str_num sorted df column (Some ordinal) ordinal_values
    = Encoded (setitem df (column +:+ "_ordinal") codes) [column +:+ "_ordinal"]
    /\ length codes = length series
    /\ (forall i s, series !! i = Some (CStr s) -> s ∈ ordinal_values ->
          exists k, codes !! i = Some (num (Z.of_nat k)) /\ ordinal_values !! k = Some s)
    /\ (forall i c, series !! i = Some c -> (forall s, c = CStr s -> s ∉ ordinal_values) ->
          codes !! i = Some CNull)
    /\ (forall name, name <> column +:+ "_ordinal" ->
          getitem (setitem df (column +:+ "_ordinal") codes) name = getitem df name).
Proof.
  intros Hs Hrows Hcol Hne.
  exists (map_dict series (enumerate_map (map CStr ordinal_values))).
  split; [| split; [| split; [| split]]].
  - now apply apply_encoding_ordinal.
  - unfold map_dict. apply length_map.
  - intros i s. apply map_dict_listed.
  - intros i c. apply map_dict_unlisted.
  - intros name Hname. apply getitem_setitem_ne. congruence.
Qed.

Lemma ordinal_codes_witness :
  let series := [CStr "mid"; CStr "low"; CNull; CStr "top"; num 7; CStr "mid"] in
  let df := [("size", series)] in
  exists codes,
    apply_encoding simple_str_num simple_sorted df "size" (Some ordinal) ["low"; "mid"; "high"]
    = Encoded (setitem df ("size" +:+ "_ordinal") codes) ["size" +:+ "_ordinal"]
    /\ length codes = length series
    /\ (forall i s, series !! i = Some (CStr s) -> s ∈ ["low"; "mid"; "high"] ->
          exists k, codes !! i = Some (num (Z.of_nat k))
                    /\ ["low"; "mid"; "high"] !! k = Some s)
    /\ (forall i c, series !! i = Some c ->
          (forall s, c = CStr s -> s ∉ ["low"; "mid"; "high"]) ->
          codes !! i = Some CNull)
    /\ (forall name, name <> "size" +:+ "_ordinal" ->
          getitem (setitem df ("size" +:+ "_ordinal") codes) name = getitem df name).
Proof.
  apply (ordinal_codes_decode_to_values simple_str_num simple_sorted
           [("size", [CStr "mid"; CStr "low"; CNull; CStr "top"; num 7; CStr "mid"])] "size"
           [CStr "mid"; CStr "low"; CNull; CStr "top"; num 7; CStr "mid"]
           ["low"; "mid"; "high"]).
  - reflexivity.
  - simpl. lia.
  - discriminate.
  - discriminate.
Defined.

(** X13.  The order that [show_ordinal_order_input] proposes for a
    column of strings lists every value of the column once: applied
    unchanged, ordinal encoding gives every cell that holds a value a
    code, the position of its value in the proposed order, and only
    nulls are left without a code. *)
Theorem proposed_order_codes_every_value
    (str_num : real -> string) (sorted : list cell -> py (list cell))
    (data : DataFrame) (col : string) (series : list cell) (order : list string) :
  getitem data col = Ret series ->
  Forall (fun c => match c with CNum _ => False | _ => True end) series ->
  show_ordinal_order_input str_num (Some ordinal) col data = Some order ->
  order <> [] ->
  NoDup order
  /\ exists codes,
       apply_encoding str_num sorted data col (Some ordinal) order
       = Encoded (setitem data (col +:+ "_ordinal") codes) [col +:+ "_ordinal"]
       /\ (forall i s, series !! i = Some (CStr s) ->
             exists k, codes !! i = Some (num (Z.of_nat k)) /\ order !! k = Some s)
       /\ (forall i, series !! i = Some CNull -> codes !! i = Some CNull).
Proof.
  intros Hs Hstr Hshow Hne. unfold show_ordinal_order_input in Hshow.
  destruct (String.eqb col "") eqn:Ecol; [discriminate |].
  destruct (nrows data =? 0)%nat eqn:Erows; [discriminate |]. cbn [orb] in Hshow.
  rewrite dict_get_getitem in Hs.
  destruct (Dict.get data col) as [series0|] eqn:Eg; [| discriminate].
  injection Hs as ->. injection Hshow as Horder.
  set (u := unique (dropna series)) in *.
  set (sorted_u := sort_by (fun a b => String.leb (str str_num a) (str str_num b)) u) in *.
  assert (Hu : forall c, c ∈ sorted_u -> exists s, c = CStr s /\ CStr s ∈ series).
  { intros c Hc. apply elem_sort_by, unique_elem, dropna_elem in Hc as [Hin Hna].
    rewrite Forall_forall in Hstr. specialize (Hstr c Hin).
    destruct c as [|x|s]; [discriminate | contradiction | eauto]. }
  assert (Hin : forall s, CStr s ∈ series -> s ∈ order).
  { intros s Hsin. rewrite <- Horder. apply list_elem_of_fmap. exists (CStr s).
    split; [reflexivity |]. apply elem_sort_by.
    destruct (unique_covers (dropna series) (CStr s)) as [d [Hd Hsame]].
    - apply dropna_elem. split; [exact Hsin | reflexivity].
    - unfold same_cell in Hsame. destruct d as [|x|s']; try discriminate.
      simpl in Hsame. rewrite orb_false_r in Hsame. apply String.eqb_eq in Hsame.
      now subst s'. }
  split.
  - rewrite <- Horder. apply NoDup_fmap_2_strong.
    + intros a b Ha Hb Hab. destruct (Hu a Ha) as [sa [-> _]], (Hu b Hb) as [sb [-> _]].
      simpl in Hab. now subst.
    + unfold sorted_u. rewrite sort_by_perm. apply unique_nodup.
  - exists (map_dict series (enumerate_map (map CStr order))). split; [| split].
    + apply apply_encoding_ordinal; [| | | exact Hne].
      * rewrite dict_get_getitem, Eg. reflexivity.
      * apply Nat.eqb_neq in Erows. lia.
      * now apply String.eqb_neq in Ecol.
    + intros i s Hi. apply (map_dict_listed series order i s Hi), Hin.
      eapply list_elem_of_lookup_2; eauto.
    + intros i Hi. apply (map_dict_unlisted series order i CNull Hi). discriminate.
Qed.

Lemma proposed_order_witness :
  let series := [CStr "mid"; CStr "low"; CNull; CStr "top"; CStr "mid"] in
  let data := [("size", series)] in
  let order := ["low"; "mid"; "top"] in
  NoDup order
  /\ exists codes,
       apply_encoding simple_str_num simple_sorted data "size" (Some ordinal) order
       = Encoded (setitem data ("size" +:+ "_ordinal") codes) ["size" +:+ "_ordinal"]
       /\ (forall i s, series !! i = Some (CStr s) ->
             exists k, codes !! i = Some (num (Z.of_nat k)) /\ order !! k = Some s)
       /\ (forall i, series !! i = Some CNull -> codes !! i = Some CNull).
Proof.
  apply (proposed_order_codes_every_value simple_str_num simple_sorted
           [("size", [CStr "mid"; CStr "low"; CNull; CStr "top"; CStr "mid"])] "size"
           [CStr "mid"; CStr "low"; CNull; CStr "top"; CStr "mid"] ["low"; "mid"; "top"]).
  - reflexivity.
  - repeat constructor.
  - reflexivity.
  - discriminate.
Defined.

End OrdinalProperties.

(** ** Training *)

Module TrainingFacts.

Import Forest PyFacts FrameFacts EncodingFacts ForestFacts DuplicateFacts OrdinalFacts.

Lemma dict_set_fresh (d : list (cell * nat)) (k : cell) (v : nat) :
  Forall (fun kv => cell_eqb (fst kv) k = false) d ->
  Encoding.dict_set d k v = d ++ [(k, v)].
Proof.
  induction 1 as [|[k0 v0] d Hk _ IH]; [reflexivity |].
  simpl in *. now rewrite Hk, IH.
Qed.

(** Enumerating values that differ pairwise numbers them in order. *)
Lemma enumerate_distinct (l : list cell) (d : list (cell * nat)) (s : nat) :
  ForallOrdPairs (fun a b => cell_eqb a b = false) l ->
  Forall (fun x => Forall (fun kv => cell_eqb (fst kv) x = false) d) l ->
  foldl (fun d iv => Encoding.dict_set d (snd iv) (fst iv)) d (combine (seq s (length l)) l)
  = d ++ zip l (seq s (length l)).
Proof.
  intros H. revert d s. induction H as [|x t Hx Ht IH]; intros d s Hd.
  - simpl. now rewrite app_nil_r.
  - apply Forall_cons in Hd as [Hdx Hdt].
    cbn [length seq combine foldl fst snd]. rewrite (dict_set_fresh d x s Hdx), IH.
    + now rewrite <- app_assoc.
    + rewrite Forall_forall in Hdt. rewrite List.Forall_forall in Hx.
      apply Forall_forall. intros y Hy.
      apply Forall_app. split; [now apply Hdt |]. constructor; [| constructor].
      simpl. apply Hx. now apply list_elem_of_In.
Qed.

Lemma unique_distinct (y : list cell) :
  Forall (fun c => isna c = false) y ->
  ForallOrdPairs (fun a b => cell_eqb a b = false) (unique y).
Proof.
  induction 1 as [|c t Hc Ht IH]; [constructor |].
  simpl. constructor.
  - apply List.Forall_forall. intros d Hd. apply List.filter_In in Hd as [_ Hd].
    apply negb_true_iff in Hd. now rewrite (same_cell_notna c d Hc) in Hd.
  - clear -IH. induction IH as [|a l Ha Hl IHl]; [constructor |].
    simpl. destruct (negb (same_cell c a)); [| exact IHl].
    constructor; [| exact IHl]. apply List.Forall_forall. intros d Hd.
    apply List.filter_In in Hd as [Hd _]. rewrite List.Forall_forall in Ha. now apply Ha.
Qed.

Lemma unique_notna (y : list cell) :
  Forall (fun c => isna c = false) y -> Forall (fun c => isna c = false) (unique y).
Proof.
  intros H. apply Forall_forall. intros c Hc. apply unique_elem in Hc.
  rewrite Forall_forall in H. now apply H.
Qed.

Lemma enumerate_unique (y : list cell) :
  Forall (fun c => isna c = false) y ->
  Encoding.enumerate_map (unique y) = zip (unique y) (seq 0 (length (unique y))).
Proof.
  intros H. unfold Encoding.enumerate_map.
  rewrite (enumerate_distinct (unique y) [] 0 (unique_distinct y H)); [reflexivity |].
  apply Forall_forall. intros x _. constructor.
Qed.

Lemma key_get_zip (l : list cell) (s i : nat) :
  key_get (map (fun vi : cell * nat => (KInt (snd vi), fst vi)) (zip l (seq s (length l))))
    (KInt (s + i))
  = l !! i.
Proof.
  revert s i. induction l as [|x t IH]; intros s i; [reflexivity |].
  cbn [length seq zip zip_with map key_get fst snd key_eqb].
  destruct i as [|i].
  - now rewrite Nat.add_0_r, Nat.eqb_refl.
  - destruct (s =? s + S i)%nat eqn:E; [apply Nat.eqb_eq in E; lia |].
    change ((x :: t) !! S i) with (t !! i).
    rewrite <- (IH (S s) i). f_equal. f_equal. lia.
Qed.

(** The two dictionaries of a label encoding are inverse to each other. *)
Lemma label_encoding_inverse (y : list cell) :
  Forall (fun c => isna c = false) y ->
  let mapping := Encoding.enumerate_map (unique y) in
  let inverse := map (fun vi : cell * nat => (KInt (snd vi), fst vi)) mapping in
  (forall v k, Encoding.dict_get mapping v = Some k ->
     (k < length (unique y))%nat
     /\ exists v', key_get inverse (KInt k) = Some v' /\ cell_eqb v' v = true)
  /\ (forall k v, key_get inverse (KInt k) = Some v -> Encoding.dict_get mapping v = Some k)
  /\ (forall c, c ∈ y -> is_Some (Encoding.dict_get mapping c)).
Proof.
  intros Hna mapping inverse.
  pose proof (unique_notna y Hna) as Hu.
  assert (Hinv : forall k, key_get inverse (KInt k) = unique y !! k).
  { intros k. unfold inverse, mapping. rewrite (enumerate_unique y Hna).
    apply (key_get_zip (unique y) 0 k). }
  assert (Hget : forall q,
             (exists i v, unique y !! i = Some v /\ cell_eqb v q = true
                          /\ Encoding.dict_get mapping q = Some i)
             \/ ((forall v, v ∈ unique y -> cell_eqb v q = false)
                 /\ Encoding.dict_get mapping q = None)).
  { intros q. exact (enumerate_get (unique y) [] 0 q Hu). }
  split; [| split].
  - intros v k Hk. destruct (Hget v) as [[i [v' [Hi [Hv Hg]]]] | [_ Hg]]; [| congruence].
    assert (k = i) by congruence. subst k.
    split; [eapply lookup_lt_Some; eauto |]. exists v'. now rewrite Hinv.
  - intros k v Hk. rewrite Hinv in Hk.
    assert (Hv : isna v = false).
    { rewrite Forall_forall in Hu. apply Hu. eapply list_elem_of_lookup_2; eauto. }
    destruct (Hget v) as [[i [v' [Hi [Hv' Hg]]]] | [Hnone _]].
    + rewrite Hg. f_equal.
      assert (Heq : v' = v).
      { destruct (ForallOrdPairs_In (unique_distinct y Hna) v' v) as [H | [H | H]].
        - apply list_elem_of_In. eapply list_elem_of_lookup_2; eauto.
        - apply list_elem_of_In. eapply list_elem_of_lookup_2; eauto.
        - exact H.
        - congruence.
        - rewrite cell_eqb_sym in H. congruence. }
      subst v'. eapply NoDup_lookup; [apply unique_nodup | exact Hi | exact Hk].
    + assert (Hself : cell_eqb v v = false).
      { apply Hnone. eapply list_elem_of_lookup_2; eauto. }
      now rewrite cell_eqb_refl in Hself.
  - intros c Hc.
    assert (Hcn : isna c = false) by (rewrite Forall_forall in Hna; now apply Hna).
    destruct (Hget c) as [[i [v' [_ [_ Hg]]]] | [Hnone _]]; [now rewrite Hg |].
    destruct (ImputationMoreFacts.unique_covers y c Hc) as [d [Hd Hs]].
    rewrite (same_cell_notna c d Hcn), cell_eqb_sym in Hs.
    rewrite (Hnone d Hd) in Hs. discriminate.
Qed.

Lemma select_rows_elem {A : Type} (mask : list bool) (col : list A) (c : A) :
  c ∈ select_rows mask col -> exists i, mask !! i = Some true /\ col !! i = Some c.
Proof.
  revert col. induction mask as [|b mask IH]; intros [|x col] H;
    try (unfold select_rows in H; simpl in H; inversion H; fail).
  rewrite select_rows_cons in H. destruct b.
  - apply elem_of_cons in H as [-> | H]; [now exists 0%nat |].
    destruct (IH col H) as [i Hi]. now exists (S i).
  - destruct (IH col H) as [i Hi]. now exists (S i).
Qed.

Lemma mapM_getitem_elem (data : DataFrame) (subset : list string) (cols : list (list cell))
    (name : string) (c0 : list cell) :
  mapM (getitem data) subset = Ret cols -> name ∈ subset -> getitem data name = Ret c0 ->
  c0 ∈ cols.
Proof.
  revert cols. induction subset as [|s0 rest IH]; intros cols Em Hin Ec; [inversion Hin |].
  cbn [mapM] in Em. destruct (getitem data s0) as [c1|e] eqn:E1; [| discriminate].
  rewrite bind_ret in Em. destruct (mapM (getitem data) rest) as [cs|e]; [| discriminate].
  rewrite bind_ret in Em. injection Em as <-.
  apply elem_of_cons in Hin as [-> | Hin].
  - assert (c1 = c0) by congruence. subst. now left.
  - right. now apply IH.
Qed.

(** After [dropna(subset=...)] a column of the subset holds no null. *)
Lemma dropna_subset_notna (data df : DataFrame) (subset : list string) (name : string)
    (col : list cell) :
  dropna_subset data subset = Ret df -> name ∈ subset ->
  getitem df name = Ret col -> Forall (fun c => isna c = false) col.
Proof.
  intros Hdrop Hin Hget. unfold dropna_subset in Hdrop.
  destruct (List.filter _ subset); [| discriminate].
  destruct (mapM (getitem data) subset) as [cols|e] eqn:Em; [| discriminate].
  rewrite bind_ret in Hdrop. injection Hdrop as <-.
  rewrite getitem_map in Hget. destruct (getitem data name) as [c0|e] eqn:Ec; [| discriminate].
  injection Hget as <-.
  pose proof (mapM_getitem_elem data subset cols name c0 Em Hin Ec) as Hcols.
  apply Forall_forall. intros c Hc. apply select_rows_elem in Hc as [i [Hm Hi]].
  unfold keep_mask in Hm. rewrite list_lookup_fmap in Hm.
  destruct (seq 0 (nrows data) !! i) as [j|] eqn:Ej; [| discriminate].
  apply lookup_seq in Ej as [-> _]. simpl in Hm. injection Hm as Hm.
  rewrite forallb_forall in Hm. specialize (Hm c0 (proj1 (list_elem_of_In _ _) Hcols)).
  rewrite Hi in Hm. now apply negb_true_iff in Hm.
Qed.

Section Training.

Variable Qsqrt : Q -> Q.

Variable str_num : real -> string.

(** Every standard deviation the feature loop stores is positive. *)
Lemma process_feature_std numeric feature vals acc :
  (forall f mean std, Dict.get (fst acc) f = Some (NumericFeature mean std) ->
                      gt std (fin 0) = true) ->
  forall f mean std,
    Dict.get (fst (process_feature Qsqrt str_num numeric feature vals acc)) f
    = Some (NumericFeature mean std) ->
    gt std (fin 0) = true.
Proof.
  intros Hacc f mean std. unfold process_feature. destruct acc as [fi X].
  cbn [fst] in Hacc. destruct numeric; cbn [fst].
  - destruct (decide (feature = f)) as [<- | Hne].
    + rewrite dict_get_set_eq. intros H.
      apply (f_equal (fun o => match o with
                               | Some (NumericFeature _ s) => s
                               | _ => nan
                               end)) in H.
      cbv beta iota in H. subst std.
      destruct (gt (Stats.std Qsqrt (numbers vals)) (fin 0)) eqn:E; [exact E | reflexivity].
    + rewrite dict_get_set_ne by exact Hne. apply Hacc.
  - destruct (decide (feature = f)) as [<- | Hne].
    + rewrite dict_get_set_eq. discriminate.
    + rewrite dict_get_set_ne by exact Hne. apply Hacc.
Qed.

Lemma process_features_std data df (fs : list string) acc p :
  process_features Qsqrt str_num data df fs acc = Ret p ->
  (forall f mean std, Dict.get (fst acc) f = Some (NumericFeature mean std) ->
                      gt std (fin 0) = true) ->
  forall f mean std, Dict.get (fst p) f = Some (NumericFeature mean std) ->
                     gt std (fin 0) = true.
Proof.
  revert acc. induction fs as [|feature rest IH]; intros acc Hrun Hacc.
  - simpl in Hrun. now injection Hrun as <-.
  - cbn [process_features] in Hrun.
    destruct (getitem data feature) as [original|e]; [| discriminate]. rewrite bind_ret in Hrun.
    destruct (getitem df feature) as [vals|e]; [| discriminate]. rewrite bind_ret in Hrun.
    apply (IH _ Hrun). now apply process_feature_std.
Qed.

End Training.

End TrainingFacts.

Module TrainingProperties.

Import Forest PyFacts FrameFacts EncodingFacts ForestFacts TrainingFacts.

(** X14.  When [train_model] label-encodes the target, the mapping and
    the inverse mapping it stores are inverse to each other: a label is
    an index below the number of classes, at most 10, the inverse
    mapping sends it back to its class, and whatever the inverse
    mapping holds under an index is mapped to that index.  Every target
    value of the rows used for training has a label. *)
Theorem target_labels_round_trip
    (Qsqrt : Q -> Q) (str_num : real -> string)
    (fit_forest : list (string * list float) -> list cell -> hyper -> py fitted)
    (n_clicks : option nat) (data : DataFrame) (target : string) (features : list string)
    (params : hyper) (model : model_info) (fi : list (string * feature_meta)) (m : metrics)
    (mapping : list (cell * nat)) (inverse : list (key * cell)) :
  train_model Qsqrt str_num fit_forest n_clicks data (Some target) features params
  = Trained model fi m ->
  target_info model = CategoricalTarget mapping inverse ->
  (forall v k, Encoding.dict_get mapping v = Some k ->
     (k < 10)%nat /\ exists v', key_get inverse (KInt k) = Some v' /\ cell_eqb v' v = true)
  /\ (forall k v, key_get inverse (KInt k) = Some v -> Encoding.dict_get mapping v = Some k)
  /\ (forall df y, dropna_subset data (target :: features) = Ret df ->
        getitem df target = Ret y ->
        forall c, c ∈ y -> is_Some (Encoding.dict_get mapping c)).
Proof.
  intros H Hti. unfold train_model in H.
  destruct (_ || _); [discriminate |]. change (default "" (Some target)) with target in H.
  unfold train in H.
  destruct (dropna_subset data (target :: features)) as [df|e] eqn:Ed; [| discriminate].
  rewrite bind_ret in H. destruct (nrows df <? 10)%nat eqn:Er; [discriminate |].
  destruct (process_features Qsqrt str_num data df features ([], [])) as [processed|e] eqn:Ep;
    [| discriminate].
  rewrite bind_ret in H.
  destruct (getitem data target) as [original_y|e]; [| discriminate].
  rewrite bind_ret in H.
  destruct (getitem df target) as [y|e] eqn:Ey; [| discriminate].
  rewrite bind_ret in H.
  destruct (encode_target (is_numeric_dtype original_y) y) as [ti y_encoded] eqn:Et.
  destruct (fit_forest (snd processed) y_encoded params) as [fm|e]; [| discriminate].
  rewrite bind_ret in H. cbn in H. injection H as <- _ _. cbn [target_info] in Hti. subst ti.
  unfold encode_target in Et.
  destruct (negb (is_numeric_dtype original_y)) eqn:En; [| discriminate].
  destruct (length (unique y) <=? 10)%nat eqn:El; [| discriminate].
  cbn [andb] in Et. injection Et as <- <- _. apply Nat.leb_le in El.
  assert (Hna : Forall (fun c => isna c = false) y).
  { apply (dropna_subset_notna data df (target :: features) target y Ed); [now left | exact Ey]. }
  destruct (label_encoding_inverse y Hna) as [Hfwd [Hback Hall]].
  split; [| split].
  - intros v k Hk. destruct (Hfwd v k Hk) as [Hlt Hv]. split; [lia | exact Hv].
  - exact Hback.
  - intros df' y' Hd' Hy' c Hc. injection Hd' as <-. rewrite Ey in Hy'. injection Hy' as <-.
    now apply Hall.
Qed.

Lemma target_labels_witness :
  let data :=
    [("age", map num [21; 34; 45; 52; 23; 38; 61; 47; 29; 55; 40; 33]%Z);
     ("label", [CStr "yes"; CStr "no"; CStr "yes"; CStr "no"; CStr "yes"; CStr "no";
                CStr "yes"; CStr "no"; CStr "yes"; CStr "no"; CNull; CStr "no"])] in
  let mapping := [(CStr "yes", 0%nat); (CStr "no", 1%nat)] in
  let inverse := [(KInt 0, CStr "yes"); (KInt 1, CStr "no")] in
  (forall v k, Encoding.dict_get mapping v = Some k ->
     (k < 10)%nat /\ exists v', key_get inverse (KInt k) = Some v' /\ cell_eqb v' v = true)
  /\ (forall k v, key_get inverse (KInt k) = Some v -> Encoding.dict_get mapping v = Some k)
  /\ (forall df y, dropna_subset data ("label" :: ["age"]) = Ret df ->
        getitem df "label" = Ret y ->
        forall c, c ∈ y -> is_Some (Encoding.dict_get mapping c)).
Proof.
  intros data mapping inverse.
  destruct (train_model Qsqrt_approx Encoding.simple_str_num uniform_fit (Some 1%nat) data
              (Some "label")
              ["age"] default_params) as [| msg | model feature_info m] eqn:Etrain;
    try (vm_compute in Etrain; discriminate).
  apply (target_labels_round_trip Qsqrt_approx Encoding.simple_str_num uniform_fit (Some 1%nat) data
           "label" ["age"] default_params model feature_info m mapping inverse Etrain).
  vm_compute in Etrain. inversion Etrain. reflexivity.
Defined.

(** X15.  Every numeric feature of a trained model is stored with a
    standard deviation that is positive, 1 standing in for a deviation
    that is zero or not a number: the normalisation of an input for
    prediction never divides by zero. *)
Theorem stored_deviation_is_positive
    (Qsqrt : Q -> Q) (str_num : real -> string)
    (fit_forest : list (string * list float) -> list cell -> hyper -> py fitted)
    (n_clicks : option nat) (data : DataFrame) (target : option string)
    (features : list string) (params : hyper) (model : model_info)
    (fi : list (string * feature_meta)) (m : metrics) :
  train_model Qsqrt str_num fit_forest n_clicks data target features params
  = Trained model fi m ->
  forall f mean std,
    Dict.get fi f = Some (NumericFeature mean std) ->
    gt std (fin 0) = true /\ eqb std (fin 0) = false /\ std <> nan.
Proof.
  intros H f mean std Hf. unfold train_model in H.
  destruct (_ || _); [discriminate |]. unfold train in H.
  destruct (dropna_subset data (default "" target :: features)) as [df|e]; [| discriminate].
  rewrite bind_ret in H. destruct (nrows df <? 10)%nat; [discriminate |].
  destruct (process_features Qsqrt str_num data df features ([], [])) as [processed|e] eqn:Ep;
    [| discriminate].
  rewrite bind_ret in H.
  destruct (getitem data (default "" target)) as [original_y|e]; [| discriminate].
  rewrite bind_ret in H.
  destruct (getitem df (default "" target)) as [y|e]; [| discriminate].
  rewrite bind_ret in H.
  destruct (encode_target (is_numeric_dtype original_y) y) as [ti y_encoded].
  destruct (fit_forest (snd processed) y_encoded params) as [fm|e]; [| discriminate].
  rewrite bind_ret in H. cbn in H. injection H as _ <- _.
  assert (Hgt : gt std (fin 0) = true).
  { apply (process_features_std Qsqrt str_num data df features ([], []) processed Ep)
      with (f := f) (mean := mean); [| exact Hf].
    intros f' mean' std' H'. discriminate. }
  split; [exact Hgt |]. destruct std as [[| |q]|]; try discriminate.
  - split; [reflexivity | discriminate].
  - split; [| discriminate]. unfold gt, lt, lt_real, fin, Qltb in Hgt. simpl.
    apply negb_true_iff in Hgt. apply not_true_iff_false. intros Hq.
    apply Qeq_bool_iff in Hq. apply not_true_iff_false in Hgt. apply Hgt.
    apply Qle_bool_iff. rewrite Hq. apply Qle_refl.
Qed.

Lemma stored_deviation_witness :
  let data :=
    [("age", map num [21; 34; 45; 52; 23; 38; 61; 47; 29; 55; 40; 33]%Z);
     ("floor", map num [2; 2; 2; 2; 2; 2; 2; 2; 2; 2; 2; 2]%Z);
     ("label", [CStr "yes"; CStr "no"; CStr "yes"; CStr "no"; CStr "yes"; CStr "no";
                CStr "yes"; CStr "no"; CStr "yes"; CStr "no"; CNull; CStr "no"])] in
  exists model feature_info m,
    train_model Qsqrt_approx Encoding.simple_str_num uniform_fit (Some 1%nat) data (Some "label")
      ["age"; "floor"] default_params
    = Trained model feature_info m
    /\ forall f mean std,
         Dict.get feature_info f = Some (NumericFeature mean std) ->
         gt std (fin 0) = true /\ eqb std (fin 0) = false /\ std <> nan.
Proof.
  intros data.
  destruct (train_model Qsqrt_approx Encoding.simple_str_num uniform_fit (Some 1%nat) data
              (Some "label")
              ["age"; "floor"] default_params) as [| msg | model feature_info m] eqn:Etrain;
    try (vm_compute in Etrain; discriminate).
  exists model, feature_info, m. split; [reflexivity |].
  exact (stored_deviation_is_positive Qsqrt_approx Encoding.simple_str_num uniform_fit
           (Some 1%nat) data
           (Some "label") ["age"; "floor"] default_params model feature_info m Etrain).
Defined.

End TrainingProperties.

(** ** Type detection and conversion suggestions *)

Module DetectionTypeProperties.

Import TypeInference Suggestion PyFacts EncodingFacts TypeInferenceFacts ImputationMoreFacts.

Section WithParsers.

Variable to_datetime : list cell -> bool.

Variable to_numeric : list cell -> bool.

Variable strptime : string -> string -> bool.

Variable is_string_dtype : list cell -> bool.

Variable str_num : real -> string.

(** The datetime check never fails: its sample is never larger than
    the values it is drawn from. *)
Lemma is_possible_datetime_returns (draw : list nat) (series : list cell) :
  exists b, is_possible_datetime to_datetime strptime str_num draw series = Ret b.
Proof.
  unfold is_possible_datetime. destruct (length (dropna series) =? 0)%nat eqn:E0; [eauto |].
  unfold sample. rewrite E0. cbn [andb].
  destruct (length (dropna series) <? Nat.min 100 (length (dropna series)))%nat eqn:E.
  - apply Nat.ltb_lt in E. lia.
  - rewrite bind_ret. destruct (to_datetime _); eauto.
Qed.

End WithParsers.

(** X16.  A column of numeric dtype is classified "datetime" or
    "numeric", never "boolean", "categorical" or "text", and its
    detection never fails, whatever sample is drawn. *)
Theorem numeric_column_is_numeric_or_datetime
    (to_datetime to_numeric : list cell -> bool) (strptime : string -> string -> bool)
    (is_string_dtype : list cell -> bool) (str_num : real -> string)
    (rng : draws) (series : list cell) :
  is_numeric_dtype series = true ->
  detect_data_type to_datetime to_numeric strptime is_string_dtype str_num rng series
  = Ret "datetime"
  \/ detect_data_type to_datetime to_numeric strptime is_string_dtype str_num rng series
     = Ret "numeric".
Proof.
  intros Hnum. unfold detect_data_type.
  destruct (is_possible_datetime_returns to_datetime strptime str_num (draw_datetime rng)
              series) as [b ->].
  rewrite bind_ret. destruct b; [now left |]. right.
  unfold is_possible_numeric. rewrite Hnum. reflexivity.
Qed.

Lemma numeric_column_witness :
  let rng := {| draw_datetime := [2; 0; 1]%nat; draw_numeric := []; draw_boolean := [] |} in
  let series := [num 3; CNull; num 5; num 8] in
  detect_data_type simple_to_datetime simple_to_numeric simple_strptime simple_is_string_dtype
    Encoding.simple_str_num rng series = Ret "datetime"
  \/ detect_data_type simple_to_datetime simple_to_numeric simple_strptime
       simple_is_string_dtype Encoding.simple_str_num rng series = Ret "numeric".
Proof.
  apply (numeric_column_is_numeric_or_datetime simple_to_datetime simple_to_numeric
           simple_strptime simple_is_string_dtype Encoding.simple_str_num
           {| draw_datetime := [2; 0; 1]%nat; draw_numeric := []; draw_boolean := [] |}
           [num 3; CNull; num 5; num 8]).
  reflexivity.
Defined.

(** X17.  On a column that is not numeric, has a null and has fewer
    than 100 non-null values, type detection answers "datetime" or
    fails: the numeric check asks the non-null values for a sample of
    as many values as the column has rows.  The failure is that of an
    empty population when the column holds nulls only, and that of a
    sample larger than the population otherwise. *)
Theorem detection_fails_on_column_with_nulls
    (to_datetime to_numeric : list cell -> bool) (strptime : string -> string -> bool)
    (is_string_dtype : list cell -> bool) (str_num : real -> string)
    (rng : draws) (series : list cell) :
  is_numeric_dtype series = false ->
  CNull ∈ series -> (length (dropna series) < 100)%nat ->
  (dropna series = []
   /\ detect_data_type to_datetime to_numeric strptime is_string_dtype str_num rng series
      = Raise "a must be greater than 0 unless no samples are taken")
  \/ (dropna series <> []
      /\ (detect_data_type to_datetime to_numeric strptime is_string_dtype str_num rng series
          = Ret "datetime"
          \/ detect_data_type to_datetime to_numeric strptime is_string_dtype str_num rng
               series
             = Raise "Cannot take a larger sample than population when 'replace=False'")).
Proof.
  intros Hnum Hnull Hlen.
  assert (Hlt : (length (dropna series) < length series)%nat).
  { clear -Hnull. induction series as [|c t IH]; [inversion Hnull |].
    pose proof (dropna_length t) as Hle. unfold dropna in *. simpl.
    apply elem_of_cons in Hnull as [<- | Hin]; [simpl; lia |].
    specialize (IH Hin). destruct (notna c); simpl; lia. }
  assert (Hnumeric : forall draw,
    is_possible_numeric to_numeric draw series
    = Raise (if (length (dropna series) =? 0)%nat
             then "a must be greater than 0 unless no samples are taken"
             else "Cannot take a larger sample than population when 'replace=False'")).
  { intros draw. unfold is_possible_numeric. rewrite Hnum.
    rewrite sample_too_large by lia. reflexivity. }
  unfold detect_data_type. destruct (dropna series) as [|c0 rest] eqn:Ed.
  - left. split; [reflexivity |].
    unfold is_possible_datetime. rewrite Ed. cbn [length Nat.eqb].
    change (mret false) with (Ret false : py bool).
    rewrite bind_ret, Hnumeric. reflexivity.
  - right. split; [discriminate |].
    destruct (is_possible_datetime_returns to_datetime strptime str_num (draw_datetime rng)
                series) as [b Hb].
    rewrite Hb, bind_ret. destruct b; [now left |]. right.
    rewrite Hnumeric. reflexivity.
Qed.

Lemma detection_fails_witness :
  let rng := {| draw_datetime := [1; 0]%nat; draw_numeric := [0; 1; 2]%nat;
                draw_boolean := [] |} in
  let series := [CStr "red"; CNull; CStr "blue"] in
  (dropna series = []
   /\ detect_data_type simple_to_datetime simple_to_numeric simple_strptime
        simple_is_string_dtype Encoding.simple_str_num rng series
      = Raise "a must be greater than 0 unless no samples are taken")
  \/ (dropna series <> []
      /\ (detect_data_type simple_to_datetime simple_to_numeric simple_strptime
            simple_is_string_dtype Encoding.simple_str_num rng series = Ret "datetime"
          \/ detect_data_type simple_to_datetime simple_to_numeric simple_strptime
               simple_is_string_dtype Encoding.simple_str_num rng series
             = Raise "Cannot take a larger sample than population when 'replace=False'")).
Proof.
  apply (detection_fails_on_column_with_nulls simple_to_datetime simple_to_numeric
           simple_strptime simple_is_string_dtype Encoding.simple_str_num
           {| draw_datetime := [1; 0]%nat; draw_numeric := [0; 1; 2]%nat;
              draw_boolean := [] |}
           [CStr "red"; CNull; CStr "blue"]).
  - reflexivity.
  - right. left.
  - simpl. lia.
Defined.

(** X18.  A conversion suggestion starts from the current type and
    never proposes it: its target is "datetime", "numeric", "boolean"
    or "category" and differs from the current type. *)
Theorem suggestion_never_proposes_the_current_type
    (to_datetime to_numeric : list cell -> bool) (strptime : string -> string -> bool)
    (is_string_dtype : list cell -> bool) (str_num : real -> string)
    (rng : draws) (series : list cell) (current_type : string) (s : suggestion) :
  get_conversion_suggestion to_datetime to_numeric strptime is_string_dtype str_num rng series
    current_type = Ret (Some s) ->
  from s = current_type /\ to s <> current_type
  /\ to s ∈ ["datetime"; "numeric"; "boolean"; "category"].
Proof.
  unfold get_conversion_suggestion.
  destruct (detect_data_type _ _ _ _ _ rng series) as [detected|e]; [| discriminate].
  rewrite bind_ret.
  destruct (String.eqb detected current_type) eqn:Ecur; [discriminate |].
  apply String.eqb_neq in Ecur.
  destruct (String.eqb detected "datetime") eqn:E1.
  { apply String.eqb_eq in E1. subst detected. intros [= <-]. cbn [from to].
    split; [reflexivity | split; [exact Ecur | set_solver]]. }
  destruct (String.eqb detected "numeric") eqn:E2.
  { apply String.eqb_eq in E2. subst detected. intros [= <-]. cbn [from to].
    split; [reflexivity | split; [exact Ecur | set_solver]]. }
  destruct (String.eqb detected "boolean") eqn:E3.
  { apply String.eqb_eq in E3. subst detected. intros [= <-]. cbn [from to].
    split; [reflexivity | split; [exact Ecur | set_solver]]. }
  destruct (String.eqb detected "categorical") eqn:E4; [| discriminate].
  destruct (String.eqb current_type "category") eqn:E5; [discriminate |].
  cbn [negb andb]. intros [= <-]. cbn [from to]. apply String.eqb_neq in E5.
  split; [reflexivity | split; [congruence | set_solver]].
Qed.

Lemma suggestion_witness :
  let s := {| from := "object"; to := "numeric"; method := "pd.to_numeric";
              example := "pd.to_numeric(df['column'], errors='coerce')" |} in
  from s = "object" /\ to s <> "object"
  /\ to s ∈ ["datetime"; "numeric"; "boolean"; "category"].
Proof.
  apply (suggestion_never_proposes_the_current_type simple_to_datetime simple_to_numeric
           simple_strptime simple_is_string_dtype Encoding.simple_str_num
           {| draw_datetime := [0; 1]%nat; draw_numeric := [0; 1]%nat; draw_boolean := [] |}
           [CStr "12"; CStr "7"] "object").
  reflexivity.
Defined.

End DetectionTypeProperties.

(** ** Prediction from an uploaded file *)

Module UploadFacts.

Import Upload PyFacts FrameFacts ForestFacts OrdinalFacts TreatmentFacts.

(** The frame built from the required columns: it has a column for a
    name exactly when the name is required, and the column is the one
    of the file. *)
Lemma collect_get (df : DataFrame) (pairs : list (string * list cell))
    (acc : DataFrame) (c : string) :
  (forall f col, (f, col) ∈ pairs -> Dict.get df f = Some col) ->
  Dict.get (foldl (fun acc fc => Dict.set acc (fst fc) (snd fc)) acc pairs) c
  = if decide (c ∈ map fst pairs) then Dict.get df c else Dict.get acc c.
Proof.
  revert acc. induction pairs as [|[f col] rest IH]; intros acc Hp; [reflexivity |].
  cbn [foldl fst snd map]. rewrite IH by (intros; apply Hp; now right).
  destruct (decide (c ∈ map fst rest)) as [Hin | Hnot].
  - rewrite decide_True by now right. reflexivity.
  - destruct (decide (c = f)) as [-> | Hne].
    + rewrite decide_True by now left. rewrite dict_get_set_eq. symmetry. apply Hp. now left.
    + rewrite decide_False by (intros H; apply elem_of_cons in H as [? | ?]; auto).
      apply dict_get_set_ne. congruence.
Qed.

Lemma mapM_getitem_zip (df : DataFrame) (names : list string) (cols : list (list cell)) :
  mapM (getitem df) names = Ret cols ->
  map fst (zip names cols) = names
  /\ (forall f col, (f, col) ∈ zip names cols -> Dict.get df f = Some col)
  /\ (forall f, f ∈ names -> is_Some (Dict.get df f)).
Proof.
  revert cols. induction names as [|n rest IH]; intros cols Em.
  - split; [reflexivity |]. split; [intros f col H | intros f H]; inversion H.
  - cbn [mapM] in Em. rewrite dict_get_getitem in Em.
    destruct (Dict.get df n) as [c1|] eqn:E1; [| discriminate].
    rewrite bind_ret in Em. destruct (mapM (getitem df) rest) as [cs|e]; [| discriminate].
    rewrite bind_ret in Em. injection Em as <-.
    destruct (IH cs eq_refl) as (Hfst & Hget & Hsome). split; [| split].
    + change (n :: map fst (zip rest cs) = n :: rest). now rewrite Hfst.
    + intros f col H. apply elem_of_cons in H as [[= -> ->] | H]; [exact E1 | now apply Hget].
    + intros f H. apply elem_of_cons in H as [-> | H]; [rewrite E1; eauto | now apply Hsome].
Qed.

Lemma required_columns_get (df prediction_df : DataFrame) (required_features : list string) :
  required_columns df required_features = Ret prediction_df ->
  (forall f, f ∈ required_features ->
     exists col, getitem df f = Ret col /\ getitem prediction_df f = Ret col)
  /\ (forall c, c ∉ required_features -> getitem prediction_df c = Raise (key_error c)).
Proof.
  unfold required_columns. intros H.
  destruct (mapM (getitem df) required_features) as [cols|e] eqn:Em; [| discriminate].
  rewrite bind_ret in H. injection H as <-.
  destruct (mapM_getitem_zip df required_features cols Em) as (Hfst & Hget & Hsome).
  split.
  - intros f Hf. destruct (Hsome f Hf) as [col Hcol]. exists col.
    rewrite !dict_get_getitem, (collect_get df _ [] f Hget), Hfst.
    rewrite decide_True by exact Hf. now rewrite Hcol.
  - intros c Hc. rewrite dict_get_getitem, (collect_get df _ [] c Hget), Hfst.
    rewrite decide_False by exact Hc. reflexivity.
Qed.

Section WithReaders.

Variable decode : string -> py string.

Variable read_csv : string -> py DataFrame.

Variable read_excel : string -> py DataFrame.

(** A file that is accepted was read by one of the two readers, and
    what is stored of it are its required columns. *)
Lemma process_prediction_file_stored (contents : option string) (filename : string)
    (required_features : list string) (status : string) (file_data : DataFrame) :
  process_prediction_file decode read_csv read_excel contents filename required_features
  = Ret (status, Some file_data) ->
  exists decoded df,
    decode (default "" contents) = Ret decoded
    /\ (read_csv decoded = Ret df \/ read_excel decoded = Ret df)
    /\ status = "File processed: " +:+ filename +:+ " (" +:+ pretty (nrows df) +:+ " rows)"
    /\ required_columns df required_features = Ret file_data.
Proof.
  unfold process_prediction_file.
  destruct (negb (StatTest.truthy_str contents) || (length required_features =? 0)%nat);
    [discriminate |].
  destruct (decode (default "" contents)) as [decoded|e]; [| discriminate].
  rewrite bind_ret.
  assert (Hcheck : forall df,
    check_features df filename required_features = Ret (status, Some file_data) ->
    status = "File processed: " +:+ filename +:+ " (" +:+ pretty (nrows df) +:+ " rows)"
    /\ required_columns df required_features = Ret file_data).
  { intros df. unfold check_features.
    destruct (List.filter _ required_features); [| discriminate].
    destruct (required_columns df required_features) as [p|e] eqn:Er; [| discriminate].
    rewrite bind_ret. intros [= <- <-]. split; reflexivity. }
  intros H. exists decoded.
  destruct (contains "csv" (TypeInference.lower filename)).
  - destruct (read_csv decoded) as [df|e]; [| discriminate].
    rewrite bind_ret in H. exists df.
    destruct (check_features df filename required_features) as [[s o]|e] eqn:Ec;
      [| discriminate].
    cbn [try_except] in H. injection H as -> ->.
    destruct (Hcheck df Ec). auto.
  - destruct (contains "xls" (TypeInference.lower filename)); [| discriminate].
    destruct (read_excel decoded) as [df|e]; [| discriminate].
    rewrite bind_ret in H. exists df.
    destruct (check_features df filename required_features) as [[s o]|e] eqn:Ec;
      [| discriminate].
    cbn [try_except] in H. injection H as -> ->.
    destruct (Hcheck df Ec). auto.
Qed.

End WithReaders.

End UploadFacts.

Module UploadProperties.

Import Upload Forest PyFacts FrameFacts ForestFacts OrdinalFacts UploadFacts.

(** X19.  A file accepted for prediction was read by the reader of its
    extension, its status reports the number of rows of the file, and
    what is stored of it is every required feature with the column the
    file has for it, and no other column. *)
Theorem accepted_file_stores_the_required_columns
    (decode : string -> py string) (read_csv read_excel : string -> py DataFrame)
    (contents : option string) (filename : string) (required_features : list string)
    (status : string) (file_data : DataFrame) :
  process_prediction_file decode read_csv read_excel contents filename required_features
  = Ret (status, Some file_data) ->
  exists decoded df,
    decode (default "" contents) = Ret decoded
    /\ (read_csv decoded = Ret df \/ read_excel decoded = Ret df)
    /\ status = "File processed: " +:+ filename +:+ " (" +:+ pretty (nrows df) +:+ " rows)"
    /\ (forall f, f ∈ required_features ->
          exists col, getitem df f = Ret col /\ getitem file_data f = Ret col)
    /\ (forall c, c ∉ required_features -> getitem file_data c = Raise (key_error c)).
Proof.
  intros H.
  apply process_prediction_file_stored in H as (decoded & df & Hd & Hr & Hs & Hcols).
  exists decoded, df. split; [exact Hd |]. split; [exact Hr |]. split; [exact Hs |].
  now apply required_columns_get.
Qed.

Lemma accepted_file_witness :
  let df := [("age", [num 31; num 40]); ("city", [CStr "Oslo"; CStr "Rome"]);
             ("income", [num 10; num 20])] in
  let contents := Some "data:text/csv;base64,QQ==" in
  exists decoded df',
    plain_decode (default "" contents) = Ret decoded
    /\ (fixed_reader df decoded = Ret df' \/ fixed_reader [] decoded = Ret df')
    /\ "File processed: people.CSV (2 rows)"
       = "File processed: " +:+ "people.CSV" +:+ " (" +:+ pretty (nrows df') +:+ " rows)"
    /\ (forall f, f ∈ ["income"; "age"] ->
          exists col, getitem df' f = Ret col
                      /\ getitem [("income", [num 10; num 20]); ("age", [num 31; num 40])] f
                         = Ret col)
    /\ (forall c, c ∉ ["income"; "age"] ->
          getitem [("income", [num 10; num 20]); ("age", [num 31; num 40])] c
          = Raise (key_error c)).
Proof.
  apply (accepted_file_stores_the_required_columns plain_decode
           (fixed_reader [("age", [num 31; num 40]); ("city", [CStr "Oslo"; CStr "Rome"]);
                          ("income", [num 10; num 20])])
           (fixed_reader []) (Some "data:text/csv;base64,QQ==") "people.CSV"
           ["income"; "age"]).
  reflexivity.
Defined.

(** X20.  A prediction from an accepted file fails when the target of
    the model is not among the required features: the file branch of
    the prediction reads the target column of the stored data, which
    holds the required features only, so the answer is a notice and
    never a table of predictions. *)
Theorem file_prediction_needs_the_target_column {F : Type}
    (decode : string -> py string) (read_csv read_excel : string -> py DataFrame)
    (str_num : real -> string) (RandomForestClassifier : hyper -> py F)
    (fit_predict : F -> list (list cell) -> list cell -> py (list cell))
    (float_of_string : string -> py float)
    (contents : option string) (filename : string) (required_features : list string)
    (status : string) (file_data : DataFrame) (manual_values : list cell)
    (manual_ids : list string) (model : model_info)
    (feature_info : list (string * feature_meta)) :
  process_prediction_file decode read_csv read_excel contents filename required_features
  = Ret (status, Some file_data) ->
  target model ∉ required_features ->
  exists text,
    make_predictions str_num (refit_predict RandomForestClassifier fit_predict)
      float_of_string FileButton manual_values manual_ids file_data (Some model) feature_info
    = Notice text.
Proof.
  intros H Ht.
  apply process_prediction_file_stored in H as (decoded & df & _ & _ & _ & Hcols).
  apply required_columns_get in Hcols as [_ Hmiss]. specialize (Hmiss _ Ht).
  unfold make_predictions. destruct feature_info as [|entry fi]; [eauto |].
  cbn [predict]. destruct (nrows file_data =? 0)%nat; [cbn; eauto |].
  destruct (preprocess _ _ _ _ _ _) as [[notice|X]|e]; [cbn; eauto | | cbn; eauto].
  rewrite bind_ret. unfold refit_predict.
  destruct (RandomForestClassifier (params model)) as [forest|e]; [| cbn; eauto].
  rewrite bind_ret.
  destruct (mapM (getitem file_data) (features model)) as [X'|e]; [| cbn; eauto].
  rewrite bind_ret, Hmiss. cbn. eauto.
Qed.

Lemma file_prediction_witness :
  let model := {| features := ["age"; "income"]; target := "bought";
                  target_info := NumericTarget; params := default_params;
                  feature_importances := [("age", 1 # 2); ("income", 1 # 2)] |} in
  let feature_info := [("age", NumericFeature (fin 35) (fin 4));
                       ("income", NumericFeature (fin 15) (fin 5))] in
  exists text,
    make_predictions Encoding.simple_str_num (refit_predict new_forest echo_fit)
      reject_string FileButton [] []
      [("age", [num 31; num 40]); ("income", [num 10; num 20])] (Some model) feature_info
    = Notice text.
Proof.
  apply (file_prediction_needs_the_target_column plain_decode
           (fixed_reader [("age", [num 31; num 40]); ("income", [num 10; num 20]);
                          ("bought", [CStr "no"; CStr "yes"])])
           (fixed_reader []) Encoding.simple_str_num new_forest echo_fit reject_string
           (Some "data:text/csv;base64,QQ==") "people.csv" ["age"; "income"]
           "File processed: people.csv (2 rows)"
           [("age", [num 31; num 40]); ("income", [num 10; num 20])] [] []
           {| features := ["age"; "income"]; target := "bought";
              target_info := NumericTarget; params := default_params;
              feature_importances := [("age", 1 # 2); ("income", 1 # 2)] |}
           [("age", NumericFeature (fin 35) (fin 4));
            ("income", NumericFeature (fin 15) (fin 5))]).
  - reflexivity.
  - intros H. repeat (apply elem_of_cons in H as [H | H]; [discriminate |]). inversion H.
Defined.

End UploadProperties.

(** ** Dropdown options and the checks of the analyses *)

Module OptionFacts.

Import StatTest Options Regression PyFacts FrameFacts.

(** A column offered as numeric exists and has a numeric dtype. *)
Lemma numeric_cols_spec (df : DataFrame) (col : string) :
  col ∈ numeric_cols df ->
  exists series, getitem df col = Ret series /\ is_numeric_dtype series = true.
Proof.
  unfold numeric_cols. intros H. apply list_elem_of_In, List.filter_In in H as [_ H].
  unfold numeric in H. destruct (getitem df col) as [series|e]; [eauto | discriminate].
Qed.

End OptionFacts.

Module OptionProperties.

Import StatTest Options Regression PyFacts FrameFacts OptionFacts.

(** X21.  The variables offered for a Pearson or Spearman test are
    numeric columns of the table, so a test run on two of them never
    answers that both axes must be numeric. *)
Theorem offered_correlation_variables_pass_the_numeric_check
    (pearsonr spearmanr polyfit : string -> string -> list (Q * Q) -> py (float * float))
    (chi2_contingency : list cell -> list cell -> py (float * float * nat))
    (n_clicks : option nat) (test_type : option string) (data : DataFrame)
    (x_axis y_axis : string) :
  is_correlation_test test_type ->
  x_axis ∈ fst (update_test_dropdowns test_type data) ->
  y_axis ∈ snd (update_test_dropdowns test_type data) ->
  numeric_column data x_axis /\ numeric_column data y_axis
  /\ forall name,
       perform_test pearsonr spearmanr polyfit chi2_contingency n_clicks test_type
         (Some x_axis) (Some y_axis) data
       <> Ret (Message ("Both X-axis and Y-axis must be numeric for " +:+ name
                        +:+ " Correlation.")).
Proof.
  intros Htest Hx Hy.
  assert (Hopts : x_axis ∈ numeric_cols data /\ y_axis ∈ numeric_cols data).
  { revert Hx Hy. unfold update_test_dropdowns.
    destruct (_ || _); [intros H; inversion H |].
    destruct Htest as [-> | ->]; cbn; auto. }
  destruct Hopts as [Hx' Hy'].
  destruct (numeric_cols_spec data x_axis Hx') as (xs & Exs & Nxs).
  destruct (numeric_cols_spec data y_axis Hy') as (ys & Eys & Nys).
  split; [exists xs; auto |]. split; [exists ys; auto |].
  intros name. unfold perform_test.
  destruct (_ || _); [discriminate |].
  assert (Hcorr : forall label stat with_line,
    try_except (correlation polyfit label stat with_line data x_axis y_axis)
      (fun e => Message ("Error performing test: " +:+ e))
    <> Message ("Both X-axis and Y-axis must be numeric for " +:+ name +:+ " Correlation.")).
  { intros label stat with_line. unfold correlation.
    rewrite Exs, bind_ret, Nxs. cbn [negb]. rewrite Eys, bind_ret, Nys. cbn [negb].
    destruct (_ <? 2)%nat; [cbn; discriminate |].
    unfold correlate. destruct (stat x_axis y_axis _) as [cp|e]; [| cbn; discriminate].
    rewrite bind_ret. destruct with_line.
    - destruct (polyfit x_axis y_axis _) as [coef|e]; cbn; discriminate.
    - cbn. discriminate. }
  intros [= H]. revert H. unfold run_test.
  destruct Htest as [-> | ->]; cbn [from_option id String.eqb Ascii.eqb Bool.eqb].
  - destruct (negb (truthy_str (Some y_axis))); [cbn; discriminate | apply Hcorr].
  - destruct (negb (truthy_str (Some y_axis))); [cbn; discriminate | apply Hcorr].
Qed.

Lemma offered_correlation_witness :
  let data := [("age", [num 31; num 40; CNull]); ("city", [CStr "Oslo"; CStr "Rome"; CNull]);
               ("income", [num 10; CNull; num 20])] in
  numeric_column data "income" /\ numeric_column data "age"
  /\ forall name,
       perform_test failing_stat failing_stat failing_stat failing_chi2 (Some 1%nat)
         (Some "spearman") (Some "income") (Some "age") data
       <> Ret (Message ("Both X-axis and Y-axis must be numeric for " +:+ name
                        +:+ " Correlation.")).
Proof.
  apply (offered_correlation_variables_pass_the_numeric_check failing_stat failing_stat
           failing_stat failing_chi2 (Some 1%nat) (Some "spearman")
           [("age", [num 31; num 40; CNull]); ("city", [CStr "Oslo"; CStr "Rome"; CNull]);
            ("income", [num 10; CNull; num 20])] "income" "age").
  - right. reflexivity.
  - right. left.
  - left.
Defined.

(** X22.  The variables offered for the regression are numeric columns
    of the table, so a regression on two of them never answers that
    both variables must be numeric, and with fewer than two complete
    rows it answers that there are not enough valid data points. *)
Theorem offered_regression_variables_pass_the_numeric_check
    (fit : string -> string -> list (real * real) -> py ols_results)
    (figure : string -> string -> list (real * real) -> ols_results -> py unit)
    (format_3f format_3e : float -> string) (index_error : nat -> nat -> string)
    (n_clicks : option nat) (data : DataFrame) (x_var y_var : string) :
  x_var ∈ fst (update_regression_dropdowns data) ->
  y_var ∈ snd (update_regression_dropdowns data) ->
  exists xs ys,
    getitem data x_var = Ret xs /\ getitem data y_var = Ret ys
    /\ is_numeric_dtype xs = true /\ is_numeric_dtype ys = true
    /\ perform_regression fit figure format_3f format_3e index_error n_clicks
         (Some x_var) (Some y_var) data
       <> RegressionError "Both variables must be numeric for regression analysis."
    /\ (StatTest.truthy_nat n_clicks = true -> x_var <> "" -> y_var <> "" ->
        (length (complete_pairs xs ys) < 2)%nat ->
        perform_regression fit figure format_3f format_3e index_error n_clicks
          (Some x_var) (Some y_var) data
        = RegressionError "Not enough valid data points for regression analysis.").
Proof.
  unfold update_regression_dropdowns.
  destruct (nrows data =? 0)%nat eqn:Erows; [intros H; inversion H |].
  cbn [fst snd]. intros Hx Hy.
  destruct (numeric_cols_spec data x_var Hx) as (xs & Exs & Nxs).
  destruct (numeric_cols_spec data y_var Hy) as (ys & Eys & Nys).
  exists xs, ys. repeat (split; [assumption |]).
  unfold perform_regression. rewrite Erows, orb_false_r.
  assert (Hbody : regress fit figure format_3f format_3e index_error data x_var y_var
    = if (length (complete_pairs xs ys) <? 2)%nat then
        mret (RegressionError "Not enough valid data points for regression analysis.")
      else
        results ← fit x_var y_var (complete_pairs xs ys);
        intercept ← param index_error results 0;
        slope ← param index_error results 1;
        _ ← figure x_var y_var (complete_pairs xs ys) results;
        mret (Regressed
                ("y = " +:+ format_3f slope +:+ "x "
                 +:+ (if ge intercept (fin 0) then "+" else "-") +:+ " "
                 +:+ format_3f (abs intercept))
                [format_3f slope; format_3f intercept;
                 format_3f (rsquared results); format_3e (f_pvalue results)])).
  { unfold regress. rewrite Exs, bind_ret, Nxs. cbn [negb].
    rewrite Eys, bind_ret, Nys. reflexivity. }
  cbn [from_option id]. rewrite Hbody. split.
  - destruct (_ || _); [discriminate |].
    destruct (_ <? 2)%nat; [cbn; discriminate |].
    destruct (fit x_var y_var _) as [results|e]; [| cbn; discriminate].
    rewrite bind_ret. destruct (param index_error results 0) as [b0|e]; [| cbn; discriminate].
    rewrite bind_ret. destruct (param index_error results 1) as [b1|e]; [| cbn; discriminate].
    rewrite bind_ret. destruct (figure x_var y_var _ results); cbn; discriminate.
  - intros Hn Hxne Hyne Hlen. rewrite Hn.
    destruct x_var; [congruence |]. destruct y_var; [congruence |].
    cbn [StatTest.truthy_str negb orb].
    apply Nat.ltb_lt in Hlen. rewrite Hlen. reflexivity.
Qed.

Lemma offered_regression_witness :
  let data := [("age", [num 31; num 40; CNull]); ("city", [CStr "Oslo"; CStr "Rome"; CNull]);
               ("income", [num 10; CNull; num 20])] in
  exists xs ys,
    getitem data "income" = Ret xs /\ getitem data "age" = Ret ys
    /\ is_numeric_dtype xs = true /\ is_numeric_dtype ys = true
    /\ perform_regression two_point_fit no_figure simple_format simple_format
         simple_index_error (Some 1%nat) (Some "income") (Some "age") data
       <> RegressionError "Both variables must be numeric for regression analysis."
    /\ (StatTest.truthy_nat (Some 1%nat) = true -> "income" <> "" -> "age" <> "" ->
        (length (complete_pairs xs ys) < 2)%nat ->
        perform_regression two_point_fit no_figure simple_format simple_format
          simple_index_error (Some 1%nat) (Some "income") (Some "age") data
        = RegressionError "Not enough valid data points for regression analysis.").
Proof.
  apply (offered_regression_variables_pass_the_numeric_check two_point_fit no_figure
           simple_format simple_format simple_index_error (Some 1%nat)
           [("age", [num 31; num 40; CNull]); ("city", [CStr "Oslo"; CStr "Rome"; CNull]);
            ("income", [num 10; CNull; num 20])] "income" "age").
  - right. left.
  - left.
Defined.

End OptionProperties.

(** ** The prediction of the regression tab *)

Module RegressionProperties.

Import StatTest Regression PyFacts FrameFacts.

(** X23.  When the regression succeeds and the prediction on the same
    table and variables succeeds, the predicted value is the line of
    the displayed equation at the entered value: the intercept plus
    the value times the slope, for the slope and the intercept that
    the equation and the metrics print. *)
Theorem prediction_follows_the_displayed_equation
    (fit : string -> string -> list (real * real) -> py ols_results)
    (figure : string -> string -> list (real * real) -> ols_results -> py unit)
    (conf_int : ols_results -> float -> py (float * float))
    (format_3f format_3e : float -> string) (float_of_string : string -> py float)
    (index_error shape_error : nat -> nat -> string)
    (n_clicks n_clicks' : option nat) (x_value : cell) (x_var y_var : option string)
    (data : DataFrame) (equation : string) (metrics : list string)
    (prediction : float) (prediction_interval : float * float) :
  perform_regression fit figure format_3f format_3e index_error n_clicks x_var y_var data
  = Regressed equation metrics ->
  make_prediction fit conf_int float_of_string shape_error n_clicks' x_value x_var y_var data
  = Predicted prediction prediction_interval ->
  exists intercept slope x,
    float_of float_of_string x_value = Ret x
    /\ equation = "y = " +:+ format_3f slope +:+ "x "
                  +:+ (if ge intercept (fin 0) then "+" else "-") +:+ " "
                  +:+ format_3f (abs intercept)
    /\ metrics !! 0%nat = Some (format_3f slope)
    /\ metrics !! 1%nat = Some (format_3f intercept)
    /\ prediction = add (mul (fin 1) intercept) (mul x slope).
Proof.
  unfold perform_regression, make_prediction.
  destruct (_ || _); [discriminate |]. destruct (_ || _); [discriminate |].
  unfold regress, predict.
  destruct (getitem data (default "" x_var)) as [xs|e]; [| discriminate].
  rewrite !bind_ret. destruct (negb (is_numeric_dtype xs)); [discriminate |].
  destruct (getitem data (default "" y_var)) as [ys|e]; [| discriminate].
  rewrite !bind_ret. destruct (negb (is_numeric_dtype ys)); [discriminate |].
  cbv zeta. destruct (_ <? 2)%nat; [discriminate |].
  destruct (fit _ _ _) as [results|e]; [| discriminate].
  rewrite !bind_ret. unfold param, predict_row.
  destruct (params results) as [|intercept [|slope rest]]; try discriminate.
  cbn [lookup list_lookup]. rewrite !bind_ret.
  destruct (figure _ _ _ results) as [[]|e]; [| discriminate].
  rewrite bind_ret. cbn [try_except mret py_ret]. intros [= <- <-].
  destruct (float_of float_of_string x_value) as [x|e]; [| discriminate].
  rewrite bind_ret. destruct rest as [|extra rest]; [| discriminate].
  cbn [length Nat.eqb]. rewrite bind_ret.
  destruct (conf_int results x) as [ci|e]; [| discriminate].
  rewrite bind_ret. cbn [try_except mret py_ret]. intros [= <- <-].
  exists intercept, slope, x. repeat split; reflexivity.
Qed.

Lemma prediction_witness :
  let data := [("hours", [num 1; num 2; CNull; num 3]);
               ("score", [num 3; num 5; num 6; num 7])] in
  exists intercept slope x,
    float_of Forest.reject_string (num 10) = Ret x
    /\ "y = 2x + 1" = "y = " +:+ simple_format slope +:+ "x "
                      +:+ (if ge intercept (fin 0) then "+" else "-") +:+ " "
                      +:+ simple_format (abs intercept)
    /\ ["2"; "1"; "1"; "0"] !! 0%nat = Some (simple_format slope)
    /\ ["2"; "1"; "1"; "0"] !! 1%nat = Some (simple_format intercept)
    /\ fin (1 * 1 + 10 * 2) = add (mul (fin 1) intercept) (mul x slope).
Proof.
  apply (prediction_follows_the_displayed_equation two_point_fit no_figure point_interval
           simple_format simple_format Forest.reject_string simple_index_error
           simple_shape_error (Some 1%nat) (Some 2%nat) (num 10) (Some "hours") (Some "score")
           [("hours", [num 1; num 2; CNull; num 3]); ("score", [num 3; num 5; num 6; num 7])]
           "y = 2x + 1" ["2"; "1"; "1"; "0"] (fin (1 * 1 + 10 * 2))
           (fin (1 * 1 + 10 * 2), fin (1 * 1 + 10 * 2))).
  - reflexivity.
  - reflexivity.
Defined.

End RegressionProperties.
